(** * UpscalerJS: the dataset cache and the performance benchmark

    A shallow embedding of the benchmark script
    ([scripts/package-scripts/benchmark/performance.ts]) and of the process
    runner [callExec] it imports, followed by the properties of the
    specification that concern them.  Line numbers are those of
    [docs/src/pages/demo/index.tsx], where the script follows the demo
    page.

    - JavaScript numbers are IEEE 754 doubles and are modelled by Rocq's
      primitive floats, so every arithmetic expression of the script is
      evaluated exactly as the script evaluates it.
    - Strings are sequences of code units; the model has the code units
      below 256.
    - Objects used as dictionaries are finite maps; a number used as a
      property name is represented by its canonical form.
    - Code that suspends on I/O is a computation in a state-and-exception
      monad over the dataset's in-memory database and a trace of the calls
      made to the outside world (directory listing, image library, file
      writes, inference model, comparison tool, console).  What the
      outside world answers is given by an environment record.  Writing a
      file and creating its parent directory are taken to succeed; only
      the creation of the working directory is traced. *)

From Stdlib Require Import ZArith List Uint63 Ascii String Bool.
From Stdlib Require Import Floats.PrimFloat Floats.SpecFloat Floats.FloatOps.
From Stdlib Require Import Floats.FloatAxioms.
From stdpp Require Import gmap strings sorting pretty.

Set Default Proof Using "Type".
Set Warnings "-inexact-float,-register-all".
Open Scope string_scope.
Open Scope list_scope.

(** ** JavaScript numbers *)

Module JS.

Definition number : Type := float.

Definition of_Z (z : Z) : number :=
  match z with
  | Z0 => zero
  | Zpos _ => of_uint63 (Uint63.of_Z z)
  | Zneg p => PrimFloat.opp (of_uint63 (Uint63.of_Z (Zpos p)))
  end.

Definition of_nat (n : nat) : number := of_Z (Z.of_nat n).

(** [ToBoolean] on a number: [+0], [-0] and [NaN] are falsy. *)
Definition truthy (x : number) : bool := negb (is_zero x || is_nan x).

(** [x === y] and [x !== y] on numbers. *)
Definition strict_eq (x y : number) : bool := PrimFloat.eqb x y.
Definition strict_ne (x y : number) : bool := negb (strict_eq x y).

(** [Math.floor].  A finite double is [(-1)^s * m * 2^e]; with [e >= 0] it
    is an integer already, otherwise the integer part has fewer than 53
    bits and converts back exactly. *)
Definition Math_floor (x : number) : number :=
  match Prim2SF x with
  | S754_finite s m e =>
      if (0 <=? e)%Z then x
      else match Z.shiftr (cond_Zopp s (Zpos m)) (- e) with
           | Z0 => zero
           | Zpos p => of_uint63 (Uint63.of_Z (Zpos p))
           | Zneg p => PrimFloat.opp (of_uint63 (Uint63.of_Z (Zpos p)))
           end
  | _ => x
  end.

(** A number used as a property name is converted with [ToString].  The
    conversion is injective on doubles except that both zeros print as [0],
    so the canonical representation with the sign of zero erased stands for
    the resulting string. *)
Definition PropertyKey : Type := spec_float.

Definition toKey (x : number) : PropertyKey :=
  match Prim2SF x with
  | S754_zero _ => S754_zero false
  | k => k
  end.

#[global] Instance spec_float_eq_dec : EqDecision spec_float.
Proof. solve_decision. Defined.

Definition spec_float_enc (x : spec_float) : bool + bool + (unit + bool * positive * Z) :=
  match x with
  | S754_zero s => inl (inl s)
  | S754_infinity s => inl (inr s)
  | S754_nan => inr (inl tt)
  | S754_finite s m e => inr (inr (s, m, e))
  end.

Definition spec_float_dec (y : bool + bool + (unit + bool * positive * Z)) : spec_float :=
  match y with
  | inl (inl s) => S754_zero s
  | inl (inr s) => S754_infinity s
  | inr (inl _) => S754_nan
  | inr (inr (s, m, e)) => S754_finite s m e
  end.

#[global] Instance spec_float_countable : Countable spec_float.
Proof.
  refine (inj_countable' spec_float_enc spec_float_dec _).
  intros []; reflexivity.
Defined.

(** *** Strings *)

Definition space : ascii := " "%char.

(** [s.split(' ')[0]]: [split] always yields at least one piece, and the
    first piece is the text before the first space. *)
Fixpoint first_token (s : string) : string :=
  match s with
  | EmptyString => EmptyString
  | String c r => if Ascii.eqb c space then EmptyString else String c (first_token r)
  end.

(** [!s] on a string: only the empty string is falsy. *)
Definition string_truthy (s : string) : bool :=
  match s with EmptyString => false | String _ _ => true end.

(** [s.split(sep).join(by)] for a one-character separator. *)
Fixpoint replace_char (sep : ascii) (by_ : string) (s : string) : string :=
  match s with
  | EmptyString => EmptyString
  | String c r =>
      if Ascii.eqb c sep then (by_ ++ replace_char sep by_ r)%string
      else String c (replace_char sep by_ r)
  end.

(** [s.split('.').pop()]: the text after the last dot (all of [s] without one). *)
Fixpoint last_segment_aux (acc : string) (s : string) : string :=
  match s with
  | EmptyString => acc
  | String c r =>
      if Ascii.eqb c "."%char then last_segment_aux r r
      else last_segment_aux acc r
  end.

Definition last_segment (s : string) : string := last_segment_aux s s.

(** *** parseFloat *)

Definition is_digit (c : ascii) : bool :=
  let n := nat_of_ascii c in (48 <=? n)%nat && (n <=? 57)%nat.

Definition digit_val (c : ascii) : Z := Z.of_nat (nat_of_ascii c - 48).

(** White space and line terminators among the code units below 256. *)
Definition is_white (c : ascii) : bool :=
  let n := nat_of_ascii c in
  ((9 <=? n)%nat && (n <=? 13)%nat) || (n =? 32)%nat || (n =? 160)%nat.

Fixpoint trim_start (s : string) : string :=
  match s with
  | String c r => if is_white c then trim_start r else s
  | EmptyString => EmptyString
  end.

(** Reads a run of decimal digits: the number read so far, how many digits
    were read, and the rest. *)
Fixpoint read_digits (acc : Z) (n : nat) (s : string) : Z * nat * string :=
  match s with
  | String c r =>
      if is_digit c then read_digits (10 * acc + digit_val c) (S n) r
      else (acc, n, s)
  | EmptyString => (acc, n, s)
  end.

(** The double nearest to [num / den] (ties to even), for positive [num]
    and [den]: the quotient is computed to at least 64 bits and the
    remainder folded into a sticky bit before the final rounding. *)
Definition nearest_ratio (num den : Z) : spec_float :=
  let k := Z.max 0 (66 + Z.log2 den - Z.log2 num) in
  let q := Z.div (Z.shiftl num k) den in
  let r := Z.modulo (Z.shiftl num k) den in
  let sticky := if (r =? 0)%Z then 0%Z else 1%Z in
  binary_normalize prec emax (2 * q + sticky) (- k - 1) false.

(** The value of the decimal [m * 10^e]. *)
Definition decimal_value (m e : Z) : number :=
  if (m =? 0)%Z then zero
  else if (0 <=? e)%Z then SF2Prim (binary_normalize prec emax (m * 10 ^ e) 0 false)
  else SF2Prim (nearest_ratio m (10 ^ (- e))).

(** [ExponentPart]: consumed only when at least one digit follows. *)
Definition read_exponent (s : string) : Z :=
  match s with
  | String c r =>
      if Ascii.eqb c "e"%char || Ascii.eqb c "E"%char then
        let '(neg, r') :=
          match r with
          | String "-"%char r' => (true, r')
          | String "+"%char r' => (false, r')
          | _ => (false, r)
          end in
        let '(v, n, _) := read_digits 0 0 r' in
        match n with
        | O => 0%Z
        | S _ => if neg then (- v)%Z else v
        end
      else 0%Z
  | EmptyString => 0%Z
  end.

Definition parse_unsigned (s : string) : option number :=
  if String.prefix "Infinity" s then Some infinity
  else
    let '(ip, ni, r1) := read_digits 0 0 s in
    let '(m, nf, r2, dotted) :=
      match r1 with
      | String "."%char r =>
          let '(m, nf, r2) := read_digits ip 0 r in (m, nf, r2, true)
      | _ => (ip, O, r1, false)
      end in
    match ni, nf with
    | O, O => None
    | _, _ => Some (decimal_value m (read_exponent r2 - Z.of_nat nf))
    end.

Definition parseFloat (s : string) : number :=
  let t := trim_start s in
  let '(neg, u) :=
    match t with
    | String "-"%char r => (true, r)
    | String "+"%char r => (false, r)
    | _ => (false, t)
    end in
  match parse_unsigned u with
  | Some v => if neg then PrimFloat.opp v else v
  | None => nan
  end.

End JS.

(** ** Data model (lines 42-68 of the script) *)

Import JS.

Record DatasetDefinition := {
  def_name : string;
  def_path : option string;
}.

Record BenchmarkResult := {
  ssim : number;
  psnr : number;
}.

Record ImagePackage := {
  path : string;
  width : number;
  height : number;
}.

Record CroppedPair := {
  crop_original : ImagePackage;
  crop_downscaled : ImagePackage;
}.

Record ProcessedFileDefinition := {
  original : ImagePackage;
  downscaled : ImagePackage;
  cropped : gmap PropertyKey CroppedPair;
  fileName : string;
}.

Abbreviation ScaleTable := (gmap PropertyKey ProcessedFileDefinition).
Abbreviation DatasetDatabase := (gmap string (gmap PropertyKey ProcessedFileDefinition)).

(** ** The outside world *)

(** Image buffers are kept symbolic: what matters to the script is which
    pipeline produced a buffer, never its pixels.  [cover] tells whether
    the resize was asked with [fit: 'cover']. *)
Inductive Image :=
| FileAt (file : string)
| Flatten (i : Image)
| Resize (i : Image) (w h : number) (cover : bool)
| ExtractRegion (i : Image) (w h top left : number)
| Upscaled (model : string) (downscaledPath : string).

Inductive Dirent :=
| FileEnt (name : string)
| DirEnt (name : string) (entries : option (list Dirent)).

(** What [image-size] answers: a rejection, or dimensions whose fields may
    be missing. *)
Inductive SizeAnswer :=
| SizeRejects
| Dimensions (w h : option number).

(** One run of a child process: the chunks it writes and the message of the
    error [exec] reports, if any. *)
Record ProcessRun := {
  stdout_chunks : list string;
  stderr_chunks : list string;
  exit_error : option string;
}.

Record ModelDefinition := {
  md_scale : number;
  md_package : option string;
}.

Record Env := {
  numberToString : number -> string;
  readdirSync : string -> option (list Dirent);
  sizeOf : Image -> SizeAnswer;
  sharp_ok : Image -> bool;
  exec : string -> ProcessRun;
  import_model : string -> option ModelDefinition;
  upscale_ok : string -> string -> bool;
  read_database : string -> option DatasetDatabase;
  makeTmpDir : option string;
  rmSync_ok : bool;
}.

Inductive Error :=
| MissingPathError (message : string)
| NoDimensionsError (file : string)
| NoCroppingError (size : number)
| DimensionsMismatchError (originalWidth originalHeight upscaledWidth upscaledHeight : number)
| NoResponseError
| NoMetricError
| TypeError (expr : string)
| ExternalError (who : string)
| Rejection (reason : string).

(** The text of the error thrown at lines 140-143. *)
Definition missing_path_message (definitionName : string) : string :=
  ("The dataset " ++ definitionName ++
   " has not been fully processed, and you've neglected to pass a path to the dataset." ++
   " " ++ "Please pass a valid path so that the dataset can be processed and cached.")%string.

Inductive Event :=
| EvReaddir (dir : string)
| EvSizeOf (img : Image)
| EvSharp (img : Image)
| EvWriteImage (file : string) (img : Image)
| EvWriteDatabase (file : string) (doc : DatasetDatabase)
| EvProgress (i : nat) (total : number)
| EvUpscale (model : string) (downscaledPath : string)
| EvExec (cmd : string)
| EvReport (model : ModelDefinition) (dataset : string) (result : BenchmarkResult)
| EvMkdir (dir : string)
| EvRemove (dir : string).

(** Image work: reading dimensions, running a sharp pipeline, writing an
    image file. *)
Definition image_work (e : Event) : bool :=
  match e with
  | EvSizeOf _ | EvSharp _ | EvWriteImage _ _ => true
  | _ => false
  end.

(** ** Results and the state-and-exception monad *)

Inductive Result (A : Type) :=
| Ok (a : A)
| Throw (e : Error).
Arguments Ok {A} a.
Arguments Throw {A} e.

Record State := {
  database : DatasetDatabase;
  events : list Event;
}.

Definition M (A : Type) : Type := State -> Result A * State.

#[global] Instance M_ret : MRet M := fun A a st => (Ok a, st).
#[global] Instance M_bind : MBind M := fun A B f m st =>
  match m st with
  | (Ok a, st') => f a st'
  | (Throw e, st') => (Throw e, st')
  end.

Definition throw {A} (e : Error) : M A := fun st => (Throw e, st).
Definition emit (e : Event) : M unit :=
  fun st => (Ok tt, {| database := database st; events := events st ++ [e] |}).
Definition get_database : M DatasetDatabase := fun st => (Ok (database st), st).
Definition put_database (db : DatasetDatabase) : M unit :=
  fun st => (Ok tt, {| database := db; events := events st |}).
Definition lift_result {A} (r : Result A) : M A := fun st => (r, st).

(** [Array.prototype.map] with a callback that may throw: the first throw
    ends the traversal. *)
Fixpoint map_throwing {A B} (f : A -> Result B) (l : list A) : Result (list B) :=
  match l with
  | [] => Ok []
  | x :: rest =>
      match f x with
      | Throw e => Throw e
      | Ok y => match map_throwing f rest with
                | Throw e => Throw e
                | Ok ys => Ok (y :: ys)
                end
      end
  end.

(** [for await (const _ of asyncPool(k, items, worker)) callback()].  Tasks
    are run to completion one after the other in list order.  For the pool
    of width 1 of the benchmark loop this is the schedule; for the pool of
    width 20 of [prepare] it is one of the schedules, and the others yield
    the same database because the tasks of distinct files update distinct
    keys, each update being a single synchronous assignment.  The callback
    receives the number of items completed so far, which is the value of
    the counter its closure increments; [acc] stands for the variables of
    the enclosing function that the worker updates. *)
Fixpoint for_await_pool {A V} (worker : V -> A -> M V) (callback : nat -> M unit)
    (i : nat) (acc : V) (items : list A) : M V :=
  match items with
  | [] => mret acc
  | x :: rest =>
      acc' ← worker acc x;
      callback (S i) ;;
      for_await_pool worker callback (S i) acc' rest
  end.

(** ** Paths *)

Definition ROOT_DIR : string := "/upscalerjs".
Definition path_resolve (base rel : string) : string := (base ++ "/" ++ rel)%string.
Definition path_join (a b : string) : string := (a ++ "/" ++ b)%string.
Definition CACHE_DIR : string := path_resolve ROOT_DIR "tmp/datasets".

(** ** Directory walk (lines 74-90) *)

Definition is_image_ext (ext : string) : bool :=
  bool_decide (ext ∈ ["jpg"; "jpeg"; "png"]).

(** The names one entry contributes, given what the walk of the entry
    itself found: a file contributes its name, a directory the names
    found below it, each joined to the directory's name. *)
Definition contribution (e : Dirent) (found : list string) : list string :=
  match e with
  | FileEnt _ => found
  | DirEnt sub _ => map (path_join sub) found
  end.

Fixpoint collect (walked : list (Dirent * Result (list string))) : Result (list string) :=
  match walked with
  | [] => Ok []
  | (e, r) :: rest =>
      match r with
      | Throw err => Throw err
      | Ok found =>
          match collect rest with
          | Throw err => Throw err
          | Ok more => Ok (contribution e found ++ more)
          end
      end
  end.

Fixpoint walk (d : Dirent) : Result (list string) :=
  match d with
  | FileEnt name => Ok (if is_image_ext (last_segment name) then [name] else [])
  | DirEnt name None => Throw (ExternalError "readdirSync")
  | DirEnt name (Some entries) => collect (map (fun e => (e, walk e)) entries)
  end.

Definition getFiles (env : Env) (dir : string) : M (list string) :=
  emit (EvReaddir dir) ;;
  match walk (DirEnt dir (readdirSync env dir)) with
  | Ok files => mret files
  | Throw e => throw e
  end.

(** ** Dataset (lines 94-100 and 126-320) *)

(** [Array.prototype.sort] without a comparator orders strings by code
    unit, shorter prefix first. *)
Definition str_le (a b : string) : Prop := Is_true (String.leb a b).

#[global] Instance str_le_dec a b : Decision (str_le a b).
Proof. unfold str_le. apply _. Defined.

Record PreparedFile := {
  pf_original : ImagePackage;
  pf_downscaled : ImagePackage;
  pf_fileName : string;
}.

(** [this.database[filename]?.[scale]]; also [this.database[filename][scale]]
    when [filename] is a key of the database. *)
Definition lookup_entry (db : DatasetDatabase) (filename : string) (scale : number)
    : option ProcessedFileDefinition :=
  db !! filename ≫= (.!! toKey scale).

Module Dataset.
Section Methods.
Context (env : Env) (definition : DatasetDefinition).

(** Lines 94-100.  [content] is what the file holds: the source image for a
    dataset file, the buffer just written for an upscaled output. *)
Definition getSize (file : string) (content : Image) : M (number * number) :=
  emit (EvSizeOf content) ;;
  match sizeOf env content with
  | SizeRejects => throw (ExternalError "image-size")
  | Dimensions (Some w) (Some h) =>
      if truthy w && truthy h then mret (w, h) else throw (NoDimensionsError file)
  | Dimensions _ _ => throw (NoDimensionsError file)
  end.

(** [await sharp(...)...toBuffer()]. *)
Definition toBuffer (pipeline : Image) : M Image :=
  emit (EvSharp pipeline) ;;
  if sharp_ok env pipeline then mret pipeline else throw (ExternalError "sharp").

(** Lines 159-167.  [name.split('.')] has at least one part, so the guard
    on [parts.length] never fires; [parts.join('.')] is [name] again. *)
Definition getWritableName (name : string) : string :=
  path_resolve (path_resolve CACHE_DIR (def_name definition))
               (replace_char "/" "-" name).

(** Lines 169-177: any failure to read or parse gives the empty database. *)
Definition getDatasetDatabase : DatasetDatabase :=
  default ∅ (read_database env (getWritableName "database.json")).

(** Lines 179-189. *)
Definition saveDatabase (key : option string) (payload : ScaleTable) : M unit :=
  db ← get_database;
  let db' :=
    match key with
    | Some k =>
        if string_truthy k then <[k := payload ∪ default ∅ (db !! k)]> db else db
    | None => db
    end in
  put_database db' ;;
  emit (EvWriteDatabase (getWritableName "database.json") db').

(** Lines 191-196. *)
Definition saveImage (filename : string) (image : Image) : M string :=
  let originalPath := (getWritableName filename ++ ".png")%string in
  emit (EvWriteImage originalPath image) ;;
  mret originalPath.

Definition getDims (fn : number -> number) (a b : number) : number * number :=
  (fn a, fn b).

Definition scale_suffix (scale : number) (kind : string) : string :=
  ("-scale-" ++ numberToString env scale ++ kind)%string.

Definition crop_suffix (scale cropped : number) (kind : string) : string :=
  ("-scale-" ++ numberToString env scale ++ "-cropped-" ++
   numberToString env cropped ++ kind)%string.

(** Lines 200-235. *)
Definition processOriginal (scale : number) (filePath filename : string) : M unit :=
  db ← get_database;
  match lookup_entry db filename scale with
  | Some _ => mret tt
  | None =>
      '(width, height) ← getSize filePath (FileAt filePath);
      let '(originalWidth, originalHeight) :=
        getDims (fun n => Math_floor (n / scale) * scale)%float width height in
      originalImage ←
        toBuffer (Resize (Flatten (FileAt filePath)) originalWidth originalHeight true);
      originalPath ←
        saveImage (filename ++ scale_suffix scale "-original")%string originalImage;
      let '(downscaledWidth, downscaledHeight) :=
        getDims (fun n => n / scale)%float width height in
      downscaledImage ←
        toBuffer (Resize originalImage downscaledWidth downscaledHeight false);
      downscaledPath ←
        saveImage (filename ++ scale_suffix scale "-downscaled")%string downscaledImage;
      saveDatabase (Some filename)
        {[ toKey scale :=
             {| cropped := ∅;
                original := {| path := originalPath;
                               width := originalWidth;
                               height := originalHeight |};
                downscaled := {| path := downscaledPath;
                                 width := downscaledWidth;
                                 height := downscaledHeight |};
                fileName := filename |} ]}
  end.

(** Lines 257-290, the body of the [if]: [entry] is
    [this.database[filename][scale]], which no other task touches while
    this one is suspended. *)
Definition processCrop (scale crop : number) (filename : string)
    (entry : ProcessedFileDefinition) : M unit :=
  let originalPath := path (original entry) in
  let originalHeight := height (original entry) in
  let originalWidth := width (original entry) in
  let '(originalCroppedWidth, originalCroppedHeight) := (crop, crop) in
  originalCroppedImage ←
    toBuffer (ExtractRegion (FileAt originalPath) originalCroppedWidth originalCroppedHeight
                (originalHeight / 2 - originalCroppedHeight / 2)%float
                (originalWidth / 2 - originalCroppedWidth / 2)%float);
  originalCroppedPath ←
    saveImage (filename ++ crop_suffix scale crop "-original")%string
              originalCroppedImage;
  let '(downscaledCroppedWidth, downscaledCroppedHeight) :=
    getDims (fun n => n / scale)%float originalCroppedWidth originalCroppedHeight in
  downscaledCroppedImage ←
    toBuffer (Resize originalCroppedImage downscaledCroppedWidth
                downscaledCroppedHeight false);
  downscaledCroppedPath ←
    saveImage (filename ++ crop_suffix scale crop "-downscaled")%string
              downscaledCroppedImage;
  saveDatabase (Some filename)
    {[ toKey scale :=
         {| original := original entry;
            downscaled := downscaled entry;
            fileName := fileName entry;
            cropped :=
              <[ toKey crop :=
                   {| crop_original := {| path := originalCroppedPath;
                                          width := originalCroppedWidth;
                                          height := originalCroppedHeight |};
                      crop_downscaled := {| path := downscaledCroppedPath;
                                            width := downscaledCroppedWidth;
                                            height := downscaledCroppedHeight |} |} ]>
                (cropped entry) |} ]}.

(** Lines 236-291. *)
Definition processFile (scale : number) (crop : option number)
    (item : string * string) : M unit :=
  let '(filename, filePath) := item in
  db ← get_database;
  let skip :=
    match lookup_entry db filename scale with
    | Some entry =>
        match crop with
        | None => true
        | Some c => bool_decide (is_Some (cropped entry !! toKey c))
        end
    | None => false
    end in
  if skip then mret tt
  else
    processOriginal scale filePath filename ;;
    db ← get_database;
    match lookup_entry db filename scale with
    | None => throw (TypeError "this.database[filename][scale]")
    | Some entry =>
        match crop with
        | Some c =>
            if truthy c && negb (bool_decide (is_Some (cropped entry !! toKey c)))
            then processCrop scale c filename entry
            else mret tt
        | None => mret tt
        end
    end.

(** Lines 198 and 293-296. *)
Definition prepare (files : list (string * string)) (scale : number)
    (callback : nat -> M unit) (crop : option number) : M unit :=
  for_await_pool (fun _ => processFile scale crop) callback 0 tt files.

(** Lines 137-157. *)
Definition initialize (scale : number) (crop : option number) : M unit :=
  let definitionName := def_name definition in
  match def_path definition with
  | Some definitionPath =>
      if string_truthy definitionPath then
        names ← getFiles env definitionPath;
        let files := map (fun file => (file, path_resolve definitionPath file)) names in
        let total := of_nat (length files) in
        emit (EvProgress 0 total) ;;
        prepare files scale (fun i => emit (EvProgress i total)) crop ;;
        saveDatabase None ∅
      else throw (MissingPathError (missing_path_message definitionName))
  | None => throw (MissingPathError (missing_path_message definitionName))
  end.

End Methods.

(** Lines 298-319.  [this.database[fileName]] is defined for every
    [fileName] of [Object.keys]; reading a property of an undefined
    [file] is a [TypeError]. *)
Definition fileNames (db : DatasetDatabase) : list string :=
  merge_sort str_le (map fst (map_to_list db)).

Definition getFiles_one (db : DatasetDatabase) (scale : number)
    (crop : option number) (name : string) : Result PreparedFile :=
  let file := lookup_entry db name scale in
  if match crop with Some c => truthy c | None => false end then
    match file, crop with
    | Some file, Some c =>
        match cropped file !! toKey c with
        | None => Throw (NoCroppingError c)
        | Some entry =>
            Ok {| pf_original := crop_original entry;
                  pf_downscaled := crop_downscaled entry;
                  pf_fileName := fileName file |}
        end
    | _, _ => Throw (TypeError "file.cropped")
    end
  else
    match file with
    | Some file =>
        Ok {| pf_original := original file;
              pf_downscaled := downscaled file;
              pf_fileName := fileName file |}
    | None => Throw (TypeError "file.original")
    end.

Definition getFiles (db : DatasetDatabase) (scale : number)
    (crop : option number) : Result (list PreparedFile) :=
  map_throwing (getFiles_one db scale crop) (fileNames db).

End Dataset.

(** ** Process runner and metric calculator *)

(** [callExec] (the imported module): three parameters, [cmd], [options]
    and the optional [stdout] listener.  The listener is run on every chunk
    of standard output; standard error is piped to the terminal; the
    promise rejects with [error.message] or resolves.  [V] is the state the
    listener's closure updates. *)
Definition callExec {O V} (env : Env) (cmd : string) (options : O)
    (stdout : option (string -> V -> V)) (captured : V) : Result unit * V :=
  let spawnedProcess := exec env cmd in
  let captured' :=
    match stdout with
    | Some listener =>
        fold_left (fun acc chunk => listener chunk acc)
                  (stdout_chunks spawnedProcess) captured
    | None => captured
    end in
  match exit_error spawnedProcess with
  | Some message => (Throw (Rejection message), captured')
  | None => (Ok tt, captured')
  end.

(** A JavaScript call with more arguments than the callee declares
    parameters: the surplus argument is evaluated and dropped. *)
Definition call_with_surplus {R X} (callee : R) (surplus : X) : R := callee.

(** Lines 110-124.  The pair threaded through [callExec] is
    [(stdout, stderr)]. *)
Definition runScript (env : Env) (cmd : string) : string * string * string :=
  let on_stdout := fun (_data : string) (acc : string * string) =>
                     ((fst acc ++ _data)%string, snd acc) in
  let on_stderr := fun (_data : string) (acc : string * string) =>
                     (fst acc, (snd acc ++ _data)%string) in
  let '(outcome, (stdout, stderr)) :=
    call_with_surplus (callExec env cmd tt (Some on_stdout)) on_stderr
      (EmptyString, EmptyString) in
  let err :=
    match outcome with
    | Throw (Rejection message) => message
    | _ => EmptyString
    end in
  (stdout, stderr, err).

(** Lines 364-371: what [calculatePerformance] makes of the triple
    [runScript] returned.  The second component is always a string, so
    the [typeof] guard never fires. *)
Definition metric_of_output (answer : string * string * string) : Result number :=
  let '(_, out, _) := answer in
  let value := first_token out in
  if negb (string_truthy value) then Throw NoMetricError
  else Ok (parseFloat value).

Definition compare_command (metric upscaledPath originalPath diffPath : string) : string :=
  ("magick compare -metric " ++ metric ++ " " ++ upscaledPath ++ " " ++
   originalPath ++ " " ++ diffPath)%string.

(** ** Benchmarker (lines 92 and 322-441) *)

Definition avg (arr : list number) : number :=
  (fold_left (fun sum num => sum + num) arr 0 / of_nat (length arr))%float.

Definition Math_min (a b : number) : number :=
  if is_nan a || is_nan b then nan
  else if (a <? b)%float then a
  else if (b <? a)%float then b
  else if get_sign a then a else b.

Record DatasetObject := {
  definition : DatasetDefinition;
  db : DatasetDatabase;
}.

(** Lines 130-135. *)
Definition new_Dataset (env : Env) (datasetDefinition : DatasetDefinition) : DatasetObject :=
  {| definition := datasetDefinition;
     db := Dataset.getDatasetDatabase env datasetDefinition |}.

(** [Map.prototype.set]: a new key goes last, a known key keeps its place
    and takes the new value. *)
Fixpoint map_set {V} (k : string) (v : V) (m : list (string * V)) : list (string * V) :=
  match m with
  | [] => [(k, v)]
  | (k', v') :: rest =>
      if String.eqb k k' then (k, v) :: rest else (k', v') :: map_set k v rest
  end.

Record BenchmarkerObject := {
  n : number;
  models : list (string * string);
  datasets : list (string * DatasetObject);
  tmpDir : string;
}.

Record ResultEntry := {
  entry_model : ModelDefinition;
  entry_dataset : string;
  entry_result : BenchmarkResult;
}.

Module Benchmarker.
Section Methods.
(** [run] is the process runner the metric calculator calls; the script
    binds it to [runScript]. *)
Context (env : Env) (run : string -> string * string * string).

(** Lines 350-360. *)
Definition upscale (model downscaled : string) : M Image :=
  emit (EvUpscale model downscaled) ;;
  if upscale_ok env model downscaled then mret (Upscaled model downscaled)
  else throw (ExternalError "upscale").

(** Lines 362-372. *)
Definition calculatePerformance (upscaledPath originalPath diffPath metric : string)
    : M number :=
  let cmd := compare_command metric upscaledPath originalPath diffPath in
  emit (EvExec cmd) ;;
  lift_result (metric_of_output (run cmd)).

(** Lines 391-420; [scores] is the pair of arrays [(ssim, psnr)]. *)
Definition processFile (tmp model : string) (scores : list number * list number)
    (item : PreparedFile) : M (list number * list number) :=
  let upscaledFolder := path_resolve tmp "upscaled" in
  let diffFolder := path_resolve tmp "diff" in
  let '(ssim, psnr) := scores in
  let originalWidth := width (pf_original item) in
  let originalHeight := height (pf_original item) in
  let originalPath := path (pf_original item) in
  let downscaledPath := path (pf_downscaled item) in
  let file := pf_fileName item in
  upscaledBuffer ← upscale model downscaledPath;
  let upscaledPath := path_resolve upscaledFolder file in
  emit (EvWriteImage upscaledPath upscaledBuffer) ;;
  upscaledDimensions ← Dataset.getSize env upscaledPath upscaledBuffer;
  let diffPath := path_resolve diffFolder file in
  if strict_ne originalWidth (fst upscaledDimensions)
     || strict_ne originalHeight (snd upscaledDimensions)
  then throw (DimensionsMismatchError originalWidth originalHeight
                (fst upscaledDimensions) (snd upscaledDimensions))
  else
    s ← calculatePerformance upscaledPath originalPath diffPath "ssim";
    let ssim := ssim ++ [s] in
    p ← calculatePerformance upscaledPath originalPath diffPath "psnr";
    let psnr := psnr ++ [p] in
    mret (ssim, psnr).

(** Lines 385-433: the loop over the files of one pair and the result it
    records. *)
Definition benchmark_files (tmp : string) (limit : number) (model : string)
    (files : list PreparedFile) : M BenchmarkResult :=
  let n := Math_min limit (of_nat (length files)) in
  emit (EvProgress 0 n) ;;
  '(ssim, psnr) ←
    for_await_pool (processFile tmp model) (fun i => emit (EvProgress i n))
      0 ([], []) files;
  mret {| psnr := avg psnr; ssim := avg ssim |}.

(** Lines 380-433: one (dataset, model) pair. *)
Definition benchmark_pair (tmp : string) (limit : number) (crop : option number)
    (dataset : DatasetDefinition) (model : string) : M (ModelDefinition * BenchmarkResult) :=
  match import_model env model with
  | None => throw (ExternalError "import")
  | Some modelDefinition =>
      Dataset.initialize env dataset (md_scale modelDefinition) crop ;;
      database ← get_database;
      files ← lift_result (Dataset.getFiles database (md_scale modelDefinition) crop);
      result ← benchmark_files tmp limit model files;
      mret (modelDefinition, result)
  end.

(** Runs a computation of a dataset on that dataset object and the global
    trace. *)
Definition on_dataset {A} (m : M A) (dataset : DatasetObject) (trace : list Event)
    : Result A * DatasetObject * list Event :=
  let '(r, st) := m {| database := db dataset; events := trace |} in
  (r, {| definition := definition dataset; db := database st |}, events st).

(** Lines 379-434: the inner loop over the models. *)
Fixpoint benchmark_models (b : BenchmarkerObject) (crop : option number)
    (dataset : DatasetObject) (ms : list (string * string))
    (results : list ResultEntry) (trace : list Event)
    : Result (list ResultEntry) * DatasetObject * list Event :=
  match ms with
  | [] => (Ok results, dataset, trace)
  | (_modelName, model) :: rest =>
      match on_dataset (benchmark_pair (tmpDir b) (n b) crop (definition dataset) model)
                       dataset trace with
      | (Throw e, dataset', trace') => (Throw e, dataset', trace')
      | (Ok (modelDefinition, result), dataset', trace') =>
          benchmark_models b crop dataset' rest
            (results ++ [{| entry_model := modelDefinition;
                            entry_dataset := def_name (definition dataset');
                            entry_result := result |}])
            trace'
      end
  end.

(** Lines 378-435: the outer loop over the datasets. *)
Fixpoint benchmark_datasets (b : BenchmarkerObject) (crop : option number)
    (ds : list (string * DatasetObject)) (results : list ResultEntry)
    (trace : list Event) : Result (list ResultEntry) * list Event :=
  match ds with
  | [] => (Ok results, trace)
  | (_datasetName, dataset) :: rest =>
      match benchmark_models b crop dataset (models b) results trace with
      | (Throw e, _, trace') => (Throw e, trace')
      | (Ok results', _, trace') => benchmark_datasets b crop rest results' trace'
      end
  end.

(** Lines 374-440. *)
Definition benchmark (b : BenchmarkerObject) (crop : option number)
    (trace : list Event) : Result unit * list Event :=
  match benchmark_datasets b crop (datasets b) [] trace with
  | (Throw e, trace') => (Throw e, trace')
  | (Ok results, trace') =>
      (Ok tt,
       trace' ++ map (fun r => EvReport (entry_model r) (entry_dataset r) (entry_result r))
                     results)
  end.

(** Lines 330-344 without the last statement, which starts [benchmark]
    and drops its promise: the caller of the constructor runs that
    background task after its own synchronous code. *)
Definition new_Benchmarker (modelNames : list string) (ds : list DatasetObject)
    (limit : number) (trace : list Event) : Result BenchmarkerObject * list Event :=
  match makeTmpDir env with
  | None => (Throw (ExternalError "makeTmpDir"), trace)
  | Some tmp =>
      (Ok {| n := limit;
             models :=
               fold_left (fun m modelName =>
                            map_set modelName
                              (path_resolve (path_resolve ROOT_DIR "models") modelName) m)
                         modelNames [];
             datasets :=
               fold_left (fun m dataset => map_set (def_name (definition dataset)) dataset m)
                         ds [];
             tmpDir := tmp |},
       trace ++ [EvMkdir tmp])
  end.

(** Lines 346-348. *)
Definition cleanup (b : BenchmarkerObject) (trace : list Event)
    : Result unit * list Event :=
  if rmSync_ok env then (Ok tt, trace ++ [EvRemove (tmpDir b)])
  else (Throw (ExternalError "rmSync"), trace ++ [EvRemove (tmpDir b)]).

End Methods.
End Benchmarker.

(** ** The entry point (lines 447-455) *)

Inductive PromiseState (A : Type) :=
| Pending
| Fulfilled (a : A)
| Rejected (e : Error).
Arguments Pending {A}.
Arguments Fulfilled {A} a.
Arguments Rejected {A} e.

Inductive SettleCall (A : Type) :=
| Resolve (a : A)
| Reject (e : Error).
Arguments Resolve {A} a.
Arguments Reject {A} e.

(** The state of a promise made by [new Promise(executor)] whose executor
    is an [async] function: the first call of [resolve] or [reject]
    decides, later calls are ignored, and an exception inside the executor
    rejects the executor's own promise, not this one. *)
Definition settled_by {A} (calls : list (SettleCall A)) : PromiseState A :=
  match calls with
  | [] => Pending
  | Resolve a :: _ => Fulfilled a
  | Reject e :: _ => Rejected e
  end.

Record Props := {
  outputFile : option string;
  props_n : option number;
  props_cropped : option number;
}.

(** One run of the executor: the calls it made of the [resolve] and
    [reject] it was given, what its own body returned or threw, what the
    background [benchmark] task started by the constructor settled to
    (when the constructor got that far), and the trace. *)
Record ExecutorRun (K : Type) := {
  calls : list K;
  outcome : Result string;
  background : option (Result unit);
  trace : list Event;
}.
Arguments calls {K} _.
Arguments outcome {K} _.
Arguments background {K} _.
Arguments trace {K} _.

(** Lines 448-455, the executor.  [resolve] and [reject] are its two
    parameters; nothing else holds them. *)
Definition executor {K} (env : Env) (resolve : unit -> K) (reject : Error -> K)
    (modelNames : list string) (datasetDefinitions : list DatasetDefinition)
    (limit : number) (crop : option number) (trace0 : list Event) : ExecutorRun K :=
  let ds := map (fun dataset => new_Dataset env dataset) datasetDefinitions in
  match Benchmarker.new_Benchmarker env modelNames ds limit trace0 with
  | (Throw e, trace1) =>
      {| calls := []; outcome := Throw e; background := None; trace := trace1 |}
  | (Ok benchmarker, trace1) =>
      let '(cleaned, trace2) := Benchmarker.cleanup env benchmarker trace1 in
      let '(bg, trace3) :=
        Benchmarker.benchmark env (runScript env) benchmarker crop trace2 in
      {| calls := [];
         outcome := match cleaned with Ok _ => Ok "foo" | Throw e => Throw e end;
         background := Some bg;
         trace := trace3 |}
  end.

(** Lines 447-448: the defaults of the third parameter, then the promise.
    The [async] wrapper returns the inner promise, so its own promise
    follows it. *)
Definition benchmarkPerformance (env : Env) (modelNames : list string)
    (datasetDefinitions : list DatasetDefinition) (props : option Props)
    (trace0 : list Event) : ExecutorRun (SettleCall unit) :=
  let props' := default {| outputFile := None; props_n := None; props_cropped := None |}
                        props in
  let limit := default infinity (props_n props') in
  executor env Resolve Reject modelNames datasetDefinitions limit
           (props_cropped props') trace0.

Definition promise (r : ExecutorRun (SettleCall unit)) : PromiseState unit :=
  settled_by (calls r).

(** ** A sample world

    A directory with two images of 5 x 7 pixels and a text file, an image
    library that accepts every request, a model of scale 2 whose output is
    4 x 6, and a comparison tool that prints its score on standard
    output. *)

Module Sample.

(** Prints the integers met in the examples the way [ToString] does. *)
Definition print_number (x : number) : string :=
  match Prim2SF x with
  | S754_zero _ => "0"
  | S754_finite s m e =>
      let sign := if s then "-" else EmptyString in
      if (0 <=? e)%Z then (sign ++ pretty (Z.shiftl (Zpos m) e))%string
      else if (Z.land (Zpos m) (Z.ones (- e)) =? 0)%Z
           then (sign ++ pretty (Z.shiftr (Zpos m) (- e)))%string
           else "fraction"
  | _ => "NaN"
  end.

Definition env : Env := {|
  numberToString := print_number;
  readdirSync := fun dir =>
    if String.eqb dir "/data"
    then Some [FileEnt "b.png"; FileEnt "a.png"; FileEnt "notes.txt"]
    else None;
  sizeOf := fun img =>
    match img with
    | Upscaled _ _ => Dimensions (Some 4%float) (Some 6%float)
    | _ => Dimensions (Some 5%float) (Some 7%float)
    end;
  sharp_ok := fun _ => true;
  exec := fun _ =>
    {| stdout_chunks := ["0.95"]; stderr_chunks := []; exit_error := None |};
  import_model := fun _ => Some {| md_scale := 2%float; md_package := Some "esrgan-slim" |};
  upscale_ok := fun _ _ => true;
  read_database := fun _ => None;
  makeTmpDir := Some "/tmp/run";
  rmSync_ok := true;
|}.

(** Two prepared files of that world, and a process runner that answers
    the way ImageMagick does: the score, then more text, on standard
    error. *)
Definition prepared (name : string) : PreparedFile :=
  {| pf_original := {| path := ("/cache/" ++ name ++ "-original.png")%string;
                       width := 4%float; height := 6%float |};
     pf_downscaled := {| path := ("/cache/" ++ name ++ "-downscaled.png")%string;
                         width := 2%float; height := 3%float |};
     pf_fileName := name |}.

Definition file_a : PreparedFile := prepared "a.png".
Definition file_b : PreparedFile := prepared "b.png".

Definition stub_run (cmd : string) : string * string * string :=
  let answers :=
    [("magick compare -metric ssim /tmp/run/upscaled/a.png", "0.9 (0.1)");
     ("magick compare -metric ssim /tmp/run/upscaled/b.png", "0.8 (0.2)");
     ("magick compare -metric psnr /tmp/run/upscaled/a.png", "30.0");
     ("magick compare -metric psnr /tmp/run/upscaled/b.png", "28.0")] in
  (EmptyString,
   match find (fun a => String.prefix (fst a) cmd) answers with
   | Some a => snd a
   | None => EmptyString
   end,
   EmptyString).

(** The same world with a model whose output is 5 x 7. *)
Definition env_mismatch : Env := {|
  numberToString := print_number;
  readdirSync := readdirSync env;
  sizeOf := fun _ => Dimensions (Some 5%float) (Some 7%float);
  sharp_ok := fun _ => true;
  exec := exec env;
  import_model := import_model env;
  upscale_ok := fun _ _ => true;
  read_database := fun _ => None;
  makeTmpDir := Some "/tmp/run";
  rmSync_ok := true;
|}.

End Sample.

(** ** Vocabulary of the statements *)

(** Where the benchmark writes the upscaled image and the diff image of a
    file (lines 407 and 412). *)
Definition upscaledPath (tmp : string) (item : PreparedFile) : string :=
  path_resolve (path_resolve tmp "upscaled") (pf_fileName item).

Definition diffPath (tmp : string) (item : PreparedFile) : string :=
  path_resolve (path_resolve tmp "diff") (pf_fileName item).

(** The score the metric calculator draws from the runner's answer for a
    file. *)
Definition score (run : string -> string * string * string) (tmp metric : string)
    (item : PreparedFile) : Result number :=
  metric_of_output
    (run (compare_command metric (upscaledPath tmp item) (path (pf_original item))
            (diffPath tmp item))).

(** The dimensions [getSize] finds for the upscaled output of a file, when
    upscaling succeeds and the dimensions are there. *)
Definition upscaled_size (env : Env) (model : string) (item : PreparedFile)
    : option (number * number) :=
  if upscale_ok env model (path (pf_downscaled item)) then
    match sizeOf env (Upscaled model (path (pf_downscaled item))) with
    | Dimensions (Some w) (Some h) => if truthy w && truthy h then Some (w, h) else None
    | _ => None
    end
  else None.

(** The negation of the test of line 415. *)
Definition dimensions_match (item : PreparedFile) (d : number * number) : bool :=
  negb (strict_ne (width (pf_original item)) (fst d)
        || strict_ne (height (pf_original item)) (snd d)).

(** The trace of the calls [processFile] makes before it compares
    dimensions. *)
Definition upscale_events (tmp model : string) (item : PreparedFile) : list Event :=
  [EvUpscale model (path (pf_downscaled item));
   EvWriteImage (upscaledPath tmp item) (Upscaled model (path (pf_downscaled item)));
   EvSizeOf (Upscaled model (path (pf_downscaled item)))].

Definition compare_events (tmp : string) (item : PreparedFile) : list Event :=
  [EvExec (compare_command "ssim" (upscaledPath tmp item) (path (pf_original item))
             (diffPath tmp item));
   EvExec (compare_command "psnr" (upscaledPath tmp item) (path (pf_original item))
             (diffPath tmp item))].

Definition with_events (st : State) (es : list Event) : State :=
  {| database := database st; events := events st ++ es |}.

Definition is_exec (e : Event) : bool :=
  match e with EvExec _ => true | _ => false end.

Definition is_report (e : Event) : bool :=
  match e with EvReport _ _ _ => true | _ => false end.

(** A file is ready when its upscaled output has the recorded original
    dimensions and both metrics are found. *)
Definition file_ready (env : Env) (run : string -> string * string * string)
    (tmp model : string) (item : PreparedFile) : Prop :=
  exists d s p,
    upscaled_size env model item = Some d /\
    dimensions_match item d = true /\
    score run tmp "ssim" item = Ok s /\
    score run tmp "psnr" item = Ok p.

(** The assignment of [saveDatabase(key, payload)] (lines 180-185). *)
Definition merge_payload (db : DatasetDatabase) (key : string) (payload : ScaleTable)
    : DatasetDatabase :=
  if string_truthy key then <[key := payload ∪ default ∅ (db !! key)]> db else db.

(** The two pipelines of [processOriginal] for a source of [W] x [H]. *)
Definition original_pipeline (scale : number) (filePath : string) (W H : number) : Image :=
  Resize (Flatten (FileAt filePath))
         (Math_floor (W / scale) * scale)%float (Math_floor (H / scale) * scale)%float true.

Definition downscaled_pipeline (scale : number) (filePath : string) (W H : number) : Image :=
  Resize (original_pipeline scale filePath W H) (W / scale)%float (H / scale)%float false.

(** A file is prepared for [(scale, crop)] when the database has its
    entry at [scale] and, for a crop size that counts as one, the cropped
    pair of that size. *)
Definition prepared_for (db : DatasetDatabase) (scale : number) (crop : option number)
    (filename : string) : Prop :=
  exists entry,
    lookup_entry db filename scale = Some entry /\
    forall c, crop = Some c -> truthy c = true -> is_Some (cropped entry !! toKey c).

Fixpoint uses_extract (i : Image) : bool :=
  match i with
  | ExtractRegion _ _ _ _ _ => true
  | Flatten j | Resize j _ _ _ => uses_extract j
  | FileAt _ | Upscaled _ _ => false
  end.

(** Work on a cropped artifact. *)
Definition crop_work (e : Event) : bool :=
  match e with
  | EvSharp i | EvWriteImage _ i => uses_extract i
  | _ => false
  end.

(** Every entry of the database records the key it is stored under as its
    [fileName]. *)
Definition keyed (db : DatasetDatabase) : Prop :=
  forall name k entry,
    db !! name ≫= (.!! k) = Some entry -> fileName entry = name.

(** The triple [getFiles] returns for an entry without cropping. *)
Definition uncropped (entry : ProcessedFileDefinition) : PreparedFile :=
  {| pf_original := original entry;
     pf_downscaled := downscaled entry;
     pf_fileName := fileName entry |}.

(** The entry [processCrop] writes back (lines 271-288). *)
Definition with_crop (entry : ProcessedFileDefinition) (k : PropertyKey)
    (pair : CroppedPair) : ProcessedFileDefinition :=
  {| original := original entry;
     downscaled := downscaled entry;
     fileName := fileName entry;
     cropped := <[k := pair]> (cropped entry) |}.

(** No cropped pair of [db'] is new with respect to [db]. *)
Definition no_new_crop (db db' : DatasetDatabase) : Prop :=
  forall f k entry' c pair,
    db' !! f ≫= (.!! k) = Some entry' -> cropped entry' !! c = Some pair ->
    exists entry, db !! f ≫= (.!! k) = Some entry /\ cropped entry !! c = Some pair.

(** The events appended from [st] to [st'] satisfy [ok]. *)
Definition appends (ok : Event -> bool) (st st' : State) : Prop :=
  exists new, events st' = events st ++ new /\ forallb ok new = true.

Definition not_crop_work (e : Event) : bool := negb (crop_work e).
Definition not_image_work (e : Event) : bool := negb (image_work e).

(** Whether the doubles agree with the integers on [floor(W/S)*S]. *)
Definition floor_agrees (S W : Z) : bool :=
  PrimFloat.eqb (Math_floor (of_Z W / of_Z S) * of_Z S)%float (of_Z (W / S * S)).

(** The progress reports of [count] items after the first [i]. *)
Definition progress_events (total : number) (i count : nat) : list Event :=
  map (fun j => EvProgress j total) (seq (S i) count).

(** ** Installation probe and command line (lines 102-108 and 462-516) *)

(** The values the command-line parser hands over. *)
Inductive JSValue :=
| JUndefined
| JString (s : string)
| JNumber (x : number)
| JBoolean (b : bool).

(** [ToBoolean]. *)
Definition value_truthy (v : JSValue) : bool :=
  match v with
  | JUndefined => false
  | JString s => string_truthy s
  | JNumber x => truthy x
  | JBoolean b => b
  end.

(** A value inside a template literal. *)
Definition template (env : Env) (v : JSValue) : string :=
  match v with
  | JUndefined => "undefined"
  | JString s => s
  | JNumber x => numberToString env x
  | JBoolean b => if b then "true" else "false"
  end.

(** What the script throws besides the errors of the benchmark. *)
Inductive MainError :=
| ImagemagickError (message : string)
| BenchmarkError (e : Error).

Definition imagemagick_message : string :=
  "Imagemagick does not appear to be installed. Please install it for your system.".

(** Lines 102-108: [callExec] with the command alone, so the output of the
    probe goes to the terminal; any rejection is replaced by the one
    message. *)
Definition checkImagemagickInstallation (env : Env) (trace : list Event)
    : option MainError * list Event :=
  let cmd := "convert -version" in
  match fst (callExec env cmd tt (None : option (string -> unit -> unit)) tt) with
  | Ok _ => (None, trace ++ [EvExec cmd])
  | Throw _ => (Some (ImagemagickError imagemagick_message), trace ++ [EvExec cmd])
  end.

(** Lines 469-483.  [ask] is the prompt ([getString]): the question and
    the value offered as default give the answer. *)
Definition getDataset (env : Env) (ask : string -> JSValue -> string)
    (_datasetName _datasetPath : JSValue) : DatasetDefinition :=
  match _datasetName with
  | JString name =>
      if string_truthy name then
        {| def_name := name;
           def_path := Some (template env (if value_truthy _datasetPath
                                           then _datasetPath else JString EmptyString)) |}
      else
        {| def_name := ask "What is the name of the dataset you wish to use?" _datasetName;
           def_path := Some (ask "What is the path to the dataset you wish to use?"
                                 _datasetPath) |}
  | _ =>
      {| def_name := ask "What is the name of the dataset you wish to use?" _datasetName;
         def_path := Some (ask "What is the path to the dataset you wish to use?"
                               _datasetPath) |}
  end.

(** What the option parser returns: the positional arguments and the
    three options. *)
Record Argv := {
  positional : list JSValue;
  argv_outputFile : JSValue;
  argv_n : JSValue;
  argv_cropped : JSValue;
}.

Record Args := {
  args_dataset : DatasetDefinition;
  args_outputFile : option string;
  args_n : option number;
  args_cropped : option number;
}.

(** Lines 485-508. *)
Definition getArgs (env : Env) (ask : string -> JSValue -> string) (argv : Argv) : Args :=
  {| args_dataset := getDataset env ask (nth 0 (positional argv) JUndefined)
                                        (nth 1 (positional argv) JUndefined);
     args_outputFile := match argv_outputFile argv with JString s => Some s | _ => None end;
     args_n := match argv_n argv with JNumber x => Some x | _ => None end;
     args_cropped := match argv_cropped argv with JNumber x => Some x | _ => None end |}.

(** Lines 510-516: the script run as a program.  It ends either with the
    installation error or in the run of [benchmarkPerformance]. *)
Definition main (env : Env) (ask : string -> JSValue -> string) (argv : Argv)
    (trace0 : list Event) : MainError * list Event + ExecutorRun (SettleCall unit) :=
  match checkImagemagickInstallation env trace0 with
  | (Some e, trace1) => inl (e, trace1)
  | (None, trace1) =>
      let args := getArgs env ask argv in
      inr (benchmarkPerformance env ["esrgan-slim/dist/cjs/index.js"] [args_dataset args]
             (Some {| outputFile := args_outputFile args;
                      props_n := args_n args;
                      props_cropped := args_cropped args |})
             trace1)
  end.


(** ** Vocabulary for the directory walk *)

(** Every directory of the tree can be listed. *)
Fixpoint readable (d : Dirent) : bool :=
  match d with
  | FileEnt _ => true
  | DirEnt _ None => false
  | DirEnt _ (Some entries) => forallb readable entries
  end.

Fixpoint has_slash (s : string) : bool :=
  match s with
  | EmptyString => false
  | String c r => Ascii.eqb c "/"%char || has_slash r
  end.

(** No name below the root of the tree contains a slash, as is the case
    of the names a directory listing returns. *)
Fixpoint plain_names (d : Dirent) : bool :=
  match d with
  | FileEnt name => negb (has_slash name)
  | DirEnt name None => negb (has_slash name)
  | DirEnt name (Some entries) => negb (has_slash name) && forallb plain_names entries
  end.

(** The last component of a path: the text after its last slash. *)
Fixpoint basename_aux (acc : string) (s : string) : string :=
  match s with
  | EmptyString => acc
  | String c r =>
      if Ascii.eqb c "/"%char then basename_aux r r else basename_aux acc r
  end.

Definition basename (s : string) : string := basename_aux s s.


(** ** Vocabulary for the life of the cache *)

(** [db'] has every entry of [db], with the same original, downscaled and
    file name, and at least the same cropped pairs. *)
Definition extends (db db' : DatasetDatabase) : Prop :=
  forall f k entry,
    db !! f ≫= (.!! k) = Some entry ->
    exists entry',
      db' !! f ≫= (.!! k) = Some entry' /\
      original entry' = original entry /\
      downscaled entry' = downscaled entry /\
      fileName entry' = fileName entry /\
      cropped entry ⊆ cropped entry'.

(** The calls a task of [prepare] may make. *)
Definition task_event (e : Event) : bool :=
  match e with
  | EvSizeOf _ | EvSharp _ | EvWriteImage _ _ | EvWriteDatabase _ _ => true
  | _ => false
  end.

Definition is_progress (e : Event) : bool :=
  match e with EvProgress _ _ => true | _ => false end.


(** ** Vocabulary for the maps of the Benchmarker *)

(** [Map.prototype.get]. *)
Fixpoint map_get {V} (k : string) (m : list (string * V)) : option V :=
  match m with
  | [] => None
  | (k', v) :: rest => if String.eqb k k' then Some v else map_get k rest
  end.

(** The last element of a list that passes a test. *)
Definition last_such {A} (test : A -> bool) (l : list A) : option A :=
  fold_left (fun found x => if test x then Some x else found) l None.

(** The report of one result (lines 436-439). *)
Definition report (r : ResultEntry) : Event :=
  EvReport (entry_model r) (entry_dataset r) (entry_result r).

Definition not_report (e : Event) : bool := negb (is_report e).

(** The names of the datasets, each repeated once per model: the order in
    which the pairs are run. *)
Definition pair_order (b : BenchmarkerObject) (ds : list (string * DatasetObject))
    : list string :=
  flat_map (fun d => repeat (def_name (definition (snd d))) (length (models b))) ds.

(** An event without the total its progress bar was rendered against. *)
Definition erase_total (e : Event) : Event :=
  match e with
  | EvProgress i _ => EvProgress i 0%float
  | _ => e
  end.


(** ** The size check of the image library *)

(** [Number.isInteger]. *)
Definition isInteger (x : number) : bool :=
  PrimFloat.is_finite x && strict_eq (Math_floor x) x.

(** What sharp demands of a width or a height given to [resize]: a
    positive integer. *)
Definition positive_integer (x : number) : bool := isInteger x && (0 <? x)%float.

(** An image library that, like sharp, refuses a [resize] whose width or
    height is not a positive integer. *)
Definition size_checking (env : Env) : Prop :=
  forall i w h cover,
    sharp_ok env (Resize i w h cover) = true ->
    positive_integer w = true /\ positive_integer h = true.

(** [downscaled * scale == original], in both dimensions. *)
Definition divides_exactly (scale : number) (entry : ProcessedFileDefinition) : Prop :=
  strict_eq (width (downscaled entry) * scale)%float (width (original entry)) = true /\
  strict_eq (height (downscaled entry) * scale)%float (height (original entry)) = true.

(** Every file cached at [scale] has an entry that divides exactly. *)
Definition exact_at (db : DatasetDatabase) (scale : number) : Prop :=
  forall f entry, lookup_entry db f scale = Some entry -> divides_exactly scale entry.

(** ** Vocabulary for the reported results *)

(** The (dataset, model path) pairs in the order [benchmark] runs them. *)
Definition pairs (b : BenchmarkerObject) : list (DatasetDefinition * string) :=
  flat_map (fun d => map (fun m => (definition (snd d), snd m)) (models b)) (datasets b).

(** The entry reported for a pair: the model is the one imported, the
    dataset is named, and the result holds the means of the scores of the
    files [getFiles] returned after the [initialize] of the pair. *)
Definition reported_mean (env : Env) (run : string -> string * string * string)
    (tmp : string) (crop : option number)
    (p : DatasetDefinition * string) (e : ResultEntry) : Prop :=
  import_model env (snd p) = Some (entry_model e) /\
  entry_dataset e = def_name (fst p) /\
  exists st st1 files ssims psnrs,
    Dataset.initialize env (fst p) (md_scale (entry_model e)) crop st = (Ok tt, st1) /\
    Dataset.getFiles (database st1) (md_scale (entry_model e)) crop = Ok files /\
    Forall2 (fun item s => score run tmp "ssim" item = Ok s) files ssims /\
    Forall2 (fun item q => score run tmp "psnr" item = Ok q) files psnrs /\
    entry_result e = {| ssim := avg ssims; psnr := avg psnrs |} /\
    (files = [] -> entry_result e = {| ssim := nan; psnr := nan |}).

(** The local [formattedName] of [getWritableName] (line 165). *)
Definition formattedName (name : string) : string := replace_char "/" "-" name.

(** ** More worlds for the examples *)

Module Worlds.

(** The world of [Sample.env] where every image measures 4 x 6, so that a
    model of scale 2 gives back the size of the original. *)
Definition env_even : Env := {|
  numberToString := Sample.print_number;
  readdirSync := readdirSync Sample.env;
  sizeOf := fun _ => Dimensions (Some 4%float) (Some 6%float);
  sharp_ok := fun _ => true;
  exec := exec Sample.env;
  import_model := import_model Sample.env;
  upscale_ok := fun _ _ => true;
  read_database := fun _ => None;
  makeTmpDir := Some "/tmp/run";
  rmSync_ok := true;
|}.

(** The world of [Sample.env] where sharp fails on every extraction. *)
Definition env_no_extract : Env := {|
  numberToString := Sample.print_number;
  readdirSync := readdirSync Sample.env;
  sizeOf := sizeOf Sample.env;
  sharp_ok := fun i => negb (uses_extract i);
  exec := exec Sample.env;
  import_model := import_model Sample.env;
  upscale_ok := fun _ _ => true;
  read_database := fun _ => None;
  makeTmpDir := Some "/tmp/run";
  rmSync_ok := true;
|}.

(** A world with the size check of sharp added to its image library. *)
Definition strict (e : Env) : Env := {|
  numberToString := numberToString e;
  readdirSync := readdirSync e;
  sizeOf := sizeOf e;
  sharp_ok := fun i =>
    match i with
    | Resize _ w h _ => positive_integer w && positive_integer h && sharp_ok e i
    | _ => sharp_ok e i
    end;
  exec := exec e;
  import_model := import_model e;
  upscale_ok := upscale_ok e;
  read_database := read_database e;
  makeTmpDir := makeTmpDir e;
  rmSync_ok := rmSync_ok e;
|}.

(** The world of [Sample.env] with a dataset directory that holds no
    image. *)
Definition env_empty : Env := {|
  numberToString := Sample.print_number;
  readdirSync := fun dir =>
    if String.eqb dir "/data" then Some [FileEnt "notes.txt"] else None;
  sizeOf := sizeOf Sample.env;
  sharp_ok := fun _ => true;
  exec := exec Sample.env;
  import_model := import_model Sample.env;
  upscale_ok := fun _ _ => true;
  read_database := fun _ => None;
  makeTmpDir := Some "/tmp/run";
  rmSync_ok := true;
|}.

End Worlds.

(** ** The built-ins on examples *)

Example parseFloat_examples :
  (JS.parseFloat "0.95", JS.parseFloat "  -28.5dB", JS.parseFloat "1e3",
   JS.parseFloat "5.", JS.parseFloat ".5e-1x", JS.parseFloat "0.1")
  = (0.95, -28.5, 1000, 5, 0.05, 0.1)%float.
Proof. vm_compute. reflexivity. Qed.

Example parseFloat_nan :
  map (fun s => is_nan (JS.parseFloat s)) ["abc"; "."; "e5"; "-"; "inf"]
  = [true; true; true; true; true].
Proof. vm_compute. reflexivity. Qed.

Example Math_floor_examples :
  map JS.Math_floor [2.5; -2.5; 0.25; 7; 1e300; -0.5]%float = [2; -3; 0; 7; 1e300; -1]%float.
Proof. vm_compute. reflexivity. Qed.

(** On every width up to 1024 and the scales 2, 3 and 4 the expression
    of line 206, evaluated in doubles, is the integer [floor(W/S)*S]. *)
Example floor_formula_on_integers :
  forallb (fun S => forallb (fun W => floor_agrees S (Z.of_nat W)) (seq 1 1024))
          [2; 3; 4]%Z = true.
Proof. vm_compute. reflexivity. Qed.

Example first_token_examples :
  map first_token ["0.9 (0.1)"; "inf"; " 0.9"; EmptyString]
  = ["0.9"; "inf"; EmptyString; EmptyString].
Proof. reflexivity. Qed.

Example walk_example :
  walk (DirEnt "/data"
          (Some [FileEnt "b.png"; FileEnt "a.JPG"; FileEnt "png"; FileEnt "notes.txt";
                 DirEnt "sub" (Some [FileEnt "c.jpg"; DirEnt "deep" (Some [FileEnt "d.jpeg"])])]))
  = Ok ["b.png"; "png"; "sub/c.jpg"; "sub/deep/d.jpeg"].
Proof. reflexivity. Qed.

Example avg_examples :
  (avg [30; 28], avg [0.9; 0.8], is_nan (avg []))%float
  = (29, 0.8500000000000001, true)%float.
Proof. vm_compute. reflexivity. Qed.

(** * Properties *)

(** ** Reasoning about the monad *)

Lemma bind_ok {A B} (m : M A) (f : A -> M B) st a st' :
  m st = (Ok a, st') -> (m ≫= f) st = f a st'.
Proof. intros H. unfold mbind, M_bind. now rewrite H. Qed.

Lemma bind_throw {A B} (m : M A) (f : A -> M B) st e st' :
  m st = (Throw e, st') -> (m ≫= f) st = (Throw e, st').
Proof. intros H. unfold mbind, M_bind. now rewrite H. Qed.

Lemma bind_inv_ok {A B} (m : M A) (f : A -> M B) st b st2 :
  (m ≫= f) st = (Ok b, st2) ->
  exists a st1, m st = (Ok a, st1) /\ f a st1 = (Ok b, st2).
Proof.
  unfold mbind, M_bind. destruct (m st) as [[a|e] st1]; intros H.
  - eauto.
  - discriminate.
Qed.

Lemma emit_run e st :
  emit e st = (Ok tt, {| database := database st; events := events st ++ [e] |}).
Proof. reflexivity. Qed.

Lemma with_events_app st es1 es2 :
  with_events (with_events st es1) es2 = with_events st (es1 ++ es2).
Proof. unfold with_events. simpl. now rewrite <- app_assoc. Qed.

(** ** Initialising a dataset that has no path *)

Section InitializeWithoutPath.
Context (env : Env) (definition : DatasetDefinition).

(** C5: a dataset whose definition has no path, or an empty one, makes
    [initialize] throw the missing-path error, whose message names the
    dataset, with the state untouched: the directory was not read and no
    image operation took place. *)
Theorem initialize_without_path scale crop st :
  def_path definition = None \/ def_path definition = Some EmptyString ->
  Dataset.initialize env definition scale crop st
  = (Throw (MissingPathError
              ("The dataset " ++ def_name definition ++
               " has not been fully processed, and you've neglected to pass a path to the dataset." ++
               " Please pass a valid path so that the dataset can be processed and cached.")%string),
     st).
Proof.
  intros [H | H]; unfold Dataset.initialize; rewrite H; reflexivity.
Qed.

End InitializeWithoutPath.

Lemma initialize_without_path_witness :
  let definition := {| def_name := "set5"; def_path := None |} in
  let st := {| database := ∅; events := [] |} in
  (def_path definition = None \/ def_path definition = Some EmptyString) /\
  exists message,
    Dataset.initialize Sample.env definition 2%float (Some 64%float) st
    = (Throw (MissingPathError message), st).
Proof.
  split; [left; reflexivity|].
  eexists. apply (initialize_without_path Sample.env _ 2%float (Some 64%float)).
  left; reflexivity.
Defined.

(** ** The metric calculator *)

Lemma first_token_split (out : string) :
  exists rest,
    out = (first_token out ++ rest)%string /\
    (rest = EmptyString \/ exists r, rest = String space r).
Proof.
  induction out as [|c r IH]; simpl.
  - exists EmptyString. auto.
  - destruct (Ascii.eqb_spec c space) as [->|Hc].
    + exists (String space r). split; [reflexivity | eauto].
    + destruct IH as (rest & Hr & Hrest).
      exists rest. split; [|exact Hrest].
      change (String c r = String c (first_token r ++ rest)%string).
      f_equal. exact Hr.
Qed.

Lemma first_token_no_space (out : string) :
  ~ In space (list_ascii_of_string (first_token out)).
Proof.
  induction out as [|c r IH]; simpl; [tauto|].
  destruct (Ascii.eqb_spec c space) as [->|Hc]; simpl; [tauto|].
  intros [H | H]; [congruence | tauto].
Qed.

(** With the [callExec] of the repository the text [runScript] collects
    for standard error stays empty: the listener for it is the surplus
    fourth argument. *)
Remark runScript_collects_no_stderr env cmd :
  snd (fst (runScript env cmd)) = EmptyString.
Proof.
  unfold runScript, call_with_surplus, callExec.
  set (chunks := stdout_chunks (exec env cmd)).
  assert (H : forall acc : string * string,
             snd (fold_left (fun acc chunk => ((fst acc ++ chunk)%string, snd acc)) chunks acc)
             = snd acc).
  { induction chunks as [|c cs IH]; intros acc; simpl; [reflexivity|].
    rewrite IH. reflexivity. }
  specialize (H (EmptyString, EmptyString)).
  destruct (fold_left _ chunks _) as [o e]. simpl in H. subst e.
  destruct (exit_error (exec env cmd)); reflexivity.
Qed.

(** C2, as amended: [calculatePerformance] runs the comparison command
    and reads the second component of the runner's answer (the text
    collected for standard error, not standard output).  The token is that
    text up to its first space.  An empty token is rejected with "No
    metric found"; any other token yields [parseFloat] of it as the score,
    which is NaN, not a rejection, when the token has no numeric prefix. *)
Theorem calculatePerformance_token
    (run : string -> string * string * string)
    (upscaledPath originalPath diffPath metric : string) (st : State) :
  let cmd := compare_command metric upscaledPath originalPath diffPath in
  let out := snd (fst (run cmd)) in
  let value := first_token out in
  (exists rest, out = (value ++ rest)%string /\
                (rest = EmptyString \/ exists r, rest = String space r)) /\
  ~ In space (list_ascii_of_string value) /\
  Benchmarker.calculatePerformance run upscaledPath originalPath diffPath metric st
  = (match value with
     | EmptyString => Throw NoMetricError
     | String _ _ => Ok (parseFloat value)
     end,
     {| database := database st; events := events st ++ [EvExec cmd] |}).
Proof.
  intros cmd out value. split; [apply first_token_split|].
  split; [apply first_token_no_space|].
  unfold Benchmarker.calculatePerformance. fold cmd.
  erewrite bind_ok by apply emit_run.
  unfold lift_result, metric_of_output.
  subst value out. destruct (run cmd) as [[o out] err]. simpl.
  destruct (first_token out); reflexivity.
Qed.

(** C2 as stated fails: a tool that prints 0.95 on standard output and
    exits normally gets no score but the rejection "No metric found"; and
    an answer that holds no number at all is not rejected, its score is
    NaN. *)
Lemma calculatePerformance_counterexample :
  let st := {| database := ∅; events := [] |} in
  let cmd := compare_command "ssim" "u.png" "o.png" "d.png" in
  exec Sample.env cmd
  = {| stdout_chunks := ["0.95"]; stderr_chunks := []; exit_error := None |} /\
  fst (Benchmarker.calculatePerformance (runScript Sample.env)
         "u.png" "o.png" "d.png" "ssim" st) = Throw NoMetricError /\
  metric_of_output (EmptyString, "compare: no such image", EmptyString) = Ok nan.
Proof. vm_compute. auto. Qed.

(** ** The entry point *)

(** C9: for every input the promise returned by [benchmarkPerformance]
    stays pending.  Whatever [resolve] and [reject] the executor is given,
    it calls neither, whether the constructor throws, [cleanup] throws, or
    both return; the background benchmark holds neither function. *)
Theorem benchmarkPerformance_never_settles
    (env : Env) (modelNames : list string)
    (datasetDefinitions : list DatasetDefinition) (props : option Props)
    (trace0 : list Event) :
  (forall (K : Type) (resolve : unit -> K) (reject : Error -> K)
          (limit : number) (crop : option number),
     calls (executor env resolve reject modelNames datasetDefinitions limit crop trace0)
     = []) /\
  promise (benchmarkPerformance env modelNames datasetDefinitions props trace0) = Pending.
Proof.
  assert (H : forall (K : Type) (resolve : unit -> K) (reject : Error -> K)
                     (limit : number) (crop : option number),
             calls (executor env resolve reject modelNames datasetDefinitions limit crop
                      trace0) = []).
  { intros K resolve reject limit crop. unfold executor.
    destruct (Benchmarker.new_Benchmarker _ _ _ _ _) as [[b|e] trace1]; [|reflexivity].
    destruct (Benchmarker.cleanup _ _ _) as [cleaned trace2].
    destruct (Benchmarker.benchmark _ _ _ _ _) as [bg trace3].
    reflexivity. }
  split; [exact H|]. unfold promise, benchmarkPerformance. rewrite H. reflexivity.
Qed.

(** With a runner that collects the tool's answer the first token is the
    score. *)
Example calculatePerformance_example :
  fst (Benchmarker.calculatePerformance Sample.stub_run "/tmp/run/upscaled/a.png"
         "/cache/a.png-original.png" "/tmp/run/diff/a.png" "ssim"
         {| database := ∅; events := [] |})
  = Ok 0.9%float.
Proof. vm_compute. reflexivity. Qed.

(** In the sample world the executor returns, the background benchmark
    rejects, and the promise is pending all the same. *)
Example benchmarkPerformance_paths :
  let run := benchmarkPerformance Sample.env ["esrgan-slim"]
               [{| def_name := "set5"; def_path := Some "/data" |}] None [] in
  outcome run = Ok "foo" /\
  background run = Some (Throw NoMetricError) /\
  promise run = Pending.
Proof. vm_compute. auto. Qed.

(** ** Deriving the original of a source image *)

Section ProcessOriginal.
Context (env : Env) (definition : DatasetDefinition).

Lemma lookup_merge_payload db key k entry :
  string_truthy key = true ->
  lookup_entry (merge_payload db key {[ toKey k := entry ]}) key k = Some entry.
Proof.
  intros Hkey. unfold lookup_entry, merge_payload. rewrite Hkey.
  rewrite lookup_insert_eq. simpl.
  apply lookup_union_Some_l, lookup_singleton_eq.
Qed.

Lemma processOriginal_cached scale filePath filename st entry :
  lookup_entry (database st) filename scale = Some entry ->
  Dataset.processOriginal env definition scale filePath filename st = (Ok tt, st).
Proof.
  intros H. unfold Dataset.processOriginal.
  erewrite bind_ok by reflexivity. unfold get_database. cbn beta. rewrite H.
  reflexivity.
Qed.

Lemma getSize_ok file content st W H :
  sizeOf env content = Dimensions (Some W) (Some H) ->
  truthy W = true -> truthy H = true ->
  Dataset.getSize env file content st = (Ok (W, H), with_events st [EvSizeOf content]).
Proof.
  intros Hsize HW HH. unfold Dataset.getSize.
  erewrite bind_ok by apply emit_run. rewrite Hsize, HW, HH. reflexivity.
Qed.

Lemma toBuffer_ok pipeline st :
  sharp_ok env pipeline = true ->
  Dataset.toBuffer env pipeline st = (Ok pipeline, with_events st [EvSharp pipeline]).
Proof.
  intros H. unfold Dataset.toBuffer.
  erewrite bind_ok by apply emit_run. rewrite H. reflexivity.
Qed.

Lemma saveImage_run filename image st :
  Dataset.saveImage definition filename image st
  = (Ok (Dataset.getWritableName definition filename ++ ".png")%string,
     with_events st [EvWriteImage (Dataset.getWritableName definition filename ++ ".png")%string
                                  image]).
Proof. reflexivity. Qed.

Lemma saveDatabase_run key payload st :
  Dataset.saveDatabase definition (Some key) payload st
  = (Ok tt,
     {| database := merge_payload (database st) key payload;
        events := events st ++
          [EvWriteDatabase (Dataset.getWritableName definition "database.json")
                           (merge_payload (database st) key payload)] |}).
Proof. reflexivity. Qed.

(** The entry [processOriginal] records for a source of [W] x [H]. *)
Lemma processOriginal_fresh scale filePath filename st W H :
  lookup_entry (database st) filename scale = None ->
  sizeOf env (FileAt filePath) = Dimensions (Some W) (Some H) ->
  truthy W = true -> truthy H = true ->
  sharp_ok env (original_pipeline scale filePath W H) = true ->
  sharp_ok env (downscaled_pipeline scale filePath W H) = true ->
  exists entry st1,
    Dataset.processOriginal env definition scale filePath filename st = (Ok tt, st1) /\
    database st1 = merge_payload (database st) filename {[ toKey scale := entry ]} /\
    width (original entry) = (Math_floor (W / scale) * scale)%float /\
    height (original entry) = (Math_floor (H / scale) * scale)%float /\
    width (downscaled entry) = (W / scale)%float /\
    height (downscaled entry) = (H / scale)%float /\
    cropped entry = ∅ /\ fileName entry = filename.
Proof.
  intros Hfresh Hsize HW HH Hsharp1 Hsharp2.
  eexists _, _. split.
  - unfold Dataset.processOriginal.
    erewrite bind_ok by reflexivity. unfold get_database. cbn beta. rewrite Hfresh.
    erewrite bind_ok by (apply getSize_ok; eassumption).
    cbn beta iota. unfold Dataset.getDims.
    erewrite bind_ok by (apply toBuffer_ok; exact Hsharp1).
    erewrite bind_ok by apply saveImage_run.
    erewrite bind_ok by (apply toBuffer_ok; exact Hsharp2).
    erewrite bind_ok by apply saveImage_run.
    apply saveDatabase_run.
  - cbn [database with_events]. repeat split; reflexivity.
Qed.

End ProcessOriginal.

Section OriginalDimensions.
Context (env : Env) (definition : DatasetDefinition).

(** C8: for a source of [W] x [H] that is not in the cache yet, the
    original that [processOriginal] derives is [floor(W/S)*S] x
    [floor(H/S)*S], whatever the image library then does: that is the size
    of the first and only resize it requests of the source; when the
    library grants it, the image is written to the cache under the
    original's name; the run ends well exactly when the library grants
    that resize and the one to the downscaled size; and then the entry
    recorded has that path and those dimensions, which depend on [W], [H]
    and [S] alone, and deriving again from the state reached changes
    nothing. *)
Theorem processOriginal_dimensions
    (scale : number) (filePath filename : string) (st : State) (W H : number)
    (r : Result unit) (st1 : State) :
  string_truthy filename = true ->
  lookup_entry (database st) filename scale = None ->
  sizeOf env (FileAt filePath) = Dimensions (Some W) (Some H) ->
  truthy W = true -> truthy H = true ->
  Dataset.processOriginal env definition scale filePath filename st = (r, st1) ->
  let originalWidth := (Math_floor (W / scale) * scale)%float in
  let originalHeight := (Math_floor (H / scale) * scale)%float in
  let request := Resize (Flatten (FileAt filePath)) originalWidth originalHeight true in
  let originalPath :=
    (Dataset.getWritableName definition (filename ++ Dataset.scale_suffix env scale "-original")
     ++ ".png")%string in
  (exists rest,
     events st1 = events st ++ EvSizeOf (FileAt filePath) :: EvSharp request :: rest /\
     (sharp_ok env request = true ->
      exists rest', rest = EvWriteImage originalPath request :: rest')) /\
  (r = Ok tt <->
   sharp_ok env request = true /\
   sharp_ok env (downscaled_pipeline scale filePath W H) = true) /\
  (r = Ok tt ->
   exists entry,
     lookup_entry (database st1) filename scale = Some entry /\
     original entry = {| path := originalPath;
                         width := originalWidth; height := originalHeight |} /\
     Dataset.processOriginal env definition scale filePath filename st1 = (Ok tt, st1)).
Proof.
  intros Hname Hfresh Hsize HW HH Hrun originalWidth originalHeight request originalPath.
  assert (Hstart :
    Dataset.processOriginal env definition scale filePath filename st
    = if sharp_ok env request then
        if sharp_ok env (downscaled_pipeline scale filePath W H) then
          Dataset.processOriginal env definition scale filePath filename st
        else
          (Throw (ExternalError "sharp"),
           with_events st [EvSizeOf (FileAt filePath); EvSharp request;
                           EvWriteImage originalPath request;
                           EvSharp (downscaled_pipeline scale filePath W H)])
      else
        (Throw (ExternalError "sharp"),
         with_events st [EvSizeOf (FileAt filePath); EvSharp request])).
  { destruct (sharp_ok env request) eqn:Hsharp1;
      [destruct (sharp_ok env (downscaled_pipeline scale filePath W H)) eqn:Hsharp2;
         [reflexivity|]|].
    - unfold Dataset.processOriginal.
      erewrite bind_ok by reflexivity. unfold get_database. cbn beta. rewrite Hfresh.
      erewrite bind_ok by (apply getSize_ok; eassumption).
      cbn beta iota. unfold Dataset.getDims.
      erewrite bind_ok by (apply toBuffer_ok; exact Hsharp1).
      erewrite bind_ok by apply saveImage_run.
      apply bind_throw. unfold Dataset.toBuffer.
      erewrite bind_ok by apply emit_run.
      match goal with |- context [sharp_ok env ?i] =>
        change (sharp_ok env i)
          with (sharp_ok env (downscaled_pipeline scale filePath W H))
      end.
      rewrite Hsharp2.
      unfold with_events, throw. cbn [database events]. now rewrite <- !app_assoc.
    - unfold Dataset.processOriginal.
      erewrite bind_ok by reflexivity. unfold get_database. cbn beta. rewrite Hfresh.
      erewrite bind_ok by (apply getSize_ok; eassumption).
      cbn beta iota. unfold Dataset.getDims.
      apply bind_throw. unfold Dataset.toBuffer.
      erewrite bind_ok by apply emit_run.
      match goal with |- context [sharp_ok env ?i] =>
        change (sharp_ok env i) with (sharp_ok env request)
      end.
      rewrite Hsharp1.
      unfold with_events, throw. cbn [database events]. now rewrite <- !app_assoc. }
  destruct (sharp_ok env request) eqn:Hsharp1;
    [destruct (sharp_ok env (downscaled_pipeline scale filePath W H)) eqn:Hsharp2|].
  - destruct (processOriginal_fresh env definition scale filePath filename st W H)
      as (entry & st' & Hok & Hdb & _); try assumption.
    rewrite Hok in Hrun. injection Hrun as <- <-.
    assert (Hentry : lookup_entry (database st') filename scale
                     = Some {| cropped := ∅;
                               original := {| path := originalPath; width := originalWidth;
                                              height := originalHeight |};
                               downscaled :=
                                 {| path := (Dataset.getWritableName definition
                                               (filename ++ Dataset.scale_suffix env scale
                                                              "-downscaled") ++ ".png")%string;
                                    width := (W / scale)%float;
                                    height := (H / scale)%float |};
                               fileName := filename |}).
    { clear Hdb entry. unfold Dataset.processOriginal in Hok.
      erewrite bind_ok in Hok by reflexivity. unfold get_database in Hok. cbn beta in Hok.
      rewrite Hfresh in Hok.
      erewrite bind_ok in Hok by (apply getSize_ok; eassumption).
      cbn beta iota in Hok. unfold Dataset.getDims in Hok.
      erewrite bind_ok in Hok by (apply toBuffer_ok; exact Hsharp1).
      erewrite bind_ok in Hok by apply saveImage_run.
      erewrite bind_ok in Hok by (apply toBuffer_ok; exact Hsharp2).
      erewrite bind_ok in Hok by apply saveImage_run.
      rewrite saveDatabase_run in Hok. injection Hok as <-. cbn [database with_events].
      now apply lookup_merge_payload. }
    split; [|split].
    + clear Hentry Hdb entry. unfold Dataset.processOriginal in Hok.
      erewrite bind_ok in Hok by reflexivity. unfold get_database in Hok. cbn beta in Hok.
      rewrite Hfresh in Hok.
      erewrite bind_ok in Hok by (apply getSize_ok; eassumption).
      cbn beta iota in Hok. unfold Dataset.getDims in Hok.
      erewrite bind_ok in Hok by (apply toBuffer_ok; exact Hsharp1).
      erewrite bind_ok in Hok by apply saveImage_run.
      erewrite bind_ok in Hok by (apply toBuffer_ok; exact Hsharp2).
      erewrite bind_ok in Hok by apply saveImage_run.
      rewrite saveDatabase_run in Hok. injection Hok as <-.
      cbn [database events with_events]. rewrite <- !app_assoc. cbn [app].
      eexists. split; [reflexivity|]. intros _. eexists. reflexivity.
    + split; auto.
    + intros _. eexists. split; [exact Hentry|]. split; [reflexivity|].
      eapply processOriginal_cached. exact Hentry.
  - rewrite Hstart in Hrun. injection Hrun as <- <-.
    split; [|split].
    + cbn [events with_events app]. eexists. split; [reflexivity|].
      intros _. eexists. reflexivity.
    + split; [discriminate | intros [_ Hf]; discriminate].
    + discriminate.
  - rewrite Hstart in Hrun. injection Hrun as <- <-.
    split; [|split].
    + cbn [events with_events app]. eexists. split; [reflexivity|]. discriminate.
    + split; [discriminate | intros [Hf _]; discriminate].
    + discriminate.
Qed.

End OriginalDimensions.

Lemma processOriginal_dimensions_witness :
  let definition := {| def_name := "set5"; def_path := Some "/data" |} in
  let st := {| database := ∅; events := [] |} in
  let env := Worlds.strict Sample.env in
  let request := Resize (Flatten (FileAt "/data/a.png")) 4%float 6%float true in
  sizeOf env (FileAt "/data/a.png") = Dimensions (Some 5%float) (Some 7%float) /\
  exists r st1 rest,
    Dataset.processOriginal env definition 2%float "/data/a.png" "a.png" st = (r, st1) /\
    r <> Ok tt /\
    events st1
    = EvSizeOf (FileAt "/data/a.png") :: EvSharp request
      :: EvWriteImage "/upscalerjs/tmp/datasets/set5/a.png-scale-2-original.png" request
      :: rest.
Proof.
  intros definition st env request. split; [reflexivity|].
  destruct (Dataset.processOriginal env definition 2%float "/data/a.png" "a.png" st)
    as [r st1] eqn:Hrun.
  destruct (processOriginal_dimensions env definition 2%float "/data/a.png" "a.png" st
              5%float 7%float r st1)
    as ((rest & Hev & Hwrite) & Hok & _); try reflexivity; [exact Hrun|].
  destruct Hwrite as [rest' ->]; [reflexivity|].
  exists r, st1, rest'. split; [reflexivity|]. split.
  - intros Hr. apply Hok in Hr as [_ Hf]. vm_compute in Hf. discriminate.
  - rewrite Hev. vm_compute. reflexivity.
Defined.

(** ** What one task of [prepare] does to the database *)

Section DatasetSteps.
Context (env : Env) (definition : DatasetDefinition).

Lemma lookup_merge_payload_key db key k0 entry f k :
  merge_payload db key {[ k0 := entry ]} !! f ≫= (.!! k)
  = if string_truthy key && bool_decide (f = key) && bool_decide (k = k0)
    then Some entry else db !! f ≫= (.!! k).
Proof.
  unfold merge_payload. destruct (string_truthy key); [|reflexivity]. simpl.
  destruct (decide (f = key)) as [->|Hf].
  - rewrite bool_decide_eq_true_2 by reflexivity. rewrite lookup_insert_eq. simpl.
    destruct (decide (k = k0)) as [->|Hk].
    + rewrite bool_decide_eq_true_2 by reflexivity.
      apply lookup_union_Some_l, lookup_singleton_eq.
    + rewrite bool_decide_eq_false_2 by assumption.
      rewrite lookup_union_r by (apply lookup_singleton_ne; congruence).
      destruct (db !! key); [reflexivity | apply lookup_empty].
  - rewrite bool_decide_eq_false_2 by assumption. simpl.
    now rewrite lookup_insert_ne by congruence.
Qed.

Lemma merge_payload_other db key payload f :
  f <> key -> merge_payload db key payload !! f = db !! f.
Proof.
  intros Hf. unfold merge_payload. destruct (string_truthy key); [|reflexivity].
  now rewrite lookup_insert_ne by congruence.
Qed.

Lemma appends_refl ok st : appends ok st st.
Proof. exists []. split; [now rewrite app_nil_r | reflexivity]. Qed.

Lemma appends_trans ok st1 st2 st3 :
  appends ok st1 st2 -> appends ok st2 st3 -> appends ok st1 st3.
Proof.
  intros (n1 & H1 & Hn1) (n2 & H2 & Hn2). exists (n1 ++ n2). split.
  - rewrite H2, H1. now rewrite app_assoc.
  - rewrite forallb_app, Hn1, Hn2. reflexivity.
Qed.

Lemma appends_with_events ok st es :
  forallb ok es = true -> appends ok st (with_events st es).
Proof. intros H. exists es. split; [reflexivity | exact H]. Qed.

Ltac solve_appends :=
  eexists; split; [cbn [events]; rewrite <- ?app_assoc; reflexivity | reflexivity].

(** [processOriginal] either leaves the database alone or adds, for a
    file that had none, an entry without cropped pairs. *)
Lemma processOriginal_outcome scale filePath filename st r st' :
  Dataset.processOriginal env definition scale filePath filename st = (r, st') ->
  appends not_crop_work st st' /\
  ((database st' = database st /\
    (r = Ok tt -> is_Some (lookup_entry (database st) filename scale))) \/
   (r = Ok tt /\ lookup_entry (database st) filename scale = None /\
    exists entry,
      database st' = merge_payload (database st) filename {[ toKey scale := entry ]} /\
      cropped entry = ∅ /\ fileName entry = filename)).
Proof.
  intros H.
  unfold Dataset.processOriginal, Dataset.getSize, Dataset.toBuffer, Dataset.saveImage,
    Dataset.saveDatabase, Dataset.getDims, get_database, put_database,
    mbind, M_bind, mret, M_ret, emit, throw in H.
  cbn [database events] in H.
  destruct (lookup_entry (database st) filename scale) as [entry|] eqn:Hentry.
  { injection H as <- <-. split; [apply appends_refl|]. left. eauto. }
  destruct (sizeOf env (FileAt filePath)) as [|[w|] [h|]];
    try (injection H as <- <-; split; [solve_appends | left; split; [reflexivity | discriminate]]).
  destruct (truthy w && truthy h);
    [|injection H as <- <-; split; [solve_appends | left; split; [reflexivity | discriminate]]].
  cbn [database events] in H.
  destruct (sharp_ok env _);
    [|injection H as <- <-; split; [solve_appends | left; split; [reflexivity | discriminate]]].
  cbn [database events] in H.
  destruct (sharp_ok env _);
    [|injection H as <- <-; split; [solve_appends | left; split; [reflexivity | discriminate]]].
  cbn [database events] in H.
  injection H as <- <-. split; [solve_appends|]. right.
  split; [reflexivity|]. split; [reflexivity|].
  eexists. split; [reflexivity|]. split; reflexivity.
Qed.

(** [processCrop] either fails without touching the database or writes
    the entry back with one more cropped pair. *)
Lemma processCrop_outcome scale c filename entry st r st' :
  Dataset.processCrop env definition scale c filename entry st = (r, st') ->
  (database st' = database st /\ exists e, r = Throw e) \/
  (r = Ok tt /\ exists pair,
     database st' = merge_payload (database st) filename
                      {[ toKey scale := with_crop entry (toKey c) pair ]}).
Proof.
  intros H.
  unfold Dataset.processCrop, Dataset.toBuffer, Dataset.saveImage,
    Dataset.saveDatabase, Dataset.getDims, get_database, put_database,
    mbind, M_bind, mret, M_ret, emit, throw in H.
  cbn [database events] in H.
  destruct (sharp_ok env _); [|injection H as <- <-; left; eauto].
  cbn [database events] in H.
  destruct (sharp_ok env _); [|injection H as <- <-; left; eauto].
  cbn [database events] in H.
  injection H as <- <-. right. split; [reflexivity|].
  eexists. reflexivity.
Qed.

End DatasetSteps.

Section ProcessFile.
Context (env : Env) (definition : DatasetDefinition).

Lemma processFile_unfold scale crop filename filePath st :
  Dataset.processFile env definition scale crop (filename, filePath) st
  = if match lookup_entry (database st) filename scale with
       | Some entry =>
           match crop with
           | None => true
           | Some c => bool_decide (is_Some (cropped entry !! toKey c))
           end
       | None => false
       end
    then (Ok tt, st)
    else
      match Dataset.processOriginal env definition scale filePath filename st with
      | (Throw e, st1) => (Throw e, st1)
      | (Ok _, st1) =>
          match lookup_entry (database st1) filename scale with
          | None => (Throw (TypeError "this.database[filename][scale]"), st1)
          | Some entry =>
              match crop with
              | Some c =>
                  if truthy c && negb (bool_decide (is_Some (cropped entry !! toKey c)))
                  then Dataset.processCrop env definition scale c filename entry st1
                  else (Ok tt, st1)
              | None => (Ok tt, st1)
              end
          end
      end.
Proof.
  unfold Dataset.processFile, get_database, mbind, M_bind, mret, M_ret, throw.
  destruct (match lookup_entry (database st) filename scale with
            | Some _ => _ | None => _ end); [reflexivity|].
  destruct (Dataset.processOriginal env definition scale filePath filename st)
    as [[[]|e] st1]; [|reflexivity].
  destruct (lookup_entry (database st1) filename scale) as [entry|]; [|reflexivity].
  destruct crop as [c|]; [|reflexivity].
  destruct (truthy c && _); reflexivity.
Qed.

(** A file that is prepared is skipped: nothing is read, derived or
    written. *)
Lemma processFile_skip scale crop filename filePath st :
  prepared_for (database st) scale crop filename ->
  Dataset.processFile env definition scale crop (filename, filePath) st = (Ok tt, st).
Proof.
  intros (entry & Hentry & Hcrop). rewrite processFile_unfold, Hentry.
  destruct crop as [c|]; [|reflexivity].
  destruct (bool_decide (is_Some (cropped entry !! toKey c))) eqn:Hhas; [reflexivity|].
  rewrite (processOriginal_cached env definition scale filePath filename st entry Hentry).
  rewrite Hentry, Hhas. destruct (truthy c) eqn:Hc; [|reflexivity].
  apply bool_decide_eq_false in Hhas. destruct Hhas. now apply Hcrop.
Qed.

Lemma processFile_other scale crop filename filePath st r st' f :
  Dataset.processFile env definition scale crop (filename, filePath) st = (r, st') ->
  f <> filename -> database st' !! f = database st !! f.
Proof.
  intros H Hf. rewrite processFile_unfold in H.
  destruct (match lookup_entry (database st) filename scale with
            | Some _ => _ | None => _ end); [injection H as _ <-; reflexivity|].
  destruct (Dataset.processOriginal env definition scale filePath filename st)
    as [r1 st1] eqn:Horiginal.
  assert (H1 : database st1 !! f = database st !! f).
  { apply processOriginal_outcome in Horiginal as (_ & [[-> _] | (_ & _ & entry & -> & _)]);
      [reflexivity | now apply merge_payload_other]. }
  destruct r1 as [[]|e]; [|injection H as _ <-; exact H1].
  destruct (lookup_entry (database st1) filename scale) as [entry|];
    [|injection H as _ <-; exact H1].
  destruct crop as [c|]; [|injection H as _ <-; exact H1].
  destruct (truthy c && _); [|injection H as _ <-; exact H1].
  apply processCrop_outcome in H as [[-> _] | (_ & pair & ->)]; [exact H1|].
  now rewrite merge_payload_other.
Qed.

(** A task that succeeds leaves its file prepared. *)
Lemma processFile_prepares scale crop filename filePath st st' :
  string_truthy filename = true ->
  Dataset.processFile env definition scale crop (filename, filePath) st = (Ok tt, st') ->
  prepared_for (database st') scale crop filename.
Proof.
  intros Hname H. rewrite processFile_unfold in H.
  destruct (lookup_entry (database st) filename scale) as [entry0|] eqn:Hentry0.
  - destruct (match crop with Some _ => _ | None => _ end) eqn:Hskip.
    { injection H as <-. exists entry0. split; [exact Hentry0|].
      intros c -> _. now apply bool_decide_eq_true in Hskip. }
    rewrite (processOriginal_cached env definition scale filePath filename st entry0 Hentry0)
      in H.
    rewrite Hentry0 in H. destruct crop as [c|]; [|discriminate].
    rewrite Hskip in H. destruct (truthy c) eqn:Hc; simpl in H.
    + apply processCrop_outcome in H as [[_ [e He]] | (_ & pair & Hdb)]; [discriminate|].
      exists (with_crop entry0 (toKey c) pair). split.
      * rewrite Hdb. unfold lookup_entry. rewrite lookup_merge_payload_key, Hname.
        now rewrite !bool_decide_eq_true_2.
      * intros c' [= <-] _. simpl. rewrite lookup_insert_eq. eauto.
    + injection H as <-. exists entry0. split; [exact Hentry0|].
      intros c' [= <-]. congruence.
  - destruct (Dataset.processOriginal env definition scale filePath filename st)
      as [[[]|e] st1]; [|discriminate].
    destruct (lookup_entry (database st1) filename scale) as [entry|] eqn:Hentry;
      [|discriminate].
    destruct crop as [c|].
    2: { injection H as <-. exists entry. split; [exact Hentry|]. discriminate. }
    destruct (truthy c) eqn:Hc; simpl in H.
    + destruct (bool_decide (is_Some (cropped entry !! toKey c))) eqn:Hhas; simpl in H.
      * injection H as <-. exists entry. split; [exact Hentry|].
        intros c' [= <-] _. now apply bool_decide_eq_true in Hhas.
      * apply processCrop_outcome in H as [[_ [e He]] | (_ & pair & Hdb)]; [discriminate|].
        exists (with_crop entry (toKey c) pair). split.
        -- rewrite Hdb. unfold lookup_entry. rewrite lookup_merge_payload_key, Hname.
           now rewrite !bool_decide_eq_true_2.
        -- intros c' [= <-] _. simpl. rewrite lookup_insert_eq. eauto.
    + injection H as <-. exists entry. split; [exact Hentry|].
      intros c' [= <-]. congruence.
Qed.

Lemma processFile_keeps_prepared scale crop filename filePath st st' f :
  string_truthy filename = true ->
  Dataset.processFile env definition scale crop (filename, filePath) st = (Ok tt, st') ->
  prepared_for (database st) scale crop f ->
  prepared_for (database st') scale crop f.
Proof.
  intros Hname H Hf. destruct (decide (f = filename)) as [->|Hne].
  - eapply processFile_prepares; eassumption.
  - destruct Hf as (entry & Hentry & Hcrop). exists entry. split; [|exact Hcrop].
    unfold lookup_entry in *.
    now rewrite (processFile_other _ _ _ _ _ _ _ _ H Hne).
Qed.

End ProcessFile.

(** ** The databases the script builds *)

Section Keyed.
Context (env : Env) (definition : DatasetDefinition).

Lemma keyed_empty : keyed ∅.
Proof. intros name k entry H. rewrite lookup_empty in H. discriminate. Qed.

Lemma keyed_merge db f k entry :
  keyed db -> fileName entry = f -> keyed (merge_payload db f {[ k := entry ]}).
Proof.
  intros Hdb Hentry name k' entry' H. rewrite lookup_merge_payload_key in H.
  destruct (string_truthy f && bool_decide (name = f) && bool_decide (k' = k)) eqn:Hcase.
  - injection H as <-. apply andb_true_iff in Hcase as [Hcase _].
    apply andb_true_iff in Hcase as [_ Hname]. apply bool_decide_eq_true in Hname.
    congruence.
  - eapply Hdb. exact H.
Qed.

Lemma processFile_keyed scale crop item st r st' :
  Dataset.processFile env definition scale crop item st = (r, st') ->
  keyed (database st) -> keyed (database st').
Proof.
  destruct item as [filename filePath]. rewrite processFile_unfold. intros H Hkeyed.
  destruct (match lookup_entry (database st) filename scale with
            | Some _ => _ | None => _ end); [injection H as _ <-; exact Hkeyed|].
  destruct (Dataset.processOriginal env definition scale filePath filename st)
    as [r1 st1] eqn:Horiginal.
  assert (H1 : keyed (database st1)).
  { apply processOriginal_outcome in Horiginal
      as (_ & [[-> _] | (_ & _ & entry & -> & _ & Hname)]);
      [exact Hkeyed | now apply keyed_merge]. }
  destruct r1 as [[]|e]; [|injection H as _ <-; exact H1].
  destruct (lookup_entry (database st1) filename scale) as [entry|] eqn:Hentry;
    [|injection H as _ <-; exact H1].
  destruct crop as [c|]; [|injection H as _ <-; exact H1].
  destruct (truthy c && _); [|injection H as _ <-; exact H1].
  apply processCrop_outcome in H as [[-> _] | (_ & pair & ->)]; [exact H1|].
  apply keyed_merge; [exact H1|]. simpl. eapply H1. exact Hentry.
Qed.

Lemma initialize_keyed scale crop st r st' :
  Dataset.initialize env definition scale crop st = (r, st') ->
  keyed (database st) -> keyed (database st').
Proof.
  unfold Dataset.initialize.
  destruct (def_path definition) as [definitionPath|]; [|now intros [= _ <-]].
  destruct (string_truthy definitionPath); [|now intros [= _ <-]].
  unfold getFiles, mbind, M_bind. rewrite emit_run.
  destruct (walk _) as [names|e]; [|now intros [= _ <-]].
  unfold mret, M_ret. rewrite emit_run.
  set (files := map _ names). set (total := of_nat (length files)).
  unfold Dataset.prepare.
  set (st0 := {| database := _; events := _ ++ [EvProgress 0 total] |}).
  intros H Hkeyed.
  assert (Hpool : forall items i st1 r1 st2,
             for_await_pool (fun _ : unit => Dataset.processFile env definition scale crop)
               (fun j => emit (EvProgress j total)) i tt items st1 = (r1, st2) ->
             keyed (database st1) -> keyed (database st2)).
  { induction items as [|item items IH]; intros i st1 r1 st2 Hrun H1.
    - injection Hrun as _ <-. exact H1.
    - cbn [for_await_pool] in Hrun. unfold mbind, M_bind in Hrun.
      destruct (Dataset.processFile env definition scale crop item st1)
        as [r2 st3] eqn:Htask.
      apply processFile_keyed in Htask; [|exact H1].
      destruct r2 as [[]|e]; [|injection Hrun as _ <-; exact Htask].
      rewrite emit_run in Hrun. eapply IH; [exact Hrun | exact Htask]. }
  destruct (for_await_pool _ _ 0 tt files st0) as [r1 st1] eqn:Hrun.
  apply Hpool in Hrun; [|exact Hkeyed].
  destruct r1 as [[]|e]; [|injection H as _ <-; exact Hrun].
  unfold Dataset.saveDatabase, get_database, put_database, mbind, M_bind, emit in H.
  cbn [database events] in H. injection H as _ <-. exact Hrun.
Qed.

End Keyed.

(** ** Listing the prepared files *)

Lemma str_le_iff a b : str_le a b <-> String.compare a b <> Gt.
Proof.
  unfold str_le, String.leb. destruct (String.compare a b); simpl; intuition congruence.
Qed.

#[global] Instance str_le_total : Total str_le.
Proof.
  intros a b. unfold str_le.
  destruct (String.leb_total a b) as [H | H]; rewrite H; simpl; auto.
Qed.

#[global] Instance str_le_trans : Transitive str_le.
Proof.
  intros a. induction a as [|c1 r1 IH]; intros b c; rewrite !str_le_iff.
  - destruct c; simpl; congruence.
  - destruct b as [|c2 r2]; [simpl; congruence|].
    destruct c as [|c3 r3]; [simpl; congruence|].
    simpl. unfold Ascii.compare.
    destruct (N.compare_spec (N_of_ascii c1) (N_of_ascii c2)) as [H12|H12|H12];
      destruct (N.compare_spec (N_of_ascii c2) (N_of_ascii c3)) as [H23|H23|H23];
      destruct (N.compare_spec (N_of_ascii c1) (N_of_ascii c3)) as [H13|H13|H13];
      try congruence; try lia.
    rewrite <- !str_le_iff. apply IH.
Qed.

Lemma map_throwing_ok_Forall2 {A B} (f : A -> Result B) l ys :
  map_throwing f l = Ok ys -> Forall2 (fun x y => f x = Ok y) l ys.
Proof.
  revert ys. induction l as [|x l IH]; intros ys H; simpl in H.
  - injection H as <-. constructor.
  - destruct (f x) as [y|e] eqn:Hx; [|discriminate].
    destruct (map_throwing f l) as [ys'|e]; [|discriminate].
    injection H as <-. constructor; auto.
Qed.

Lemma map_throwing_total {A B} (f : A -> Result B) l :
  Forall (fun x => exists y, f x = Ok y) l -> exists ys, map_throwing f l = Ok ys.
Proof.
  induction 1 as [|x l [y Hx] _ [ys IH]]; simpl; [eauto|].
  rewrite Hx, IH. eauto.
Qed.

Lemma map_throwing_throws {A B} (f : A -> Result B) l x e :
  x ∈ l -> f x = Throw e -> exists e', map_throwing f l = Throw e'.
Proof.
  induction 1 as [y l|y z l _ IH]; intros Hx; simpl.
  - rewrite Hx. eauto.
  - destruct (f z); [|eauto].
    destruct (IH Hx) as [e' ->]. eauto.
Qed.

Lemma elem_of_fileNames (db : DatasetDatabase) name :
  name ∈ Dataset.fileNames db <-> is_Some (db !! name).
Proof.
  unfold Dataset.fileNames. rewrite merge_sort_Permutation.
  rewrite list_elem_of_fmap. split.
  - intros ([k v] & -> & H). apply elem_of_map_to_list in H. simpl. eauto.
  - intros [v H]. exists (name, v). split; [reflexivity|].
    now apply elem_of_map_to_list.
Qed.

Lemma fileNames_sorted (db : DatasetDatabase) :
  StronglySorted str_le (Dataset.fileNames db).
Proof. apply StronglySorted_merge_sort; apply _. Qed.

Lemma getFiles_one_fileName db scale crop name file :
  keyed db -> Dataset.getFiles_one db scale crop name = Ok file -> pf_fileName file = name.
Proof.
  intros Hkeyed. unfold Dataset.getFiles_one.
  destruct (lookup_entry db name scale) as [entry|] eqn:Hentry.
  2: { destruct crop as [c|]; [destruct (truthy c)|]; discriminate. }
  pose proof (Hkeyed _ _ _ Hentry) as Hfile.
  destruct crop as [c|]; [destruct (truthy c)|].
  - destruct (cropped entry !! toKey c); [|discriminate].
    intros [= <-]. exact Hfile.
  - intros [= <-]. exact Hfile.
  - intros [= <-]. exact Hfile.
Qed.

(** C4, as amended: on a database whose entries record their key as
    [fileName], as the script builds them, whatever [getFiles] returns is
    the list of one triple per file, in ascending order of [fileName]; it
    returns when every file is prepared for the scale and the crop size;
    and, on every database, it throws whenever a crop size that is
    neither 0 nor NaN is requested and some file has no cropped pair
    under exactly that size, whatever other sizes it has. *)
Theorem getFiles_sorted_or_throws
    (db : DatasetDatabase) (scale : number) (crop : option number) :
  (keyed db ->
   forall files, Dataset.getFiles db scale crop = Ok files ->
     Forall2 (fun name file => Dataset.getFiles_one db scale crop name = Ok file)
             (Dataset.fileNames db) files /\
     map pf_fileName files = Dataset.fileNames db /\
     StronglySorted str_le (map pf_fileName files)) /\
  ((forall name, is_Some (db !! name) -> prepared_for db scale crop name) ->
   exists files, Dataset.getFiles db scale crop = Ok files) /\
  (forall c name table,
     crop = Some c -> truthy c = true ->
     db !! name = Some table ->
     (forall entry, table !! toKey scale = Some entry -> cropped entry !! toKey c = None) ->
     exists e, Dataset.getFiles db scale crop = Throw e).
Proof.
  split; [|split].
  - intros Hkeyed files H. unfold Dataset.getFiles in H.
    apply map_throwing_ok_Forall2 in H.
    assert (Hnames : map pf_fileName files = Dataset.fileNames db).
    { induction H as [|name file names files' Hone _ IH]; simpl; [reflexivity|].
      f_equal; [|exact IH]. eapply getFiles_one_fileName; eassumption. }
    split; [exact H|]. split; [exact Hnames|].
    rewrite Hnames. apply fileNames_sorted.
  - intros Hprepared. apply map_throwing_total.
    apply Forall_forall. intros name Hname.
    apply elem_of_fileNames, Hprepared in Hname as (entry & Hentry & Hcrop).
    unfold Dataset.getFiles_one. rewrite Hentry.
    destruct crop as [c|]; [|eauto].
    destruct (truthy c) eqn:Hc; [|eauto].
    destruct (Hcrop c eq_refl Hc) as [pair Hpair]. rewrite Hpair. eauto.
  - intros c name table -> Hc Hname Hnone.
    assert (Hin : name ∈ Dataset.fileNames db) by (apply elem_of_fileNames; eauto).
    assert (exists e, Dataset.getFiles_one db scale (Some c) name = Throw e) as [e He].
    { unfold Dataset.getFiles_one, lookup_entry. rewrite Hname, Hc. simpl.
      destruct (table !! toKey scale) as [entry|] eqn:Hentry; [|eauto].
      rewrite (Hnone entry eq_refl). eauto. }
    eapply map_throwing_throws; eassumption.
Qed.

(** ** Initialising twice *)

Section Idempotence.
Context (env : Env) (definition : DatasetDefinition).
Context (scale : number) (crop : option number) (total : number).

Local Abbreviation task :=
  (fun _ : unit => Dataset.processFile env definition scale crop).
Local Abbreviation report := (fun i => emit (EvProgress i total)).

Lemma pool_prepares files : forall i st st',
  Forall (fun item : string * string => string_truthy (fst item) = true) files ->
  for_await_pool task report i tt files st = (Ok tt, st') ->
  (forall f, prepared_for (database st) scale crop f ->
             prepared_for (database st') scale crop f) /\
  Forall (fun item => prepared_for (database st') scale crop (fst item)) files.
Proof.
  induction files as [|[filename filePath] files IH]; intros i st st' Hnames H.
  - injection H as <-. auto.
  - inversion Hnames as [|? ? Hname Hrest]; subst. simpl in Hname.
    cbn [for_await_pool] in H.
    apply bind_inv_ok in H as ([] & st_a & Htask & H).
    apply bind_inv_ok in H as ([] & st_b & Hreport & H).
    injection Hreport as <-.
    apply IH in H as (Hkeep & Hall); [|exact Hrest]. cbn [database] in Hkeep.
    split.
    + intros f Hf. apply Hkeep. eapply processFile_keeps_prepared; eassumption.
    + constructor; [|exact Hall]. apply Hkeep.
      eapply processFile_prepares; eassumption.
Qed.

Lemma pool_skips files : forall i st,
  Forall (fun item => prepared_for (database st) scale crop (fst item)) files ->
  for_await_pool task report i tt files st
  = (Ok tt, with_events st (progress_events total i (length files))).
Proof.
  induction files as [|[filename filePath] files IH]; intros i st Hall.
  - unfold with_events, progress_events. simpl. rewrite app_nil_r. now destruct st.
  - inversion Hall as [|? ? Hhead Hrest]; subst. simpl in Hhead.
    cbn [for_await_pool].
    erewrite bind_ok by (apply processFile_skip; exact Hhead).
    erewrite bind_ok by apply emit_run.
    change {| database := database st; events := events st ++ [EvProgress (S i) total] |}
      with (with_events st [EvProgress (S i) total]).
    rewrite IH by exact Hrest.
    rewrite with_events_app. reflexivity.
Qed.

End Idempotence.

Lemma collect_truthy walked names :
  Forall (fun w : Dirent * Result (list string) =>
            forall name found,
              w = (FileEnt name, Ok found) ->
              Forall (fun n => string_truthy n = true) found) walked ->
  collect walked = Ok names ->
  Forall (fun n => string_truthy n = true) names.
Proof.
  intros Hall. revert names.
  induction Hall as [|[e r] walked He _ IH]; intros names H; simpl in H.
  - injection H as <-. constructor.
  - destruct r as [found|err]; [|discriminate].
    destruct (collect walked) as [more|err]; [|discriminate].
    injection H as <-. apply Forall_app. split; [|now apply IH].
    destruct e as [name|sub entries]; simpl.
    + eapply He. reflexivity.
    + apply Forall_forall. intros n Hn. apply list_elem_of_fmap in Hn as (x & -> & _).
      unfold path_join. destruct sub; reflexivity.
Qed.

(** The walk never yields an empty name. *)
Lemma walk_names_truthy dir entries names :
  walk (DirEnt dir entries) = Ok names ->
  Forall (fun n => string_truthy n = true) names.
Proof.
  destruct entries as [entries|]; [|discriminate]. simpl.
  apply collect_truthy. apply Forall_forall. intros [e r] Hin name found [= -> ->].
  apply list_elem_of_fmap in Hin as (e & [= <- Hr] & _).
  cbn [walk] in Hr. injection Hr as ->.
  destruct name as [|c name]; [vm_compute; constructor|].
  destruct (is_image_ext _); repeat constructor.
Qed.

(** C3: after [initialize] has succeeded, calling it again with the same
    scale and crop size succeeds, leaves the database as it is, and adds
    to the trace the directory listing, the progress reports and the
    write of that same database, which is the document the first call
    wrote last: no image is measured, derived or written.  More
    generally, a task of [prepare] whose file is in the cache for the
    scale and the crop size returns at once with the state untouched. *)
Theorem initialize_idempotent
    (env : Env) (definition : DatasetDefinition)
    (scale : number) (crop : option number) (st st1 : State) :
  Dataset.initialize env definition scale crop st = (Ok tt, st1) ->
  (exists new,
     Dataset.initialize env definition scale crop st1
     = (Ok tt, {| database := database st1; events := events st1 ++ new |}) /\
     forallb not_image_work new = true /\
     last new = Some (EvWriteDatabase (Dataset.getWritableName definition "database.json")
                                      (database st1)) /\
     last (events st1)
     = Some (EvWriteDatabase (Dataset.getWritableName definition "database.json")
                             (database st1))) /\
  (forall filename filePath st',
     prepared_for (database st') scale crop filename ->
     Dataset.processFile env definition scale crop (filename, filePath) st' = (Ok tt, st')).
Proof.
  intros H. split; [|intros; now apply processFile_skip].
  unfold Dataset.initialize in *.
  destruct (def_path definition) as [definitionPath|]; [|discriminate].
  destruct (string_truthy definitionPath); [|discriminate].
  apply bind_inv_ok in H as (names & st_a & Hnames & H).
  unfold getFiles in Hnames.
  apply bind_inv_ok in Hnames as ([] & st_r & Hread & Hwalk). injection Hread as <-.
  destruct (walk (DirEnt definitionPath (readdirSync env definitionPath)))
    as [names'|e] eqn:Hw; [|discriminate].
  injection Hwalk as <- <-.
  apply bind_inv_ok in H as ([] & st_b & Hprogress & H). injection Hprogress as <-.
  apply bind_inv_ok in H as ([] & st_c & Hpool & H).
  unfold Dataset.saveDatabase, get_database, put_database, mbind, M_bind, emit in H.
  cbn [database events] in H. injection H as <-. cbn [database events].
  unfold Dataset.prepare in Hpool.
  apply pool_prepares in Hpool as (_ & Hprepared).
  2: { apply Forall_fmap. eapply Forall_impl; [eapply walk_names_truthy; exact Hw|].
       intros n Hn. exact Hn. }
  set (files := map (fun file => (file, path_resolve definitionPath file)) names') in *.
  set (total := of_nat (length files)).
  set (file := Dataset.getWritableName definition "database.json").
  exists ([EvReaddir definitionPath; EvProgress 0 total]
          ++ progress_events total 0 (length files)
          ++ [EvWriteDatabase file (database st_c)]).
  split; [|split; [|split]].
  - unfold getFiles. erewrite bind_ok.
    2: { erewrite bind_ok by apply emit_run. rewrite Hw. reflexivity. }
    fold files. fold total.
    erewrite bind_ok by apply emit_run.
    erewrite bind_ok.
    2: { unfold Dataset.prepare. apply pool_skips. exact Hprepared. }
    unfold Dataset.saveDatabase, get_database, put_database, mbind, M_bind, emit, with_events.
    cbn [database events]. rewrite <- !app_assoc. reflexivity.
  - rewrite !forallb_app. cbn [forallb not_image_work image_work negb andb].
    rewrite andb_true_r. unfold progress_events.
    induction (seq 1 (length files)); [reflexivity | assumption].
  - rewrite !app_assoc. apply last_snoc.
  - apply last_snoc.
Qed.

(** ** A crop size of zero *)

Section FalsyCrop.
Context (env : Env) (definition : DatasetDefinition).

Lemma processFile_falsy_crop scale c item st :
  truthy c = false ->
  Dataset.processFile env definition scale (Some c) item st
  = Dataset.processFile env definition scale None item st.
Proof.
  intros Hc. destruct item as [filename filePath]. rewrite !processFile_unfold.
  destruct (lookup_entry (database st) filename scale) as [entry|] eqn:Hentry.
  - destruct (bool_decide _) eqn:Hhas; [reflexivity|].
    rewrite (processOriginal_cached env definition scale filePath filename st entry Hentry).
    now rewrite Hentry, Hc.
  - destruct (Dataset.processOriginal env definition scale filePath filename st)
      as [[[]|e] st1]; [|reflexivity].
    destruct (lookup_entry (database st1) filename scale); [|reflexivity].
    now rewrite Hc.
Qed.

Lemma for_await_pool_ext {A V} (w1 w2 : V -> A -> M V) callback items :
  (forall acc x st, w1 acc x st = w2 acc x st) ->
  forall i acc st,
    for_await_pool w1 callback i acc items st = for_await_pool w2 callback i acc items st.
Proof.
  intros Hext. induction items as [|x items IH]; intros i acc st; [reflexivity|].
  cbn [for_await_pool]. unfold mbind, M_bind. rewrite Hext.
  destruct (w2 acc x st) as [[acc'|e] st1]; [|reflexivity].
  destruct (callback (S i) st1) as [[[]|e] st2]; [|reflexivity].
  apply IH.
Qed.

Lemma initialize_falsy_crop scale c st :
  truthy c = false ->
  Dataset.initialize env definition scale (Some c) st
  = Dataset.initialize env definition scale None st.
Proof.
  intros Hc. unfold Dataset.initialize.
  destruct (def_path definition) as [definitionPath|]; [|reflexivity].
  destruct (string_truthy definitionPath); [|reflexivity].
  unfold mbind, M_bind. destruct (getFiles env definitionPath st) as [[names|e] st1];
    [|reflexivity].
  destruct (emit _ st1) as [[[]|e] st2]; [|reflexivity].
  unfold Dataset.prepare.
  rewrite (for_await_pool_ext
             (fun _ => Dataset.processFile env definition scale (Some c))
             (fun _ => Dataset.processFile env definition scale None));
    [reflexivity|].
  intros _ item st'. now apply processFile_falsy_crop.
Qed.

Lemma no_new_crop_refl db : no_new_crop db db.
Proof. intros f k entry' c pair H1 H2. eauto. Qed.

Lemma no_new_crop_trans db1 db2 db3 :
  no_new_crop db1 db2 -> no_new_crop db2 db3 -> no_new_crop db1 db3.
Proof.
  intros H12 H23 f k entry3 c pair H3 Hc.
  destruct (H23 _ _ _ _ _ H3 Hc) as (entry2 & H2 & Hc2). eauto.
Qed.

Lemma processFile_without_crop scale item st r st' :
  Dataset.processFile env definition scale None item st = (r, st') ->
  no_new_crop (database st) (database st') /\ appends not_crop_work st st'.
Proof.
  destruct item as [filename filePath]. rewrite processFile_unfold. intros H.
  destruct (lookup_entry (database st) filename scale) as [entry0|].
  { injection H as _ <-. split; [apply no_new_crop_refl | apply appends_refl]. }
  destruct (Dataset.processOriginal env definition scale filePath filename st)
    as [r1 st1] eqn:Horiginal.
  assert (Hst : st' = st1).
  { destruct r1 as [[]|e]; [|congruence].
    destruct (lookup_entry (database st1) filename scale); congruence. }
  subst st'.
  apply processOriginal_outcome in Horiginal
    as (Happ & [[-> _] | (_ & _ & entry & -> & Hcropped & _)]).
  - split; [apply no_new_crop_refl | exact Happ].
  - split; [|exact Happ].
    intros f k entry' c pair Hlookup Hpair.
    rewrite lookup_merge_payload_key in Hlookup.
    destruct (_ && _ && _); [|eauto].
    injection Hlookup as <-. rewrite Hcropped, lookup_empty in Hpair. discriminate.
Qed.

Lemma prepare_without_crop scale total files : forall i st r st',
  for_await_pool (fun _ : unit => Dataset.processFile env definition scale None)
    (fun j => emit (EvProgress j total)) i tt files st = (r, st') ->
  no_new_crop (database st) (database st') /\ appends not_crop_work st st'.
Proof.
  induction files as [|item files IH]; intros i st r st' H.
  - injection H as _ <-. split; [apply no_new_crop_refl | apply appends_refl].
  - cbn [for_await_pool] in H. unfold mbind, M_bind in H.
    destruct (Dataset.processFile env definition scale None item st)
      as [r1 st1] eqn:Htask.
    apply processFile_without_crop in Htask as (Hdb1 & Hev1).
    destruct r1 as [[]|e]; [|injection H as _ <-; auto].
    rewrite emit_run in H. apply IH in H as (Hdb2 & Hev2). cbn [database] in Hdb2.
    split; [eapply no_new_crop_trans; eassumption|].
    eapply appends_trans; [exact Hev1|].
    eapply appends_trans; [|exact Hev2].
    now apply (appends_with_events not_crop_work st1 [EvProgress (S i) total]).
Qed.

Lemma initialize_without_crop scale st r st' :
  Dataset.initialize env definition scale None st = (r, st') ->
  no_new_crop (database st) (database st') /\ appends not_crop_work st st'.
Proof.
  unfold Dataset.initialize.
  destruct (def_path definition) as [definitionPath|].
  2: { intros [= _ <-]. split; [apply no_new_crop_refl | apply appends_refl]. }
  destruct (string_truthy definitionPath).
  2: { intros [= _ <-]. split; [apply no_new_crop_refl | apply appends_refl]. }
  unfold getFiles, mbind, M_bind. rewrite emit_run.
  destruct (walk _) as [names|e].
  2: { intros [= _ <-]. split; [apply no_new_crop_refl|].
       now apply (appends_with_events not_crop_work st [EvReaddir definitionPath]). }
  unfold mret, M_ret. rewrite emit_run.
  set (files := map _ names). set (total := of_nat (length files)).
  unfold Dataset.prepare.
  destruct (for_await_pool _ _ 0 tt files _) as [r1 st1] eqn:Hpool.
  apply prepare_without_crop in Hpool as (Hdb & Hev). cbn [database] in Hdb.
  assert (Hev0 : appends not_crop_work st st1).
  { eapply appends_trans; [|exact Hev].
    exists [EvReaddir definitionPath; EvProgress 0 total].
    split; [cbn [events]; now rewrite <- app_assoc | reflexivity]. }
  destruct r1 as [[]|e]; [|intros [= _ <-]; auto].
  unfold Dataset.saveDatabase, get_database, put_database, mbind, M_bind, emit.
  cbn [database events]. intros [= _ <-]. cbn [database]. split; [exact Hdb|].
  eapply appends_trans; [exact Hev0|].
  eexists. split; [reflexivity | reflexivity].
Qed.

End FalsyCrop.

Lemma getFiles_falsy_crop db scale c :
  truthy c = false -> Dataset.getFiles db scale (Some c) = Dataset.getFiles db scale None.
Proof.
  intros Hc. unfold Dataset.getFiles.
  induction (Dataset.fileNames db) as [|name names IH]; [reflexivity|].
  cbn [map_throwing]. rewrite IH. unfold Dataset.getFiles_one. now rewrite Hc.
Qed.

(** C10: a crop size of 0 is no crop.  [getFiles(scale, 0)] is
    [getFiles(scale)]: on a database where every file has its entry at
    the scale it returns the uncropped triple of each file, with no
    cropped pair needed.  [initialize(scale, 0)] is [initialize(scale)]:
    same outcome, same database, same trace; it makes no call for a
    cropped artifact and the database it leaves has no cropped pair that
    was not there before. *)
Theorem zero_crop_is_no_crop
    (env : Env) (definition : DatasetDefinition) (scale : number) :
  (forall db,
     Dataset.getFiles db scale (Some 0%float) = Dataset.getFiles db scale None /\
     ((forall name, is_Some (db !! name) -> is_Some (lookup_entry db name scale)) ->
      exists files,
        Dataset.getFiles db scale (Some 0%float) = Ok files /\
        Forall2 (fun name file =>
                   exists entry, lookup_entry db name scale = Some entry /\
                                 file = uncropped entry)
                (Dataset.fileNames db) files)) /\
  (forall st,
     Dataset.initialize env definition scale (Some 0%float) st
     = Dataset.initialize env definition scale None st /\
     forall r st',
       Dataset.initialize env definition scale (Some 0%float) st = (r, st') ->
       no_new_crop (database st) (database st') /\ appends not_crop_work st st').
Proof.
  assert (Hzero : truthy 0%float = false) by reflexivity.
  split.
  - intros db. split; [now apply getFiles_falsy_crop|].
    intros Hentries. rewrite getFiles_falsy_crop by exact Hzero.
    destruct (map_throwing_total (Dataset.getFiles_one db scale None) (Dataset.fileNames db))
      as [files Hfiles].
    { apply Forall_forall. intros name Hname.
      apply elem_of_fileNames, Hentries in Hname as [entry Hentry].
      unfold Dataset.getFiles_one. rewrite Hentry. eauto. }
    exists files. split; [exact Hfiles|].
    apply map_throwing_ok_Forall2 in Hfiles.
    eapply Forall2_impl; [exact Hfiles|].
    intros name file Hone. unfold Dataset.getFiles_one in Hone. cbn in Hone.
    destruct (lookup_entry db name scale) as [entry|]; [|discriminate].
    injection Hone as <-. eauto.
  - intros st. split; [now apply initialize_falsy_crop|].
    intros r st' H. rewrite initialize_falsy_crop in H by exact Hzero.
    eapply initialize_without_crop; exact H.
Qed.

(** ** The benchmark loop of one pair *)

Section BenchmarkLoop.
Context (env : Env) (run : string -> string * string * string).
Context (tmp model : string).

Lemma calculatePerformance_run up orig diff metric st :
  Benchmarker.calculatePerformance run up orig diff metric st
  = (metric_of_output (run (compare_command metric up orig diff)),
     with_events st [EvExec (compare_command metric up orig diff)]).
Proof. reflexivity. Qed.

(** What [processFile] does up to the comparison of dimensions. *)
Lemma processFile_prefix scores item st :
  Benchmarker.processFile env run tmp model scores item st
  = match upscaled_size env model item with
    | Some d =>
        if dimensions_match item d then
          match score run tmp "ssim" item with
          | Throw e =>
              (Throw e, with_events st (upscale_events tmp model item
                                        ++ [hd (EvExec EmptyString) (compare_events tmp item)]))
          | Ok s =>
              match score run tmp "psnr" item with
              | Throw e =>
                  (Throw e, with_events st (upscale_events tmp model item
                                            ++ compare_events tmp item))
              | Ok p =>
                  (Ok (fst scores ++ [s], snd scores ++ [p]),
                   with_events st (upscale_events tmp model item
                                   ++ compare_events tmp item))
              end
          end
        else
          (Throw (DimensionsMismatchError (width (pf_original item))
                    (height (pf_original item)) (fst d) (snd d)),
           with_events st (upscale_events tmp model item))
    | None =>
        Benchmarker.processFile env run tmp model scores item st
    end.
Proof.
  destruct (upscaled_size env model item) as [d|] eqn:Hsize; [|reflexivity].
  unfold upscaled_size in Hsize.
  destruct scores as [ssim0 psnr0].
  unfold Benchmarker.processFile, Benchmarker.upscale, Dataset.getSize,
    dimensions_match, score, with_events, mbind, M_bind, mret, M_ret, emit, throw.
  simpl.
  destruct (upscale_ok env model _); [|discriminate].
  destruct (sizeOf env _) as [|[w|] [h|]]; try discriminate.
  destruct (truthy w && truthy h); [|discriminate].
  injection Hsize as <-. simpl.
  destruct (strict_ne _ w || strict_ne _ h); simpl.
  - rewrite <- !app_assoc. reflexivity.
  - unfold Benchmarker.calculatePerformance, lift_result, mbind, M_bind, emit. simpl.
    fold (upscaledPath tmp item) (diffPath tmp item).
    destruct (metric_of_output (run (compare_command "ssim" _ _ _))) as [s|e]; simpl.
    + destruct (metric_of_output (run (compare_command "psnr" _ _ _))) as [p|e]; simpl;
        rewrite <- !app_assoc; reflexivity.
    + rewrite <- !app_assoc. reflexivity.
Qed.
End BenchmarkLoop.

Section BenchmarkPair.
Context (env : Env) (run : string -> string * string * string).
Context (tmp model : string).

Lemma processFile_without_size scores item st :
  upscaled_size env model item = None ->
  exists e st', Benchmarker.processFile env run tmp model scores item st = (Throw e, st').
Proof.
  unfold upscaled_size. intros Hsize. destruct scores as [ssim0 psnr0].
  unfold Benchmarker.processFile, Benchmarker.upscale, Dataset.getSize,
    mbind, M_bind, mret, M_ret, emit, throw.
  simpl.
  destruct (upscale_ok env model _); [|eauto].
  destruct (sizeOf env _) as [|[w|] [h|]]; eauto.
  destruct (truthy w && truthy h); [discriminate | eauto].
Qed.

Lemma processFile_ok_inv scores item st scores' st' :
  Benchmarker.processFile env run tmp model scores item st = (Ok scores', st') ->
  exists s p,
    score run tmp "ssim" item = Ok s /\
    score run tmp "psnr" item = Ok p /\
    scores' = (fst scores ++ [s], snd scores ++ [p]).
Proof.
  intros H.
  destruct (upscaled_size env model item) as [d|] eqn:Hsize.
  - rewrite processFile_prefix, Hsize in H.
    destruct (dimensions_match item d); [|discriminate].
    destruct (score run tmp "ssim" item) as [s|]; [|discriminate].
    destruct (score run tmp "psnr" item) as [p|]; [|discriminate].
    injection H as <- _. eauto.
  - destruct (processFile_without_size scores item st Hsize) as (e & st1 & He).
    congruence.
Qed.

Lemma processFile_ready scores item st :
  file_ready env run tmp model item ->
  exists scores' st',
    Benchmarker.processFile env run tmp model scores item st = (Ok scores', st').
Proof.
  intros (d & s & p & Hsize & Hmatch & Hs & Hp).
  rewrite processFile_prefix, Hsize, Hmatch, Hs, Hp. eauto.
Qed.

Local Abbreviation pool count :=
  (for_await_pool (Benchmarker.processFile env run tmp model)
                  (fun i => emit (EvProgress i count))).

Lemma pool_ok_inv count files : forall i scores st scores' st',
  pool count i scores files st = (Ok scores', st') ->
  exists ssims psnrs,
    Forall2 (fun item s => score run tmp "ssim" item = Ok s) files ssims /\
    Forall2 (fun item p => score run tmp "psnr" item = Ok p) files psnrs /\
    scores' = (fst scores ++ ssims, snd scores ++ psnrs).
Proof.
  induction files as [|item files IH]; intros i scores st scores' st' H.
  - injection H as <- _. exists [], []. rewrite !app_nil_r.
    destruct scores; repeat constructor.
  - simpl in H.
    apply bind_inv_ok in H as (scores1 & st1 & Hitem & H).
    apply bind_inv_ok in H as ([] & st2 & _ & H).
    apply processFile_ok_inv in Hitem as (s & p & Hs & Hp & ->).
    apply IH in H as (ssims & psnrs & Hss & Hps & ->). simpl.
    exists (s :: ssims), (p :: psnrs).
    rewrite <- !app_assoc. repeat split; try constructor; assumption.
Qed.

Lemma pool_ready count files : forall i scores st,
  Forall (file_ready env run tmp model) files ->
  exists scores' st', pool count i scores files st = (Ok scores', st').
Proof.
  induction files as [|item files IH]; intros i scores st Hready.
  - simpl. eauto.
  - inversion Hready as [|? ? Hitem Hrest]; subst.
    destruct (processFile_ready scores item st Hitem) as (scores1 & st1 & H1).
    destruct (IH (S i) scores1 (with_events st1 [EvProgress (S i) count]) Hrest)
      as (scores' & st' & H').
    exists scores', st'. simpl.
    erewrite bind_ok by exact H1.
    erewrite bind_ok by apply emit_run. exact H'.
Qed.

Lemma pool_app count pre post : forall i scores st,
  pool count i scores (pre ++ post) st
  = match pool count i scores pre st with
    | (Ok scores', st1) => pool count (i + length pre) scores' post st1
    | (Throw e, st1) => (Throw e, st1)
    end.
Proof.
  induction pre as [|item pre IH]; intros i scores st.
  - simpl. now rewrite Nat.add_0_r.
  - cbn [app for_await_pool length].
    unfold mbind, M_bind.
    destruct (Benchmarker.processFile env run tmp model scores item st) as [[scores1|e] st1];
      [|reflexivity].
    rewrite emit_run. rewrite IH. now rewrite Nat.add_succ_r.
Qed.

(** When the loop over the files of a pair completes, its [ssim] and
    [psnr] are the sum of the per-file scores divided by their count, one
    score per file in processing order; the loop does complete when
    every file is ready; and with no file both averages are NaN. *)
Lemma benchmark_files_mean (limit : number) (files : list PreparedFile) :
  (forall st r st',
     Benchmarker.benchmark_files env run tmp limit model files st = (Ok r, st') ->
     exists ssims psnrs,
       Forall2 (fun item s => score run tmp "ssim" item = Ok s) files ssims /\
       Forall2 (fun item p => score run tmp "psnr" item = Ok p) files psnrs /\
       ssim r = avg ssims /\ psnr r = avg psnrs) /\
  (Forall (file_ready env run tmp model) files ->
   forall st, exists r st',
     Benchmarker.benchmark_files env run tmp limit model files st = (Ok r, st')) /\
  (files = [] ->
   forall st, exists st',
     Benchmarker.benchmark_files env run tmp limit model files st
     = (Ok {| ssim := nan; psnr := nan |}, st')).
Proof.
  split; [|split].
  - intros st r st' H. unfold Benchmarker.benchmark_files in H.
    apply bind_inv_ok in H as ([] & st0 & _ & H).
    apply bind_inv_ok in H as ([ssim1 psnr1] & st1 & Hpool & H).
    injection H as <- _.
    apply pool_ok_inv in Hpool as (ssims & psnrs & Hs & Hp & Heq).
    injection Heq as -> ->. exists ssims, psnrs. auto.
  - intros Hready st. unfold Benchmarker.benchmark_files.
    erewrite bind_ok by apply emit_run.
    edestruct pool_ready as ([ssim1 psnr1] & st1 & Hpool); [exact Hready|].
    erewrite bind_ok by exact Hpool. eauto.
  - intros -> st. eexists. reflexivity.
Qed.

End BenchmarkPair.

(** ** A dimension mismatch *)

Section DimensionMismatch.
Context (env : Env) (run : string -> string * string * string).

Lemma benchmark_files_mismatch tmp limit model pre item post d st scores1 st1 :
  let total := Math_min limit (of_nat (length (pre ++ item :: post))) in
  for_await_pool (Benchmarker.processFile env run tmp model)
    (fun i => emit (EvProgress i total)) 0 ([], []) pre
    (with_events st [EvProgress 0 total]) = (Ok scores1, st1) ->
  upscaled_size env model item = Some d ->
  dimensions_match item d = false ->
  Benchmarker.benchmark_files env run tmp limit model (pre ++ item :: post) st
  = (Throw (DimensionsMismatchError (width (pf_original item))
              (height (pf_original item)) (fst d) (snd d)),
     with_events st1 (upscale_events tmp model item)).
Proof.
  intros total Hpre Hsize Hmatch. unfold Benchmarker.benchmark_files. fold total.
  erewrite bind_ok by apply emit_run.
  apply bind_throw. rewrite pool_app.
  change {| database := database st; events := events st ++ [EvProgress 0 total] |}
    with (with_events st [EvProgress 0 total]).
  rewrite Hpre. cbn [for_await_pool].
  apply bind_throw. rewrite processFile_prefix, Hsize, Hmatch. reflexivity.
Qed.

(** C7: when the upscaled output of a file does not have the recorded
    original dimensions, the files before it having been processed, the
    run of that pair ends at once with the dimension-mismatch error: the
    loops over the models and over the datasets return the error instead
    of results, nothing is reported, and the calls made for the file are
    the upscale, the write and the size query only, no comparison. *)
Theorem dimension_mismatch_rejects_pair
    (b : BenchmarkerObject) (crop : option number) (dataset : DatasetObject)
    (dname mname model : string)
    (more : list (string * DatasetObject)) (rest : list (string * string))
    (results : list ResultEntry) (trace0 : list Event)
    (md : ModelDefinition) (st_a : State)
    (pre post : list PreparedFile) (item : PreparedFile)
    (scores1 : list number * list number) (st1 : State) (d : number * number) :
  let total := Math_min (n b) (of_nat (length (pre ++ item :: post))) in
  let failure := DimensionsMismatchError (width (pf_original item))
                   (height (pf_original item)) (fst d) (snd d) in
  let trace1 := events st1 ++ upscale_events (tmpDir b) model item in
  import_model env model = Some md ->
  Dataset.initialize env (definition dataset) (md_scale md) crop
    {| database := db dataset; events := trace0 |} = (Ok tt, st_a) ->
  Dataset.getFiles (database st_a) (md_scale md) crop = Ok (pre ++ item :: post) ->
  for_await_pool (Benchmarker.processFile env run (tmpDir b) model)
    (fun i => emit (EvProgress i total)) 0 ([], []) pre
    (with_events st_a [EvProgress 0 total]) = (Ok scores1, st1) ->
  upscaled_size env model item = Some d ->
  dimensions_match item d = false ->
  Benchmarker.benchmark_models env run b crop dataset ((mname, model) :: rest)
    results trace0
  = (Throw failure, {| definition := definition dataset; db := database st1 |}, trace1) /\
  (models b = (mname, model) :: rest ->
   Benchmarker.benchmark_datasets env run b crop ((dname, dataset) :: more)
     results trace0 = (Throw failure, trace1) /\
   (datasets b = (dname, dataset) :: more -> results = [] ->
    Benchmarker.benchmark env run b crop trace0 = (Throw failure, trace1))) /\
  forallb (fun e => negb (is_exec e || is_report e))
          (upscale_events (tmpDir b) model item) = true.
Proof.
  intros total failure trace1 Hmodel Hinit Hfiles Hpre Hsize Hmatch.
  assert (Hpair :
    Benchmarker.benchmark_pair env run (tmpDir b) (n b) crop (definition dataset) model
      {| database := db dataset; events := trace0 |}
    = (Throw failure, with_events st1 (upscale_events (tmpDir b) model item))).
  { unfold Benchmarker.benchmark_pair. rewrite Hmodel.
    erewrite bind_ok by exact Hinit.
    erewrite bind_ok by reflexivity.
    unfold get_database. cbn beta.
    erewrite bind_ok by (unfold lift_result; rewrite Hfiles; reflexivity).
    apply bind_throw.
    eapply benchmark_files_mismatch; eassumption. }
  assert (Hmodels :
    Benchmarker.benchmark_models env run b crop dataset ((mname, model) :: rest)
      results trace0
    = (Throw failure, {| definition := definition dataset; db := database st1 |}, trace1)).
  { cbn [Benchmarker.benchmark_models]. unfold Benchmarker.on_dataset.
    rewrite Hpair. reflexivity. }
  split; [exact Hmodels|]. split; [|reflexivity].
  intros Hms.
  assert (Hds :
    Benchmarker.benchmark_datasets env run b crop ((dname, dataset) :: more)
      results trace0 = (Throw failure, trace1)).
  { cbn [Benchmarker.benchmark_datasets]. rewrite Hms, Hmodels. reflexivity. }
  split; [exact Hds|].
  intros Hdatasets ->. unfold Benchmarker.benchmark. rewrite Hdatasets, Hds. reflexivity.
Qed.

End DimensionMismatch.

Lemma dimension_mismatch_rejects_pair_witness :
  let dataset := new_Dataset Sample.env_mismatch
                   {| def_name := "set5"; def_path := Some "/data" |} in
  let model := "/upscalerjs/models/esrgan-slim" in
  exists b st_a item post d,
    Benchmarker.new_Benchmarker Sample.env_mismatch ["esrgan-slim"] [dataset] infinity []
    = (Ok b, [EvMkdir "/tmp/run"]) /\
    import_model Sample.env_mismatch model
    = Some {| md_scale := 2%float; md_package := Some "esrgan-slim" |} /\
    Dataset.initialize Sample.env_mismatch (definition dataset) 2%float None
      {| database := db dataset; events := [EvMkdir "/tmp/run"] |} = (Ok tt, st_a) /\
    Dataset.getFiles (database st_a) 2%float None = Ok (item :: post) /\
    upscaled_size Sample.env_mismatch model item = Some d /\
    dimensions_match item d = false /\
    Benchmarker.benchmark Sample.env_mismatch (runScript Sample.env_mismatch) b None
      [EvMkdir "/tmp/run"]
    = (Throw (DimensionsMismatchError 4%float 6%float 5%float 7%float),
       events st_a ++ [EvProgress 0 2%float] ++ upscale_events "/tmp/run" model item).
Proof.
  intros dataset model.
  pose (b := {| n := infinity;
                models := [("esrgan-slim", model)];
                datasets := [("set5", dataset)];
                tmpDir := "/tmp/run" |}).
  let r := eval vm_compute in
    (Dataset.initialize Sample.env_mismatch (definition dataset) 2%float None
       {| database := db dataset; events := [EvMkdir "/tmp/run"] |}) in
  lazymatch r with (_, ?st) => pose (st_a := st) end.
  let r := eval vm_compute in (Dataset.getFiles (database st_a) 2%float None) in
  lazymatch r with Ok (?x :: ?l) => pose (item := x); pose (post := l) end.
  exists b, st_a, item, post, (5, 7)%float.
  split; [vm_compute; reflexivity|]. split; [vm_compute; reflexivity|].
  split; [vm_compute; reflexivity|]. split; [vm_compute; reflexivity|].
  split; [vm_compute; reflexivity|]. split; [vm_compute; reflexivity|].
  edestruct (dimension_mismatch_rejects_pair Sample.env_mismatch
               (runScript Sample.env_mismatch) b None dataset "set5" "esrgan-slim"
               model [] [] [] [EvMkdir "/tmp/run"]
               {| md_scale := 2%float; md_package := Some "esrgan-slim" |}
               st_a [] post item ([], [])
               (with_events st_a [EvProgress 0 2%float]) (5, 7)%float)
    as (_ & Hrun & _).
  - reflexivity.
  - vm_compute. reflexivity.
  - vm_compute. reflexivity.
  - vm_compute. reflexivity.
  - vm_compute. reflexivity.
  - vm_compute. reflexivity.
  - destruct (Hrun eq_refl) as (_ & Hbench).
    rewrite (Hbench eq_refl eq_refl). vm_compute. reflexivity.
Defined.

(** ** The sample world at work *)

Lemma initialize_idempotent_witness :
  let definition := {| def_name := "set5"; def_path := Some "/data" |} in
  let st := {| database := ∅; events := [] |} in
  exists st1 new,
    Dataset.initialize Sample.env definition 2%float (Some 2%float) st = (Ok tt, st1) /\
    Dataset.initialize Sample.env definition 2%float (Some 2%float) st1
    = (Ok tt, {| database := database st1; events := events st1 ++ new |}) /\
    forallb not_image_work new = true /\
    length (filter image_work (events st1)) = 18%nat.
Proof.
  intros definition st.
  let r := eval vm_compute in
    (Dataset.initialize Sample.env definition 2%float (Some 2%float) st) in
  lazymatch r with (_, ?s) => pose (st1 := s) end.
  assert (H : Dataset.initialize Sample.env definition 2%float (Some 2%float) st
              = (Ok tt, st1)) by (vm_compute; reflexivity).
  destruct (initialize_idempotent Sample.env definition 2%float (Some 2%float) st st1 H)
    as ((new & Hrun & Hwork & _) & _).
  exists st1, new. repeat split; assumption.
Defined.

(** C4 as stated fails: with a crop size of 0 requested and a file that
    has a cropped pair for 64 only, none for 0, [getFiles] does not throw
    but returns the uncropped triple. *)
Lemma getFiles_counterexample :
  let image := fun name w h => {| path := name; width := w; height := h |} in
  let entry := {| original := image "a-original.png" 128%float 128%float;
                  downscaled := image "a-downscaled.png" 64%float 64%float;
                  cropped := {[ toKey 64%float :=
                                  {| crop_original := image "a-64-original.png" 64%float 64%float;
                                     crop_downscaled := image "a-64-downscaled.png" 32%float 32%float |} ]};
                  fileName := "a.png" |} in
  let db : DatasetDatabase := {[ "a.png" := {[ toKey 2%float := entry ]} ]} in
  cropped entry !! toKey 0%float = None /\
  Dataset.getFiles db 2%float (Some 0%float) = Ok [uncropped entry].
Proof. vm_compute. split; reflexivity. Qed.

Lemma getFiles_sorted_or_throws_witness :
  let definition := {| def_name := "set5"; def_path := Some "/data" |} in
  let st := {| database := ∅; events := [] |} in
  let db := database (snd (Dataset.initialize Sample.env definition 2%float
                             (Some 2%float) st)) in
  keyed db /\
  (exists files,
     Dataset.getFiles db 2%float (Some 2%float) = Ok files /\
     map pf_fileName files = ["a.png"; "b.png"] /\
     StronglySorted str_le (map pf_fileName files)) /\
  (exists e, Dataset.getFiles db 2%float (Some 3%float) = Throw e).
Proof.
  intros definition st db.
  assert (Hkeyed : keyed db).
  { subst db.
    destruct (Dataset.initialize Sample.env definition 2%float (Some 2%float) st)
      as [r st'] eqn:H.
    eapply initialize_keyed; [exact H | apply keyed_empty]. }
  split; [exact Hkeyed|].
  destruct (getFiles_sorted_or_throws db 2%float (Some 2%float)) as (Hsorted & Htotal & _).
  destruct (getFiles_sorted_or_throws db 2%float (Some 3%float)) as (_ & _ & Hthrows).
  split.
  - destruct (Dataset.getFiles db 2%float (Some 2%float)) as [files|e] eqn:Hfiles.
    2: { vm_compute in Hfiles. discriminate. }
    destruct (Hsorted Hkeyed files eq_refl) as (_ & Hnames & Hs).
    exists files. repeat split; [|exact Hs].
    rewrite Hnames. vm_compute. reflexivity.
  - let r := eval vm_compute in (db !! "a.png") in
    lazymatch r with Some ?t => pose (table := t) end.
    apply (Hthrows 3%float "a.png" table eq_refl eq_refl).
    + vm_compute. reflexivity.
    + intros entry Hentry. vm_compute in Hentry. injection Hentry as <-.
      vm_compute. reflexivity.
Defined.

Lemma zero_crop_is_no_crop_witness :
  let definition := {| def_name := "set5"; def_path := Some "/data" |} in
  let st := {| database := ∅; events := [] |} in
  exists st',
    Dataset.initialize Sample.env definition 2%float (Some 0%float) st = (Ok tt, st') /\
    no_new_crop (database st) (database st') /\
    exists files, Dataset.getFiles (database st') 2%float (Some 0%float) = Ok files /\
                  map pf_fileName files = ["a.png"; "b.png"].
Proof.
  intros definition st.
  let r := eval vm_compute in
    (Dataset.initialize Sample.env definition 2%float (Some 0%float) st) in
  lazymatch r with (_, ?s) => pose (st' := s) end.
  assert (H : Dataset.initialize Sample.env definition 2%float (Some 0%float) st
              = (Ok tt, st')) by (vm_compute; reflexivity).
  exists st'. split; [exact H|].
  destruct (zero_crop_is_no_crop Sample.env definition 2%float) as (Hfiles & Hinit).
  destruct (Hinit st) as (_ & Hcrops).
  split; [apply (Hcrops _ _ H)|].
  destruct (Hfiles (database st')) as (Heq & _).
  eexists. split; [rewrite Heq; vm_compute; reflexivity|]. reflexivity.
Defined.

(** * Further properties of the script *)

(** ** The process runner *)

Lemma fold_stdout chunks : forall o e : string,
  fold_left (fun (acc : string * string) chunk => ((fst acc ++ chunk)%string, snd acc))
            chunks (o, e)
  = ((o ++ String.concat EmptyString chunks)%string, e).
Proof.
  induction chunks as [|c cs IH]; intros o e.
  - cbn. f_equal. induction o as [|a o IHo]; [reflexivity|].
    change (String a o = String a (o ++ EmptyString)%string). now f_equal.
  - cbn [fold_left fst snd]. rewrite IH. f_equal.
    assert (Happ : forall x y z : string, ((x ++ y) ++ z = x ++ (y ++ z))%string).
    { induction x as [|a x IHx]; intros y z; [reflexivity|].
      change (String a ((x ++ y) ++ z)%string = String a (x ++ (y ++ z))%string).
      now f_equal. }
    rewrite Happ. f_equal.
    destruct cs as [|c' cs']; [|reflexivity].
    cbn. induction c as [|a c IHc]; [reflexivity|].
    change (String a (c ++ EmptyString)%string = String a c). now f_equal.
Qed.

Lemma metric_without_output (answer : string * string * string) :
  snd (fst answer) = EmptyString -> metric_of_output answer = Throw NoMetricError.
Proof. destruct answer as [[o e] x]. cbn [fst snd]. now intros ->. Qed.

(** X4: [runScript] never throws.  Its answer is the chunks of standard
    output joined in order, the empty text for standard error whatever
    the process wrote there, and the message of the error, or the empty
    text when the process ended normally. *)
Theorem runScript_answer (env : Env) (cmd : string) :
  runScript env cmd
  = (String.concat EmptyString (stdout_chunks (exec env cmd)),
     EmptyString,
     default EmptyString (exit_error (exec env cmd))).
Proof.
  unfold runScript, call_with_surplus, callExec.
  rewrite fold_stdout.
  destruct (exit_error (exec env cmd)); reflexivity.
Qed.

(** X5: with this process runner the metric calculator rejects with "No
    metric found" on every call, whatever the tool prints on either
    stream and however it exits; the command has been run. *)
Theorem calculatePerformance_always_rejects
    (env : Env) (upscaledPath originalPath diffPath metric : string) (st : State) :
  Benchmarker.calculatePerformance (runScript env) upscaledPath originalPath diffPath
    metric st
  = (Throw NoMetricError,
     with_events st [EvExec (compare_command metric upscaledPath originalPath diffPath)]).
Proof.
  rewrite calculatePerformance_run, metric_without_output by apply runScript_collects_no_stderr.
  reflexivity.
Qed.

(** X6: so, with this process runner, the loop over the files of a pair
    never records a result once there is a file: a first file whose
    upscaled output has the right dimensions ends the pair with "No metric
    found" after the one ssim command, psnr is never measured, and no
    other first file lets the loop complete either. *)
Theorem benchmark_files_never_scores
    (env : Env) (tmp : string) (limit : number) (model : string)
    (item : PreparedFile) (rest : list PreparedFile) (st : State) :
  (forall r st',
     Benchmarker.benchmark_files env (runScript env) tmp limit model (item :: rest) st
     <> (Ok r, st')) /\
  (forall d,
     upscaled_size env model item = Some d -> dimensions_match item d = true ->
     Benchmarker.benchmark_files env (runScript env) tmp limit model (item :: rest) st
     = (Throw NoMetricError,
        with_events st
          ([EvProgress 0 (Math_min limit (of_nat (length (item :: rest))))]
           ++ upscale_events tmp model item
           ++ [EvExec (compare_command "ssim" (upscaledPath tmp item)
                         (path (pf_original item)) (diffPath tmp item))]))).
Proof.
  assert (Hscore : forall metric, score (runScript env) tmp metric item = Throw NoMetricError).
  { intros metric. unfold score. apply metric_without_output, runScript_collects_no_stderr. }
  split.
  - intros r st' H. unfold Benchmarker.benchmark_files in H.
    apply bind_inv_ok in H as ([] & st0 & _ & H).
    apply bind_inv_ok in H as (scores & st1 & Hpool & _).
    cbn [for_await_pool] in Hpool.
    apply bind_inv_ok in Hpool as (scores1 & st2 & Hitem & _).
    apply processFile_ok_inv in Hitem as (s & p & Hs & _).
    rewrite Hscore in Hs. discriminate.
  - intros d Hsize Hmatch. unfold Benchmarker.benchmark_files.
    erewrite bind_ok by apply emit_run.
    apply bind_throw. cbn [for_await_pool]. apply bind_throw.
    rewrite processFile_prefix, Hsize, Hmatch, Hscore.
    unfold with_events. cbn [database events hd compare_events].
    rewrite <- !app_assoc. reflexivity.
Qed.

Lemma benchmark_files_never_scores_witness :
  let st := {| database := ∅; events := [] |} in
  upscaled_size Sample.env "esrgan-slim" Sample.file_a = Some (4, 6)%float /\
  dimensions_match Sample.file_a (4, 6)%float = true /\
  fst (Benchmarker.benchmark_files Sample.env (runScript Sample.env) "/tmp/run" infinity
         "esrgan-slim" [Sample.file_a; Sample.file_b] st) = Throw NoMetricError.
Proof.
  intros st. split; [reflexivity|]. split; [reflexivity|].
  destruct (benchmark_files_never_scores Sample.env "/tmp/run" infinity "esrgan-slim"
              Sample.file_a [Sample.file_b] st) as (_ & H).
  rewrite (H (4, 6)%float eq_refl eq_refl). reflexivity.
Defined.

(** ** Persistence *)

Section Persistence.
Context (definition : DatasetDefinition).

(** X7: [saveDatabase(key, payload)] with a non-empty key is a shallow
    merge followed by a write of the whole database: the scales of the
    payload replace those the file had, its other scales and every other
    file are kept, and the document written is the database just
    obtained.  With an empty key, or none, the database is left as it is
    and written all the same. *)
Theorem saveDatabase_merges
    (key : option string) (payload : ScaleTable) (st : State) :
  exists db',
    Dataset.saveDatabase definition key payload st
    = (Ok tt,
       {| database := db';
          events := events st ++
            [EvWriteDatabase (Dataset.getWritableName definition "database.json") db'] |}) /\
    match key with
    | Some (String c k) =>
        forall f s,
          db' !! f ≫= (.!! s)
          = if decide (f = String c k)
            then match payload !! s with
                 | Some entry => Some entry
                 | None => database st !! f ≫= (.!! s)
                 end
            else database st !! f ≫= (.!! s)
    | _ => db' = database st
    end.
Proof.
  exists (match key with
          | Some k => merge_payload (database st) k payload
          | None => database st
          end).
  split; [destruct key; reflexivity|].
  destruct key as [[|c k]|]; try reflexivity.
  intros f s. unfold merge_payload. cbn [string_truthy].
  destruct (decide (f = String c k)) as [->|Hf].
  - rewrite lookup_insert_eq. cbn.
    destruct (payload !! s) as [entry|] eqn:Hs.
    + now apply lookup_union_Some_l.
    + rewrite lookup_union_r by exact Hs.
      destruct (database st !! String c k); [reflexivity | apply lookup_empty].
  - now rewrite lookup_insert_ne by congruence.
Qed.

Lemma replace_char_app sep by_ (a b : string) :
  replace_char sep by_ (a ++ b)
  = (replace_char sep by_ a ++ replace_char sep by_ b)%string.
Proof.
  induction a as [|c a IH]; [reflexivity|].
  change (String c a ++ b)%string with (String c (a ++ b)%string).
  cbn [replace_char]. rewrite IH.
  destruct (Ascii.eqb c sep); [|reflexivity].
  generalize (replace_char sep by_ a) (replace_char sep by_ b).
  clear IH. induction by_ as [|d by_ IHb]; intros x y; [reflexivity|].
  change (String d (by_ ++ (x ++ y))%string = String d ((by_ ++ x) ++ y)%string).
  f_equal. apply IHb.
Qed.

Lemma replace_slash_free (name : string) :
  ~ In "/"%char (list_ascii_of_string (replace_char "/" "-" name)).
Proof.
  induction name as [|c name IH]; [simpl; tauto|].
  cbn [replace_char]. destruct (Ascii.eqb_spec c "/"%char) as [->|Hc].
  - change ("-" ++ replace_char "/" "-" name)%string
      with (String "-"%char (replace_char "/" "-" name)).
    cbn [list_ascii_of_string In]. intros [H|H]; [discriminate | tauto].
  - cbn [list_ascii_of_string In]. intros [H|H]; [congruence | tauto].
Qed.

Lemma replace_without (sep : ascii) (by_ name : string) :
  ~ In sep (list_ascii_of_string name) -> replace_char sep by_ name = name.
Proof.
  induction name as [|c name IH]; [reflexivity|].
  cbn [list_ascii_of_string In replace_char]. intros H.
  destruct (Ascii.eqb_spec c sep) as [->|Hc]; [tauto|].
  rewrite IH by tauto. reflexivity.
Qed.

(** X8: the name of a cache file depends on the name given only through
    its formatted name, the given name with every slash turned into a
    dash: the formatted name has no slash, formatting it again changes
    nothing, and two names that differ only in a slash for a dash, like
    [sub/c.jpg] and [sub-c.jpg], are written to the same file. *)
Theorem getWritableName_flattens (name a b : string) :
  ~ In "/"%char (list_ascii_of_string (formattedName name)) /\
  formattedName (formattedName name) = formattedName name /\
  (forall other,
     formattedName other = formattedName name ->
     Dataset.getWritableName definition other = Dataset.getWritableName definition name) /\
  Dataset.getWritableName definition (formattedName name)
  = Dataset.getWritableName definition name /\
  Dataset.getWritableName definition (a ++ "/" ++ b)
  = Dataset.getWritableName definition (a ++ "-" ++ b).
Proof.
  assert (Hfree : ~ In "/"%char (list_ascii_of_string (formattedName name)))
    by apply replace_slash_free.
  assert (Hagain : formattedName (formattedName name) = formattedName name)
    by (apply replace_without, Hfree).
  assert (Hsame : forall other,
            formattedName other = formattedName name ->
            Dataset.getWritableName definition other
            = Dataset.getWritableName definition name).
  { intros other H. unfold Dataset.getWritableName. fold (formattedName other).
    fold (formattedName name). now rewrite H. }
  split; [exact Hfree|]. split; [exact Hagain|]. split; [exact Hsame|].
  split; [now apply Hsame|].
  unfold Dataset.getWritableName. f_equal.
  rewrite !replace_char_app. reflexivity.
Qed.

End Persistence.

(** ** The directory walk *)

Lemma Dirent_induction (P : Dirent -> Prop) :
  (forall name, P (FileEnt name)) ->
  (forall name, P (DirEnt name None)) ->
  (forall name entries, Forall P entries -> P (DirEnt name (Some entries))) ->
  forall d, P d.
Proof.
  intros Hfile Hnone Hsome. fix IH 1. intros [name|name [entries|]].
  - apply Hfile.
  - apply Hsome. induction entries as [|e entries IHe]; constructor; [apply IH | exact IHe].
  - apply Hnone.
Qed.

(** X9: a directory of files only yields exactly the names whose text
    after the last dot is [jpg], [jpeg] or [png], in the order of the
    listing; the test is on the exact lower-case text, and a name without
    a dot is tested whole. *)
Theorem walk_flat (dir : string) (names : list string) :
  walk (DirEnt dir (Some (map FileEnt names)))
  = Ok (filter (fun name => Is_true (is_image_ext (last_segment name))) names).
Proof.
  cbn [walk]. induction names as [|name names IH]; [reflexivity|].
  cbn [map collect walk]. rewrite IH. cbn [contribution].
  destruct (is_image_ext (last_segment name)) eqn:Hext.
  - rewrite filter_cons_True by (rewrite Hext; exact I). reflexivity.
  - rewrite filter_cons_False by (rewrite Hext; exact id). reflexivity.
Qed.

Lemma walk_outcome (d : Dirent) :
  (readable d = true -> exists names, walk d = Ok names) /\
  (readable d = false -> walk d = Throw (ExternalError "readdirSync")).
Proof.
  induction d as [name|name|name entries IH] using Dirent_induction.
  - split; [eauto | discriminate].
  - split; [discriminate | reflexivity].
  - cbn [readable walk]. induction IH as [|e entries [Hok Hthrow] _ [IHok IHthrow]].
    + split; [eauto | discriminate].
    + cbn [forallb map collect]. destruct (readable e).
      * destruct (Hok eq_refl) as [found ->]. cbn [andb]. split.
        -- intros H. destruct (IHok H) as [more ->]. eauto.
        -- intros H. now rewrite (IHthrow H).
      * cbn [andb]. rewrite (Hthrow eq_refl). split; [discriminate | reflexivity].
Qed.

(** X10: the walk returns a list of names exactly when every directory
    of the tree can be listed; otherwise it throws the error of the
    listing, whatever else the tree holds, and it throws no other
    error. *)
Theorem walk_readable (d : Dirent) :
  (readable d = true <-> exists names, walk d = Ok names) /\
  (readable d = false <-> exists e, walk d = Throw e) /\
  (forall e, walk d = Throw e -> e = ExternalError "readdirSync").
Proof.
  destruct (walk_outcome d) as [Hok Hthrow].
  destruct (readable d) eqn:Hd.
  - destruct (Hok eq_refl) as [names Hnames]. rewrite Hnames.
    split; [split; eauto|]. split; [|discriminate].
    split; [discriminate | intros [e He]; discriminate].
  - rewrite (Hthrow eq_refl).
    split; [split; [discriminate | intros [names Hn]; discriminate]|].
    split; [split; eauto|]. now intros e [= <-].
Qed.

Lemma basename_aux_plain (name : string) : forall acc,
  has_slash name = false -> basename_aux acc name = acc.
Proof.
  induction name as [|c name IH]; intros acc H; [reflexivity|].
  cbn [has_slash] in H. apply orb_false_iff in H as [Hc Hname].
  cbn [basename_aux]. rewrite Hc. now apply IH.
Qed.

Lemma basename_path_join (sub x : string) : basename (path_join sub x) = basename x.
Proof.
  unfold basename, path_join.
  assert (H : forall a acc, basename_aux acc (a ++ String "/"%char x)%string
                            = basename_aux x x).
  { induction a as [|c a IH]; intros acc.
    - reflexivity.
    - change (String c a ++ String "/"%char x)%string
        with (String c (a ++ String "/"%char x)%string).
      cbn [basename_aux]. destruct (Ascii.eqb c "/"%char); apply IH. }
  apply H.
Qed.

Lemma walk_images_below (d : Dirent) (names : list string) :
  plain_names d = true ->
  walk d = Ok names ->
  Forall (fun n => is_image_ext (last_segment (basename n)) = true /\
                   string_truthy n = true) names.
Proof.
  revert names.
  induction d as [name|name|name entries IH] using Dirent_induction; intros names Hplain H.
  - cbn [walk] in H. injection H as <-. cbn [plain_names] in Hplain.
    apply negb_true_iff in Hplain.
    destruct (is_image_ext (last_segment name)) eqn:Hext; constructor; [|constructor].
    unfold basename. rewrite basename_aux_plain by exact Hplain.
    split; [exact Hext|]. destruct name; [discriminate Hext | reflexivity].
  - discriminate.
  - cbn [plain_names] in Hplain. apply andb_true_iff in Hplain as [_ Hplain].
    cbn [walk] in H. revert names H Hplain.
    induction IH as [|e entries He _ IHe]; intros names H Hplain.
    + injection H as <-. constructor.
    + cbn [map collect] in H. cbn [forallb] in Hplain.
      apply andb_true_iff in Hplain as [Hpe Hpes].
      destruct (walk e) as [found|err] eqn:Hwalk; [|discriminate].
      destruct (collect _) as [more|err] eqn:Hmore; [|discriminate].
      injection H as <-. apply Forall_app. split; [|now apply IHe].
      specialize (He found Hpe eq_refl).
      destruct e as [name'|sub inner]; cbn [contribution]; [exact He|].
      apply Forall_fmap. eapply Forall_impl; [exact He|].
      intros x [Hx _]. cbn. rewrite basename_path_join. split; [exact Hx|].
      unfold path_join. destruct sub; reflexivity.
Qed.

(** X11: at any depth, what the walk of a directory returns are image
    files: the last component of every path returned ends, after its last
    dot, in [jpg], [jpeg] or [png], and no path returned is empty. *)
Theorem walk_returns_images (dir : string) (entries : list Dirent) (names : list string) :
  forallb plain_names entries = true ->
  walk (DirEnt dir (Some entries)) = Ok names ->
  Forall (fun n => is_image_ext (last_segment (basename n)) = true /\
                   string_truthy n = true) names.
Proof.
  intros Hplain H.
  apply (walk_images_below (DirEnt EmptyString (Some entries)) names); [|exact H].
  cbn [plain_names has_slash negb andb]. exact Hplain.
Qed.

Lemma walk_returns_images_witness :
  let tree := DirEnt "/data"
                (Some [FileEnt "a.png"; FileEnt "notes.txt";
                       DirEnt "my.set" (Some [FileEnt "png"; FileEnt "c.JPG"])]) in
  forallb plain_names [FileEnt "a.png"; FileEnt "notes.txt";
                       DirEnt "my.set" (Some [FileEnt "png"; FileEnt "c.JPG"])] = true /\
  walk tree = Ok ["a.png"; "my.set/png"] /\
  Forall (fun n => is_image_ext (last_segment (basename n)) = true /\
                   string_truthy n = true) ["a.png"; "my.set/png"].
Proof.
  intros tree. split; [reflexivity|]. split; [reflexivity|].
  apply (walk_returns_images "/data" [FileEnt "a.png"; FileEnt "notes.txt";
            DirEnt "my.set" (Some [FileEnt "png"; FileEnt "c.JPG"])]); reflexivity.
Defined.

(** X12: when a directory of the tree cannot be listed, [initialize]
    throws the error of the listing after the walk alone: the database is
    untouched, no image is measured or derived, nothing is written. *)
Theorem initialize_unreadable
    (env : Env) (definition : DatasetDefinition) (definitionPath : string)
    (scale : number) (crop : option number) (st : State) :
  def_path definition = Some definitionPath ->
  string_truthy definitionPath = true ->
  readable (DirEnt definitionPath (readdirSync env definitionPath)) = false ->
  Dataset.initialize env definition scale crop st
  = (Throw (ExternalError "readdirSync"), with_events st [EvReaddir definitionPath]).
Proof.
  intros Hpath Htruthy Hreadable. unfold Dataset.initialize. rewrite Hpath, Htruthy.
  apply bind_throw. unfold getFiles.
  erewrite bind_ok by apply emit_run.
  destruct (walk_outcome (DirEnt definitionPath (readdirSync env definitionPath)))
    as [_ Hthrow].
  rewrite (Hthrow Hreadable). reflexivity.
Qed.

Lemma initialize_unreadable_witness :
  let definition := {| def_name := "set5"; def_path := Some "/elsewhere" |} in
  let st := {| database := ∅; events := [] |} in
  readable (DirEnt "/elsewhere" (readdirSync Sample.env "/elsewhere")) = false /\
  Dataset.initialize Sample.env definition 2%float None st
  = (Throw (ExternalError "readdirSync"), with_events st [EvReaddir "/elsewhere"]).
Proof.
  intros definition st. split; [reflexivity|].
  apply (initialize_unreadable Sample.env definition "/elsewhere"); reflexivity.
Defined.

(** ** The life of the cache *)

Section CacheLife.
Context (env : Env) (definition : DatasetDefinition).

Ltac solve_task_appends :=
  eexists; split; [cbn [events]; rewrite <- ?app_assoc; reflexivity | reflexivity].

Lemma processOriginal_trace scale filePath filename st r st' :
  Dataset.processOriginal env definition scale filePath filename st = (r, st') ->
  appends task_event st st'.
Proof.
  intros H.
  unfold Dataset.processOriginal, Dataset.getSize, Dataset.toBuffer, Dataset.saveImage,
    Dataset.saveDatabase, Dataset.getDims, get_database, put_database,
    mbind, M_bind, mret, M_ret, emit, throw in H.
  cbn [database events] in H.
  destruct (lookup_entry (database st) filename scale).
  { injection H as _ <-. apply appends_refl. }
  destruct (sizeOf env (FileAt filePath)) as [|[w|] [h|]];
    try (injection H as _ <-; solve_task_appends).
  destruct (truthy w && truthy h); [|injection H as _ <-; solve_task_appends].
  cbn [database events] in H.
  destruct (sharp_ok env _); [|injection H as _ <-; solve_task_appends].
  cbn [database events] in H.
  destruct (sharp_ok env _); [|injection H as _ <-; solve_task_appends].
  cbn [database events] in H.
  injection H as _ <-. solve_task_appends.
Qed.

(** What a crop that succeeds records. *)
Lemma processCrop_records scale c filename entry st r st' :
  Dataset.processCrop env definition scale c filename entry st = (r, st') ->
  appends task_event st st' /\
  (r = Ok tt ->
   exists pair,
     database st' = merge_payload (database st) filename
                      {[ toKey scale := with_crop entry (toKey c) pair ]} /\
     (width (crop_original pair), height (crop_original pair)) = (c, c) /\
     (width (crop_downscaled pair), height (crop_downscaled pair))
     = (c / scale, c / scale)%float).
Proof.
  intros H.
  unfold Dataset.processCrop, Dataset.toBuffer, Dataset.saveImage,
    Dataset.saveDatabase, Dataset.getDims, get_database, put_database,
    mbind, M_bind, mret, M_ret, emit, throw in H.
  cbn [database events] in H.
  destruct (sharp_ok env _);
    [|injection H as <- <-; split; [solve_task_appends | discriminate]].
  cbn [database events] in H.
  destruct (sharp_ok env _);
    [|injection H as <- <-; split; [solve_task_appends | discriminate]].
  cbn [database events] in H.
  injection H as <- <-. split; [solve_task_appends|].
  intros _. eexists. split; [reflexivity|]. split; reflexivity.
Qed.

Lemma processFile_trace scale crop item st r st' :
  Dataset.processFile env definition scale crop item st = (r, st') ->
  appends task_event st st'.
Proof.
  destruct item as [filename filePath]. rewrite processFile_unfold. intros H.
  destruct (match lookup_entry (database st) filename scale with
            | Some _ => _ | None => _ end); [injection H as _ <-; apply appends_refl|].
  destruct (Dataset.processOriginal env definition scale filePath filename st)
    as [r1 st1] eqn:Horiginal.
  apply processOriginal_trace in Horiginal.
  destruct r1 as [[]|e]; [|injection H as _ <-; exact Horiginal].
  destruct (lookup_entry (database st1) filename scale) as [entry|];
    [|injection H as _ <-; exact Horiginal].
  destruct crop as [c|]; [|injection H as _ <-; exact Horiginal].
  destruct (truthy c && _); [|injection H as _ <-; exact Horiginal].
  apply processCrop_records in H as [H _].
  eapply appends_trans; eassumption.
Qed.

Lemma extends_refl db : extends db db.
Proof. intros f k entry H. exists entry. repeat split; auto. Qed.

Lemma extends_trans db1 db2 db3 : extends db1 db2 -> extends db2 db3 -> extends db1 db3.
Proof.
  intros H12 H23 f k e1 H1.
  destruct (H12 _ _ _ H1) as (e2 & H2 & Ho2 & Hd2 & Hf2 & Hc2).
  destruct (H23 _ _ _ H2) as (e3 & H3 & Ho3 & Hd3 & Hf3 & Hc3).
  exists e3. repeat split; try congruence. etransitivity; eassumption.
Qed.

Lemma processFile_extends scale crop item st r st' :
  Dataset.processFile env definition scale crop item st = (r, st') ->
  extends (database st) (database st').
Proof.
  destruct item as [filename filePath]. rewrite processFile_unfold. intros H.
  destruct (match lookup_entry (database st) filename scale with
            | Some _ => _ | None => _ end); [injection H as _ <-; apply extends_refl|].
  destruct (Dataset.processOriginal env definition scale filePath filename st)
    as [r1 st1] eqn:Horiginal.
  assert (H1 : extends (database st) (database st1)).
  { apply processOriginal_outcome in Horiginal
      as (_ & [[-> _] | (_ & Hfresh & entry & -> & _)]); [apply extends_refl|].
    intros f k e He. exists e. repeat split; auto.
    rewrite lookup_merge_payload_key.
    destruct (string_truthy filename && bool_decide (f = filename)
              && bool_decide (k = toKey scale)) eqn:Hcase; [|exact He].
    apply andb_true_iff in Hcase as [Hcase Hk]. apply andb_true_iff in Hcase as [_ Hf].
    apply bool_decide_eq_true in Hk, Hf. subst.
    unfold lookup_entry in Hfresh. congruence. }
  destruct r1 as [[]|e]; [|injection H as _ <-; exact H1].
  destruct (lookup_entry (database st1) filename scale) as [entry|] eqn:Hentry;
    [|injection H as _ <-; exact H1].
  destruct crop as [c|]; [|injection H as _ <-; exact H1].
  destruct (truthy c && negb _) eqn:Hcond; [|injection H as _ <-; exact H1].
  apply andb_true_iff in Hcond as [_ Hnone]. apply negb_true_iff in Hnone.
  apply bool_decide_eq_false in Hnone.
  apply processCrop_outcome in H as [[-> _] | (_ & pair & ->)]; [exact H1|].
  eapply extends_trans; [exact H1|].
  intros f k e He. rewrite lookup_merge_payload_key.
  destruct (string_truthy filename && bool_decide (f = filename)
            && bool_decide (k = toKey scale)) eqn:Hcase; [|exists e; repeat split; auto].
  apply andb_true_iff in Hcase as [Hcase Hk]. apply andb_true_iff in Hcase as [_ Hf].
  apply bool_decide_eq_true in Hk, Hf. subst.
  unfold lookup_entry in Hentry. rewrite Hentry in He. injection He as <-.
  eexists. split; [reflexivity|]. repeat split.
  cbn [with_crop cropped]. apply insert_subseteq.
  destruct (cropped entry !! toKey c) eqn:Hc; [|reflexivity].
  destruct Hnone. eauto.
Qed.

(** A property of states that every task and every emitted event keeps
    is kept by the loop of [prepare]. *)
Lemma pool_invariant (P : State -> State -> Prop) scale crop total :
  (forall st, P st st) ->
  (forall st1 st2 st3, P st1 st2 -> P st2 st3 -> P st1 st3) ->
  (forall item st r st',
     Dataset.processFile env definition scale crop item st = (r, st') -> P st st') ->
  (forall st i, P st (with_events st [EvProgress i total])) ->
  forall files i st r st',
    for_await_pool (fun _ : unit => Dataset.processFile env definition scale crop)
      (fun j => emit (EvProgress j total)) i tt files st = (r, st') ->
    P st st'.
Proof.
  intros Hrefl Htrans Htask Hprogress.
  induction files as [|item files IH]; intros i st r st' H.
  - injection H as _ <-. apply Hrefl.
  - cbn [for_await_pool] in H. unfold mbind, M_bind in H.
    destruct (Dataset.processFile env definition scale crop item st)
      as [r1 st1] eqn:Htaskrun.
    apply Htask in Htaskrun.
    destruct r1 as [[]|e]; [|injection H as _ <-; exact Htaskrun].
    rewrite emit_run in H. apply IH in H.
    eapply Htrans; [exact Htaskrun|]. eapply Htrans; [|exact H]. apply Hprogress.
Qed.

Lemma initialize_grows scale crop st r st' :
  Dataset.initialize env definition scale crop st = (r, st') ->
  extends (database st) (database st').
Proof.
  unfold Dataset.initialize.
  destruct (def_path definition) as [definitionPath|];
    [|intros [= _ <-]; apply extends_refl].
  destruct (string_truthy definitionPath); [|intros [= _ <-]; apply extends_refl].
  unfold getFiles, mbind, M_bind. rewrite emit_run.
  destruct (walk _) as [names|e]; [|intros [= _ <-]; apply extends_refl].
  unfold mret, M_ret. rewrite emit_run.
  set (files := map _ names). set (total := of_nat (length files)).
  unfold Dataset.prepare.
  destruct (for_await_pool _ _ 0 tt files _) as [r1 st1] eqn:Hpool.
  apply (pool_invariant (fun a b => extends (database a) (database b))) in Hpool.
  - cbn [database] in Hpool.
    destruct r1 as [[]|e]; [|intros [= _ <-]; exact Hpool].
    unfold Dataset.saveDatabase, get_database, put_database, mbind, M_bind, emit.
    cbn [database events]. intros [= _ <-]. exact Hpool.
  - intros s. apply extends_refl.
  - intros s1 s2 s3. apply extends_trans.
  - intros item s r' s'. apply processFile_extends.
  - intros s i. apply extends_refl.
Qed.

(** X13: whatever [initialize] does, and however it ends, the cache only
    grows: every entry that was in the database is still there with the
    same original, downscaled and file name, and every cropped pair it
    had is still the same pair; and the calls made are added to the
    trace, none taken back. *)
Theorem initialize_extends scale crop st r st' :
  Dataset.initialize env definition scale crop st = (r, st') ->
  extends (database st) (database st') /\
  exists new, events st' = events st ++ new.
Proof.
  intros H. split; [exact (initialize_grows _ _ _ _ _ H)|].
  unfold Dataset.initialize in H.
  destruct (def_path definition) as [definitionPath|];
    [|injection H as _ <-; exists []; now rewrite app_nil_r].
  destruct (string_truthy definitionPath);
    [|injection H as _ <-; exists []; now rewrite app_nil_r].
  unfold getFiles, mbind, M_bind in H. rewrite emit_run in H.
  destruct (walk _) as [names|e]; [|injection H as _ <-; eexists; reflexivity].
  unfold mret, M_ret in H. rewrite emit_run in H.
  unfold Dataset.prepare in H.
  destruct (for_await_pool _ _ 0 tt _ _) as [r1 st1] eqn:Hpool.
  apply (pool_invariant (fun s s' => exists new, events s' = events s ++ new)) in Hpool.
  - destruct Hpool as [new1 Hev1]. cbn [events] in Hev1.
    destruct r1 as [[]|e].
    + unfold Dataset.saveDatabase, get_database, put_database, mbind, M_bind, emit in H.
      cbn [database events] in H. injection H as _ <-. cbn [events].
      rewrite Hev1, <- !app_assoc. eexists. reflexivity.
    + injection H as _ <-. rewrite Hev1, <- !app_assoc. eexists. reflexivity.
  - intros s. exists []. now rewrite app_nil_r.
  - intros s1 s2 s3 [n1 H1] [n2 H2]. exists (n1 ++ n2). now rewrite H2, H1, app_assoc.
  - intros item s r' s' Htask. apply processFile_trace in Htask as (new & Hnew & _). eauto.
  - intros s i. eexists. reflexivity.
Qed.

(** X14: a task that fails leaves no partial entry.  Either the database
    is as it was, or it gained the complete entry of the file, without
    cropped pair, and it is the crop that failed. *)
Theorem processFile_failure scale crop filename filePath st e st' :
  Dataset.processFile env definition scale crop (filename, filePath) st = (Throw e, st') ->
  database st' = database st \/
  (lookup_entry (database st) filename scale = None /\
   exists entry,
     database st' = merge_payload (database st) filename {[ toKey scale := entry ]} /\
     cropped entry = ∅ /\ fileName entry = filename /\
     exists c, crop = Some c /\ truthy c = true).
Proof.
  rewrite processFile_unfold. intros H.
  destruct (match lookup_entry (database st) filename scale with
            | Some _ => _ | None => _ end); [discriminate|].
  destruct (Dataset.processOriginal env definition scale filePath filename st)
    as [r1 st1] eqn:Horiginal.
  apply processOriginal_outcome in Horiginal as (_ & Hcases).
  destruct r1 as [[]|e1].
  2: { injection H as _ <-. destruct Hcases as [[-> _] | (Hok & _)];
         [now left | discriminate]. }
  destruct (lookup_entry (database st1) filename scale) as [entry|] eqn:Hentry.
  2: { injection H as _ <-.
       destruct Hcases as [[-> _] | (_ & Hfresh & entry & Hdb & Hc & Hf)]; [now left|].
       left. rewrite Hdb in *. destruct (string_truthy filename) eqn:Hname.
       - rewrite lookup_merge_payload in Hentry by exact Hname. discriminate.
       - unfold merge_payload. now rewrite Hname. }
  destruct crop as [c|]; [|discriminate].
  destruct (truthy c) eqn:Hc; [|discriminate]. cbn [andb] in H.
  destruct (negb _); [|discriminate].
  apply processCrop_outcome in H as [[-> _] | (Hok & _)]; [|discriminate].
  destruct Hcases as [[-> _] | (_ & Hfresh & entry' & -> & Hcr & Hf)]; [now left|].
  right. split; [exact Hfresh|]. exists entry'. repeat split; eauto.
Qed.

End CacheLife.

Lemma initialize_extends_witness :
  let definition := {| def_name := "set5"; def_path := Some "/data" |} in
  let st := {| database := ∅; events := [] |} in
  exists st1 st2,
    Dataset.initialize Sample.env definition 2%float None st = (Ok tt, st1) /\
    Dataset.initialize Sample.env definition 2%float (Some 2%float) st1 = (Ok tt, st2) /\
    Dataset.fileNames (database st1) = ["a.png"; "b.png"] /\
    extends (database st1) (database st2) /\
    exists new, events st2 = events st1 ++ new.
Proof.
  intros definition st.
  let r := eval vm_compute in (Dataset.initialize Sample.env definition 2%float None st) in
  lazymatch r with (_, ?s) => pose (st1 := s) end.
  let r := eval vm_compute in
    (Dataset.initialize Sample.env definition 2%float (Some 2%float) st1) in
  lazymatch r with (_, ?s) => pose (st2 := s) end.
  assert (H : Dataset.initialize Sample.env definition 2%float (Some 2%float) st1
              = (Ok tt, st2)) by (vm_compute; reflexivity).
  exists st1, st2. split; [vm_compute; reflexivity|]. split; [exact H|].
  split; [vm_compute; reflexivity|].
  exact (initialize_extends Sample.env definition 2%float (Some 2%float) st1 (Ok tt) st2 H).
Defined.

Lemma processFile_failure_witness :
  let definition := {| def_name := "set5"; def_path := Some "/data" |} in
  let st := {| database := ∅; events := [] |} in
  exists e st',
    Dataset.processFile Worlds.env_no_extract definition 2%float (Some 2%float)
      ("a.png", "/data/a.png") st = (Throw e, st') /\
    Dataset.fileNames (database st') = ["a.png"] /\
    (database st' = database st \/
     (lookup_entry (database st) "a.png" 2%float = None /\
      exists entry,
        database st' = merge_payload (database st) "a.png" {[ toKey 2%float := entry ]} /\
        cropped entry = ∅ /\ fileName entry = "a.png" /\
        exists c, Some 2%float = Some c /\ truthy c = true)).
Proof.
  intros definition st.
  let r := eval vm_compute in
    (Dataset.processFile Worlds.env_no_extract definition 2%float (Some 2%float)
       ("a.png", "/data/a.png") st) in
  lazymatch r with (Throw ?e, ?s) => pose (e0 := e); pose (st' := s) end.
  assert (H : Dataset.processFile Worlds.env_no_extract definition 2%float (Some 2%float)
                ("a.png", "/data/a.png") st = (Throw e0, st'))
    by (vm_compute; reflexivity).
  exists e0, st'. split; [exact H|]. split; [vm_compute; reflexivity|].
  exact (processFile_failure Worlds.env_no_extract definition 2%float (Some 2%float)
           "a.png" "/data/a.png" st e0 st' H).
Defined.

(** ** Exact division *)

Lemma positive_not_nan (x : number) : (0 <? x)%float = true -> strict_eq x x = true.
Proof.
  unfold strict_eq. rewrite ltb_spec, FloatAxioms.eqb_spec.
  change (Prim2SF 0) with (S754_zero false).
  unfold SFltb, SFeqb. destruct (Prim2SF x) as [s|s| |s m e]; cbn; try discriminate.
  - destruct s; [discriminate | reflexivity].
  - destruct s; [discriminate|]. intros _.
    now rewrite Z.compare_refl, Pos.compare_cont_refl.
Qed.

Lemma positive_strict_eq (a b : number) :
  strict_eq a b = true -> (0 <? b)%float = true -> a = b.
Proof.
  unfold strict_eq. rewrite ltb_spec, FloatAxioms.eqb_spec.
  change (Prim2SF 0) with (S754_zero false).
  intros Heq Hlt. apply Prim2SF_inj. revert Heq Hlt. unfold SFltb, SFeqb.
  destruct (Prim2SF a) as [sa|sa| |sa ma ea], (Prim2SF b) as [sb|sb| |sb mb eb];
    cbn; intros Heq Hlt; try discriminate.
  all: destruct sa, sb; try discriminate; try reflexivity.
  destruct (Z.compare_spec ea eb) as [->| |]; try discriminate.
  rewrite Pos.compare_cont_spec in Heq. cbn in Heq.
  destruct (Pos.compare_spec ma mb) as [->| |]; try discriminate. reflexivity.
Qed.

Lemma positive_integer_floor (x : number) :
  positive_integer x = true -> Math_floor x = x.
Proof.
  unfold positive_integer, isInteger. intros H.
  apply andb_true_iff in H as [H Hpos]. apply andb_true_iff in H as [_ Heq].
  now apply positive_strict_eq.
Qed.

Section ExactDivision.
Context (env : Env) (definition : DatasetDefinition).

Lemma exact_merge db key scale entry :
  exact_at db scale -> divides_exactly scale entry ->
  exact_at (merge_payload db key {[ toKey scale := entry ]}) scale.
Proof.
  intros Hdb Hentry f entry' H. unfold lookup_entry in H.
  rewrite lookup_merge_payload_key in H.
  destruct (string_truthy key && bool_decide (f = key) && bool_decide (toKey scale = toKey scale)).
  - injection H as <-. exact Hentry.
  - exact (Hdb f entry' H).
Qed.

Lemma processOriginal_exact scale filePath filename st r st' :
  size_checking env ->
  Dataset.processOriginal env definition scale filePath filename st = (r, st') ->
  exact_at (database st) scale -> exact_at (database st') scale.
Proof.
  intros Hsharp H Hdb.
  unfold Dataset.processOriginal, Dataset.getSize, Dataset.toBuffer, Dataset.saveImage,
    Dataset.saveDatabase, Dataset.getDims, get_database, put_database,
    mbind, M_bind, mret, M_ret, emit, throw in H.
  cbn [database events] in H.
  destruct (lookup_entry (database st) filename scale) as [entry|] eqn:Hentry.
  { injection H as _ <-. exact Hdb. }
  destruct (sizeOf env (FileAt filePath)) as [|[w|] [h|]];
    try (injection H as _ <-; exact Hdb).
  destruct (truthy w && truthy h); [|injection H as _ <-; exact Hdb].
  cbn [database events] in H.
  match type of H with context [sharp_ok env ?i] =>
    destruct (sharp_ok env i) eqn:Hsharp1; [|injection H as _ <-; exact Hdb]
  end.
  cbn [database events] in H.
  match type of H with context [sharp_ok env ?i] =>
    destruct (sharp_ok env i) eqn:Hsharp2; [|injection H as _ <-; exact Hdb]
  end.
  cbn [database events] in H.
  injection H as _ <-. cbn [database].
  apply Hsharp in Hsharp1 as [Hw1 Hh1]. apply Hsharp in Hsharp2 as [Hw2 Hh2].
  apply (exact_merge (database st) filename scale); [exact Hdb|].
  unfold divides_exactly. cbn [original downscaled width height].
  rewrite <- (positive_integer_floor _ Hw2) at 1.
  rewrite <- (positive_integer_floor _ Hh2) at 1.
  unfold positive_integer in Hw1, Hh1.
  apply andb_true_iff in Hw1 as [_ Hw1]. apply andb_true_iff in Hh1 as [_ Hh1].
  split; now apply positive_not_nan.
Qed.

Lemma processCrop_exact scale c filename entry st r st' :
  lookup_entry (database st) filename scale = Some entry ->
  Dataset.processCrop env definition scale c filename entry st = (r, st') ->
  exact_at (database st) scale -> exact_at (database st') scale.
Proof.
  intros Hentry H Hdb.
  apply processCrop_outcome in H as [[-> _] | (_ & pair & ->)]; [exact Hdb|].
  apply exact_merge; [exact Hdb|]. exact (Hdb _ _ Hentry).
Qed.

Lemma processFile_exact scale crop item st r st' :
  size_checking env ->
  Dataset.processFile env definition scale crop item st = (r, st') ->
  exact_at (database st) scale -> exact_at (database st') scale.
Proof.
  intros Hsharp.
  destruct item as [filename filePath]. rewrite processFile_unfold. intros H Hdb.
  destruct (match lookup_entry (database st) filename scale with
            | Some _ => _ | None => _ end); [injection H as _ <-; exact Hdb|].
  destruct (Dataset.processOriginal env definition scale filePath filename st)
    as [r1 st1] eqn:Horiginal.
  apply processOriginal_exact in Horiginal; [|exact Hsharp|exact Hdb].
  destruct r1 as [[]|e]; [|injection H as _ <-; exact Horiginal].
  destruct (lookup_entry (database st1) filename scale) as [entry|] eqn:Hentry;
    [|injection H as _ <-; exact Horiginal].
  destruct crop as [c|]; [|injection H as _ <-; exact Horiginal].
  destruct (truthy c && _); [|injection H as _ <-; exact Horiginal].
  eapply processCrop_exact; eassumption.
Qed.

Lemma initialize_exact scale crop st r st' :
  size_checking env ->
  Dataset.initialize env definition scale crop st = (r, st') ->
  exact_at (database st) scale -> exact_at (database st') scale.
Proof.
  intros Hsharp. unfold Dataset.initialize.
  destruct (def_path definition) as [definitionPath|]; [|now intros [= _ <-]].
  destruct (string_truthy definitionPath); [|now intros [= _ <-]].
  unfold getFiles, mbind, M_bind. rewrite emit_run.
  destruct (walk _) as [names|e]; [|now intros [= _ <-]].
  unfold mret, M_ret. rewrite emit_run.
  unfold Dataset.prepare.
  destruct (for_await_pool _ _ 0 tt _ _) as [r1 st1] eqn:Hpool.
  intros H Hdb.
  assert (Hst1 : exact_at (database st1) scale).
  { revert Hdb.
    apply (pool_invariant env definition
             (fun s s' => exact_at (database s) scale -> exact_at (database s') scale)
             scale crop _ (fun s => id)
             (fun s1 s2 s3 H12 H23 H1 => H23 (H12 H1))
             (fun item s r' s' => processFile_exact scale crop item s r' s' Hsharp)
             (fun s i => id) _ _ _ _ _ Hpool). }
  destruct r1 as [[]|e]; [|now injection H as _ <-].
  unfold Dataset.saveDatabase, get_database, put_database, mbind, M_bind, emit in H.
  cbn [database events] in H. now injection H as _ <-.
Qed.

End ExactDivision.

Lemma exact_at_empty scale : exact_at ∅ scale.
Proof. intros f entry H. unfold lookup_entry in H. now rewrite lookup_empty in H. Qed.

Lemma strict_size_checking (e : Env) : size_checking (Worlds.strict e).
Proof.
  intros i w h cover H. cbn in H.
  apply andb_true_iff in H as [H _]. now apply andb_true_iff in H.
Qed.

(** C1: with an image library that, like sharp, refuses a resize to a
    width or height that is not a positive integer, every entry cached at
    scale [S] divides exactly: [initialize] keeps
    [downscaled * S == original] true of every file cached at [S], however
    it ends, so that it holds of everything cached from an empty cache.
    A source whose quotient [W/S] or [H/S] is not a positive integer is
    not cached at all: its task throws and leaves the database as it
    was. *)
Theorem cached_division_exact (env : Env) (definition : DatasetDefinition) (scale : number) :
  size_checking env ->
  (forall crop st r st',
     exact_at (database st) scale ->
     Dataset.initialize env definition scale crop st = (r, st') ->
     exact_at (database st') scale) /\
  (forall filePath filename st W H,
     lookup_entry (database st) filename scale = None ->
     sizeOf env (FileAt filePath) = Dimensions (Some W) (Some H) ->
     positive_integer (W / scale)%float && positive_integer (H / scale)%float = false ->
     exists e st',
       Dataset.processOriginal env definition scale filePath filename st = (Throw e, st') /\
       database st' = database st).
Proof.
  intros Hsharp. split.
  - intros crop st r st' Hdb H. eapply initialize_exact; eassumption.
  - intros filePath filename st W H Hfresh Hsize Hquot.
    unfold Dataset.processOriginal, Dataset.getSize, Dataset.toBuffer, Dataset.saveImage,
      Dataset.saveDatabase, Dataset.getDims, get_database, put_database,
      mbind, M_bind, mret, M_ret, emit, throw.
    cbn [database events]. rewrite Hfresh, Hsize.
    destruct (truthy W && truthy H); [|eauto].
    cbn [database events].
    match goal with |- context [sharp_ok env ?i] => destruct (sharp_ok env i) end; [|eauto].
    cbn [database events].
    match goal with |- context [sharp_ok env ?i] =>
      destruct (sharp_ok env i) eqn:Hsharp2 end; [|eauto].
    apply Hsharp in Hsharp2 as [Hw Hh]. rewrite Hw, Hh in Hquot. discriminate.
Qed.

Lemma cached_division_exact_witness :
  let definition := {| def_name := "set5"; def_path := Some "/data" |} in
  let st := {| database := ∅; events := [] |} in
  size_checking (Worlds.strict Worlds.env_even) /\
  size_checking (Worlds.strict Sample.env) /\
  (exists st1 entry,
     Dataset.initialize (Worlds.strict Worlds.env_even) definition 2%float None st
     = (Ok tt, st1) /\
     exact_at (database st1) 2%float /\
     lookup_entry (database st1) "a.png" 2%float = Some entry /\
     (width (original entry), height (original entry)) = (4, 6)%float /\
     (width (downscaled entry), height (downscaled entry)) = (2, 3)%float) /\
  (exists e st1,
     Dataset.processOriginal (Worlds.strict Sample.env) definition 2%float
       "/data/a.png" "a.png" st = (Throw e, st1) /\
     database st1 = database st).
Proof.
  intros definition st.
  split; [apply strict_size_checking|]. split; [apply strict_size_checking|].
  split.
  - let r := eval vm_compute in
      (Dataset.initialize (Worlds.strict Worlds.env_even) definition 2%float None st) in
    lazymatch r with (_, ?s) => pose (st1 := s) end.
    assert (H : Dataset.initialize (Worlds.strict Worlds.env_even) definition 2%float None st
                = (Ok tt, st1)) by (vm_compute; reflexivity).
    let r := eval vm_compute in (lookup_entry (database st1) "a.png" 2%float) in
    lazymatch r with Some ?e => pose (entry := e) end.
    exists st1, entry. split; [exact H|]. split.
    + destruct (cached_division_exact (Worlds.strict Worlds.env_even) definition 2%float
                  (strict_size_checking _)) as [Hinit _].
      exact (Hinit None st (Ok tt) st1 (exact_at_empty _) H).
    + vm_compute. repeat split; reflexivity.
  - destruct (cached_division_exact (Worlds.strict Sample.env) definition 2%float
                (strict_size_checking _)) as [_ Hodd].
    apply (Hodd "/data/a.png" "a.png" st 5%float 7%float); reflexivity.
Defined.

Section CropAndProgress.
Context (env : Env) (definition : DatasetDefinition).

(** X15: a task with a crop size that counts (neither 0 nor NaN), for a
    file that has no pair of that size yet, records on success a pair
    whose original is [c] x [c] and whose downscaled is [c/scale] x
    [c/scale], the quotient of the cropped size itself. *)
Theorem processFile_records_crop scale c filename filePath st st' :
  string_truthy filename = true ->
  truthy c = true ->
  (forall entry, lookup_entry (database st) filename scale = Some entry ->
                 cropped entry !! toKey c = None) ->
  Dataset.processFile env definition scale (Some c) (filename, filePath) st = (Ok tt, st') ->
  exists entry pair,
    lookup_entry (database st') filename scale = Some entry /\
    cropped entry !! toKey c = Some pair /\
    (width (crop_original pair), height (crop_original pair)) = (c, c) /\
    (width (crop_downscaled pair), height (crop_downscaled pair))
    = (c / scale, c / scale)%float.
Proof.
  intros Hname Hc Hnone H. rewrite processFile_unfold in H.
  assert (Hskip : match lookup_entry (database st) filename scale with
                  | Some entry => bool_decide (is_Some (cropped entry !! toKey c))
                  | None => false
                  end = false).
  { destruct (lookup_entry (database st) filename scale) as [entry|] eqn:He; [|reflexivity].
    apply bool_decide_eq_false. rewrite (Hnone entry eq_refl). now intros [? ?]. }
  rewrite Hskip in H.
  destruct (Dataset.processOriginal env definition scale filePath filename st)
    as [r1 st1] eqn:Horiginal.
  assert (H1 : forall entry, lookup_entry (database st1) filename scale = Some entry ->
                             cropped entry !! toKey c = None).
  { apply processOriginal_outcome in Horiginal
      as (_ & [[-> _] | (_ & _ & entry & -> & Hcropped & _)]); [exact Hnone|].
    intros entry' He. rewrite lookup_merge_payload in He by exact Hname.
    injection He as <-. now rewrite Hcropped, lookup_empty. }
  destruct r1 as [[]|e]; [|discriminate].
  destruct (lookup_entry (database st1) filename scale) as [entry|] eqn:Hentry;
    [|discriminate].
  rewrite Hc, (H1 entry eq_refl) in H.
  rewrite bool_decide_eq_false_2 in H by (now intros [? ?]). cbn [andb negb] in H.
  apply processCrop_records in H as [_ H].
  destruct (H eq_refl) as (pair & Hdb & Ho & Hd).
  exists (with_crop entry (toKey c) pair), pair.
  split; [rewrite Hdb; now apply lookup_merge_payload|].
  split; [cbn [with_crop cropped]; apply lookup_insert_eq|]. auto.
Qed.

Lemma filter_progress_task (new : list Event) :
  forallb task_event new = true -> filter (fun e => Is_true (is_progress e)) new = [].
Proof.
  induction new as [|e new IH]; [reflexivity|].
  cbn [forallb]. intros H. apply andb_true_iff in H as [He Hnew].
  rewrite filter_cons_False; [now apply IH|].
  destruct e; try discriminate He; exact id.
Qed.

Lemma pool_progress scale crop total files : forall i st st',
  for_await_pool (fun _ : unit => Dataset.processFile env definition scale crop)
    (fun j => emit (EvProgress j total)) i tt files st = (Ok tt, st') ->
  exists new,
    events st' = events st ++ new /\
    filter (fun e => Is_true (is_progress e)) new = progress_events total i (length files).
Proof.
  induction files as [|item files IH]; intros i st st' H.
  - injection H as <-. exists []. now rewrite app_nil_r.
  - cbn [for_await_pool] in H.
    apply bind_inv_ok in H as ([] & st1 & Htask & H).
    apply bind_inv_ok in H as ([] & st2 & Hemit & H). injection Hemit as <-.
    apply processFile_trace in Htask as (new1 & Hev1 & Hnew1).
    apply IH in H as (new2 & Hev2 & Hnew2). cbn [events] in Hev2.
    exists (new1 ++ [EvProgress (S i) total] ++ new2). split.
    + rewrite Hev2, Hev1. now rewrite <- !app_assoc.
    + rewrite !filter_app, (filter_progress_task new1 Hnew1), Hnew2. reflexivity.
Qed.

(** X16: an [initialize] that succeeds has rendered the progress bar once
    at 0 and then once after each file of the walk, counting 1, 2, ... up
    to the number of files, always against that number as total. *)
Theorem initialize_progress scale crop st st' definitionPath names :
  def_path definition = Some definitionPath ->
  walk (DirEnt definitionPath (readdirSync env definitionPath)) = Ok names ->
  Dataset.initialize env definition scale crop st = (Ok tt, st') ->
  exists new,
    events st' = events st ++ new /\
    filter (fun e => Is_true (is_progress e)) new
    = map (fun i => EvProgress i (of_nat (length names))) (seq 0 (S (length names))).
Proof.
  intros Hpath Hwalk H. unfold Dataset.initialize in H. rewrite Hpath in H.
  destruct (string_truthy definitionPath); [|discriminate].
  unfold getFiles in H.
  apply bind_inv_ok in H as (names' & st1 & Hnames & H).
  apply bind_inv_ok in Hnames as ([] & st0 & Hread & Hw). injection Hread as <-.
  rewrite Hwalk in Hw. injection Hw as <- <-.
  apply bind_inv_ok in H as ([] & st2 & Hemit & H). injection Hemit as <-.
  apply bind_inv_ok in H as ([] & st3 & Hpool & H).
  unfold Dataset.saveDatabase, get_database, put_database, mbind, M_bind, emit in H.
  cbn [database events] in H. injection H as <-.
  unfold Dataset.prepare in Hpool.
  apply pool_progress in Hpool as (new & Hev & Hnew).
  cbn [events] in *. rewrite length_map in *.
  eexists. split.
  - rewrite Hev. rewrite <- !app_assoc. reflexivity.
  - cbn [app]. rewrite filter_cons_False by exact id.
    rewrite filter_cons_True by exact I.
    rewrite filter_app, Hnew.
    rewrite filter_cons_False by exact id. rewrite app_nil_r.
    reflexivity.
Qed.

End CropAndProgress.

Lemma processFile_records_crop_witness :
  let definition := {| def_name := "set5"; def_path := Some "/data" |} in
  let st := {| database := ∅; events := [] |} in
  exists st' entry pair,
    Dataset.processFile Sample.env definition 2%float (Some 3%float)
      ("a.png", "/data/a.png") st = (Ok tt, st') /\
    lookup_entry (database st') "a.png" 2%float = Some entry /\
    cropped entry !! toKey 3%float = Some pair /\
    (width (crop_original pair), height (crop_original pair)) = (3, 3)%float /\
    (width (crop_downscaled pair), height (crop_downscaled pair)) = (1.5, 1.5)%float.
Proof.
  intros definition st.
  let r := eval vm_compute in
    (Dataset.processFile Sample.env definition 2%float (Some 3%float)
       ("a.png", "/data/a.png") st) in
  lazymatch r with (_, ?s) => pose (st' := s) end.
  assert (H : Dataset.processFile Sample.env definition 2%float (Some 3%float)
                ("a.png", "/data/a.png") st = (Ok tt, st')) by (vm_compute; reflexivity).
  destruct (processFile_records_crop Sample.env definition 2%float 3%float
              "a.png" "/data/a.png" st st')
    as (entry & pair & Hentry & Hpair & Ho & Hd).
  - reflexivity.
  - reflexivity.
  - intros entry Hentry. vm_compute in Hentry. discriminate.
  - exact H.
  - exists st', entry, pair.
    split; [exact H|]. split; [exact Hentry|]. split; [exact Hpair|].
    split; [exact Ho|]. rewrite Hd. vm_compute. reflexivity.
Defined.

Lemma initialize_progress_witness :
  let definition := {| def_name := "set5"; def_path := Some "/data" |} in
  let st := {| database := ∅; events := [] |} in
  exists st' new,
    Dataset.initialize Sample.env definition 2%float None st = (Ok tt, st') /\
    events st' = new /\
    filter (fun e => Is_true (is_progress e)) new
    = [EvProgress 0 2%float; EvProgress 1 2%float; EvProgress 2 2%float].
Proof.
  intros definition st.
  let r := eval vm_compute in (Dataset.initialize Sample.env definition 2%float None st) in
  lazymatch r with (_, ?s) => pose (st' := s) end.
  assert (H : Dataset.initialize Sample.env definition 2%float None st = (Ok tt, st'))
    by (vm_compute; reflexivity).
  let r := eval vm_compute in (walk (DirEnt "/data" (readdirSync Sample.env "/data"))) in
  lazymatch r with Ok ?l => pose (names := l) end.
  destruct (initialize_progress Sample.env definition 2%float None st st' "/data" names)
    as (new & Hev & Hprogress).
  - reflexivity.
  - vm_compute. reflexivity.
  - exact H.
  - exists st', new. split; [exact H|]. split; [exact Hev|].
    rewrite Hprogress. vm_compute. reflexivity.
Defined.

(** ** From [initialize] to [getFiles] *)

Section InitializeThenGetFiles.
Context (env : Env) (definition : DatasetDefinition).

Lemma pool_keys scale crop total files : forall i st r st' f,
  for_await_pool (fun _ : unit => Dataset.processFile env definition scale crop)
    (fun j => emit (EvProgress j total)) i tt files st = (r, st') ->
  is_Some (database st' !! f) ->
  f ∈ map fst files \/ is_Some (database st !! f).
Proof.
  induction files as [|[filename filePath] files IH]; intros i st r st' f H Hf.
  - injection H as _ <-. now right.
  - cbn [for_await_pool] in H. unfold mbind, M_bind in H.
    destruct (Dataset.processFile env definition scale crop (filename, filePath) st)
      as [r1 st1] eqn:Htask.
    assert (Hstep : is_Some (database st1 !! f) ->
                    f ∈ map fst ((filename, filePath) :: files) \/ is_Some (database st !! f)).
    { intros H1. destruct (decide (f = filename)) as [->|Hne].
      - left. cbn. apply list_elem_of_here.
      - right. now rewrite <- (processFile_other _ _ _ _ _ _ _ _ _ f Htask Hne). }
    destruct r1 as [[]|e]; [|injection H as _ <-; auto].
    rewrite emit_run in H.
    destruct (IH _ _ _ _ f H Hf) as [Hin | H1].
    + left. cbn. now apply list_elem_of_further.
    + apply Hstep. exact H1.
Qed.

(** X17: after an [initialize] that succeeds on a cache where every file
    already known is prepared for the scale and the crop size (an empty
    cache for one), [getFiles] with the same scale and crop size returns:
    one triple for each file of the walk and each file known before, no
    file twice, in ascending order of file name. *)
Theorem initialize_then_getFiles scale crop st st' definitionPath names :
  keyed (database st) ->
  (forall f, is_Some (database st !! f) -> prepared_for (database st) scale crop f) ->
  def_path definition = Some definitionPath ->
  walk (DirEnt definitionPath (readdirSync env definitionPath)) = Ok names ->
  Dataset.initialize env definition scale crop st = (Ok tt, st') ->
  exists files,
    Dataset.getFiles (database st') scale crop = Ok files /\
    (forall f, f ∈ map pf_fileName files <-> f ∈ names \/ is_Some (database st !! f)) /\
    NoDup (map pf_fileName files) /\
    StronglySorted str_le (map pf_fileName files).
Proof.
  intros Hkeyed Hold Hpath Hwalk H.
  pose proof (initialize_keyed env definition scale crop st _ _ H Hkeyed) as Hkeyed'.
  pose proof (initialize_grows env definition scale crop st _ _ H) as Hext.
  unfold Dataset.initialize in H. rewrite Hpath in H.
  destruct (string_truthy definitionPath); [|discriminate].
  unfold getFiles in H.
  apply bind_inv_ok in H as (names' & st1 & Hnames & H).
  apply bind_inv_ok in Hnames as ([] & st0 & Hread & Hw). injection Hread as <-.
  rewrite Hwalk in Hw. injection Hw as <- <-.
  apply bind_inv_ok in H as ([] & st2 & Hemit & H). injection Hemit as <-.
  apply bind_inv_ok in H as ([] & st3 & Hpool & H).
  unfold Dataset.saveDatabase, get_database, put_database, mbind, M_bind, emit in H.
  cbn [database events] in H. injection H as <-. cbn [database] in *.
  unfold Dataset.prepare in Hpool.
  set (files := map (fun file => (file, path_resolve definitionPath file)) names) in *.
  assert (Hfst : map fst files = names).
  { subst files. rewrite map_map. cbn. apply map_id. }
  pose proof (fun f => pool_keys _ _ _ _ _ _ _ _ f Hpool) as Hkeys. cbn [database] in Hkeys.
  apply pool_prepares in Hpool as (Hkeep & Hnew).
  2: { subst files. apply Forall_fmap.
       eapply Forall_impl; [eapply walk_names_truthy; exact Hwalk|]. auto. }
  cbn [database] in Hkeep.
  assert (Hprepared : forall f, is_Some (database st3 !! f) ->
                                prepared_for (database st3) scale crop f).
  { intros f Hf. destruct (Hkeys f Hf) as [Hin | Hbefore].
    - rewrite Forall_forall in Hnew. rewrite <- Hfst in *.
      apply list_elem_of_fmap in Hin as (item & -> & Hitem). now apply Hnew.
    - apply Hkeep, Hold, Hbefore. }
  destruct (map_throwing_total (Dataset.getFiles_one (database st3) scale crop)
              (Dataset.fileNames (database st3))) as [result Hresult].
  { apply Forall_forall. intros f Hf.
    apply elem_of_fileNames, Hprepared in Hf as (entry & Hentry & Hcrop).
    unfold Dataset.getFiles_one. rewrite Hentry.
    destruct crop as [c|]; [|eauto].
    destruct (truthy c) eqn:Hc; [|eauto].
    destruct (Hcrop c eq_refl Hc) as [pair Hpair]. rewrite Hpair. eauto. }
  exists result. split; [exact Hresult|].
  assert (Hnamesof : map pf_fileName result = Dataset.fileNames (database st3)).
  { apply map_throwing_ok_Forall2 in Hresult.
    induction Hresult as [|f file fs files' Hone _ IH]; [reflexivity|].
    cbn [map]. f_equal; [|exact IH]. eapply getFiles_one_fileName; eassumption. }
  rewrite Hnamesof. split; [|split].
  - intros f. rewrite elem_of_fileNames. split.
    + intros Hf. destruct (Hkeys f Hf) as [Hin | Hbefore]; [left | now right].
      now rewrite <- Hfst.
    + intros [Hin | [table Hbefore]].
      * rewrite Forall_forall in Hnew. rewrite <- Hfst in Hin.
        apply list_elem_of_fmap in Hin as (item & -> & Hitem).
        destruct (Hnew item Hitem) as (entry & Hentry & _).
        unfold lookup_entry in Hentry.
        destruct (database st3 !! item.1); [eauto | discriminate].
      * destruct (Hold f (ex_intro _ table Hbefore)) as (entry & Hentry & _).
        destruct (Hext f (toKey scale) entry Hentry) as (entry' & Hentry' & _).
        destruct (database st3 !! f); [eauto | discriminate].
  - unfold Dataset.fileNames. rewrite merge_sort_Permutation.
    apply NoDup_fst_map_to_list.
  - apply fileNames_sorted.
Qed.

End InitializeThenGetFiles.

Lemma map_throwing_only {A B} (f : A -> Result B) (l : list A) (e0 e : Error) :
  (forall x e', f x = Throw e' -> e' = e0) ->
  map_throwing f l = Throw e -> e = e0.
Proof.
  intros Hf. induction l as [|x l IH]; [discriminate|].
  cbn [map_throwing]. destruct (f x) as [y|e'] eqn:Hx.
  - destruct (map_throwing f l); [discriminate|]. intros [= <-]. now apply IH.
  - intros [= <-]. eapply Hf. exact Hx.
Qed.

(** X18: [getFiles] throws whenever some file of the database has no
    entry at the requested scale, for instance a file cached at another
    scale only; and when no crop is in effect (none given, 0 or NaN) the
    one error it can throw is that [TypeError] on [file.original], never
    an error about cropping. *)
Theorem getFiles_missing_scale (db : DatasetDatabase) (scale : number) (crop : option number) :
  (forall name table,
     db !! name = Some table -> table !! toKey scale = None ->
     exists e, Dataset.getFiles db scale crop = Throw e) /\
  (match crop with Some c => truthy c | None => false end = false ->
   forall e, Dataset.getFiles db scale crop = Throw e -> e = TypeError "file.original").
Proof.
  split.
  - intros name table Hname Hscale.
    assert (Hin : name ∈ Dataset.fileNames db) by (apply elem_of_fileNames; eauto).
    assert (exists e, Dataset.getFiles_one db scale crop name = Throw e) as [e He].
    { unfold Dataset.getFiles_one, lookup_entry. rewrite Hname. cbn. rewrite Hscale.
      destruct crop as [c|]; [destruct (truthy c)|]; eauto. }
    eapply map_throwing_throws; eassumption.
  - intros Hcrop e. apply map_throwing_only.
    intros name e'. unfold Dataset.getFiles_one. rewrite Hcrop.
    destruct (lookup_entry db name scale); [discriminate | now intros [= <-]].
Qed.

Lemma getFiles_missing_scale_witness :
  let image := fun name w h => {| path := name; width := w; height := h |} in
  let entry := {| original := image "a-original.png" 128%float 128%float;
                  downscaled := image "a-downscaled.png" 64%float 64%float;
                  cropped := ∅;
                  fileName := "a.png" |} in
  let table : ScaleTable := {[ toKey 2%float := entry ]} in
  let db : DatasetDatabase := {[ "a.png" := table ]} in
  db !! "a.png" = Some table /\ table !! toKey 3%float = None /\
  Dataset.getFiles db 2%float None = Ok [uncropped entry] /\
  Dataset.getFiles db 3%float None = Throw (TypeError "file.original").
Proof.
  intros image entry table db.
  assert (Hname : db !! "a.png" = Some table) by reflexivity.
  assert (Hscale : table !! toKey 3%float = None) by reflexivity.
  split; [exact Hname|]. split; [exact Hscale|].
  split; [vm_compute; reflexivity|].
  destruct (getFiles_missing_scale db 3%float None) as (Hthrows & Honly).
  destruct (Hthrows "a.png" table Hname Hscale) as [e He].
  rewrite He. f_equal. apply (Honly eq_refl e He).
Defined.

Lemma initialize_then_getFiles_witness :
  let definition := {| def_name := "set5"; def_path := Some "/data" |} in
  let st := {| database := ∅; events := [] |} in
  exists st' files,
    Dataset.initialize Sample.env definition 2%float (Some 2%float) st = (Ok tt, st') /\
    Dataset.getFiles (database st') 2%float (Some 2%float) = Ok files /\
    (forall f, f ∈ map pf_fileName files <-> f ∈ ["b.png"; "a.png"] \/ is_Some (database st !! f)) /\
    NoDup (map pf_fileName files) /\
    StronglySorted str_le (map pf_fileName files).
Proof.
  intros definition st.
  let r := eval vm_compute in
    (Dataset.initialize Sample.env definition 2%float (Some 2%float) st) in
  lazymatch r with (_, ?s) => pose (st' := s) end.
  assert (H : Dataset.initialize Sample.env definition 2%float (Some 2%float) st
              = (Ok tt, st')) by (vm_compute; reflexivity).
  destruct (initialize_then_getFiles Sample.env definition 2%float (Some 2%float) st st'
              "/data" ["b.png"; "a.png"])
    as (files & Hfiles & Hnames & Hnodup & Hsorted).
  - apply keyed_empty.
  - intros f [table Hf]. subst st. cbn [database] in Hf.
    rewrite lookup_empty in Hf. discriminate.
  - reflexivity.
  - vm_compute. reflexivity.
  - exact H.
  - exists st', files. auto.
Defined.

(** ** The maps and the loops of the Benchmarker *)

Lemma map_get_set {V} (k k' : string) (v : V) (m : list (string * V)) :
  map_get k' (map_set k v m) = if String.eqb k' k then Some v else map_get k' m.
Proof.
  induction m as [|[k0 v0] m IH]; cbn [map_set map_get]; [reflexivity|].
  destruct (String.eqb_spec k k0) as [->|Hk]; cbn [map_get].
  - destruct (String.eqb k' k0); reflexivity.
  - rewrite IH. destruct (String.eqb_spec k' k0) as [->|Hk'].
    + destruct (String.eqb_spec k0 k); [congruence | reflexivity].
    + reflexivity.
Qed.

Lemma map_set_keys {V} (k : string) (v : V) (m : list (string * V)) :
  map fst (map_set k v m) = if bool_decide (k ∈ map fst m) then map fst m
                            else map fst m ++ [k].
Proof.
  induction m as [|[k0 v0] m IH]; cbn [map_set map fst app]; [reflexivity|].
  destruct (String.eqb_spec k k0) as [->|Hk]; cbn [map fst].
  - rewrite bool_decide_eq_true_2 by apply list_elem_of_here. reflexivity.
  - rewrite IH. destruct (decide (k ∈ map fst m)) as [Hin|Hout].
    + rewrite !bool_decide_eq_true_2; auto using list_elem_of_further.
    + rewrite !bool_decide_eq_false_2; [reflexivity | | exact Hout].
      intros Hin. apply elem_of_cons in Hin as [?|?]; congruence.
Qed.

Lemma map_set_NoDup {V} (k : string) (v : V) (m : list (string * V)) :
  NoDup (map fst m) -> NoDup (map fst (map_set k v m)).
Proof.
  intros H. rewrite map_set_keys. destruct (decide (k ∈ map fst m)) as [Hin|Hout].
  - now rewrite bool_decide_eq_true_2.
  - rewrite bool_decide_eq_false_2 by exact Hout.
    apply NoDup_app. split; [exact H|]. split; [|apply NoDup_singleton].
    intros x Hx Hk. apply list_elem_of_singleton in Hk. congruence.
Qed.

Lemma fold_map_set {A V} (key : A -> string) (value : A -> V) (items : list A) :
  forall m : list (string * V),
    NoDup (map fst m) ->
    NoDup (map fst (fold_left (fun m x => map_set (key x) (value x) m) items m)) /\
    forall k,
      map_get k (fold_left (fun m x => map_set (key x) (value x) m) items m)
      = match fold_left (fun found x => if String.eqb k (key x) then Some x else found)
                        items None with
        | Some x => Some (value x)
        | None => map_get k m
        end.
Proof.
  induction items as [|x items IH]; intros m Hm.
  - split; [exact Hm | reflexivity].
  - cbn [fold_left]. destruct (IH (map_set (key x) (value x) m)) as [Hnd Hget];
      [now apply map_set_NoDup|].
    split; [exact Hnd|]. intros k. rewrite Hget, map_get_set.
    assert (Hfold : forall (start : option A),
      fold_left (fun found y => if String.eqb k (key y) then Some y else found) items start
      = match fold_left (fun found y => if String.eqb k (key y) then Some y else found)
                        items None with
        | Some y => Some y
        | None => start
        end).
    { clear. induction items as [|y items IHi]; intros start; [reflexivity|].
      cbn [fold_left]. rewrite IHi.
      rewrite (IHi (if String.eqb k (key y) then Some y else None)).
      destruct (fold_left _ items None); [reflexivity|].
      destruct (String.eqb k (key y)); reflexivity. }
    rewrite (Hfold (if String.eqb k (key x) then Some x else None)).
    destruct (fold_left _ items None); [reflexivity|].
    destruct (String.eqb k (key x)); reflexivity.
Qed.

Lemma last_such_snoc {A} (test : A -> bool) (l : list A) (x : A) :
  last_such test (l ++ [x]) = if test x then Some x else last_such test l.
Proof. unfold last_such. now rewrite fold_left_app. Qed.

Lemma last_such_spec {A} (test : A -> bool) (l : list A) :
  match last_such test l with
  | Some x => x ∈ l /\ test x = true
  | None => forall x, x ∈ l -> test x = false
  end.
Proof.
  induction l as [|x l IH] using rev_ind.
  - intros x Hx. now apply elem_of_nil in Hx.
  - rewrite last_such_snoc. destruct (test x) eqn:Hx.
    + split; [|exact Hx]. apply elem_of_app. right. now apply list_elem_of_singleton.
    + destruct (last_such test l) as [y|].
      * destruct IH as [Hy Ht]. split; [|exact Ht]. apply elem_of_app. now left.
      * intros y Hy. apply elem_of_app in Hy as [Hy|Hy]; [now apply IH|].
        apply list_elem_of_singleton in Hy. now subst.
Qed.

(** X19: the constructor indexes datasets by name and models by their
    name: no name occurs twice in either map, and a name given several
    times stands for the last dataset given under it, the earlier ones
    being dropped; each model name maps to its path under [models]. *)
Theorem new_Benchmarker_maps
    (env : Env) (modelNames : list string) (ds : list DatasetObject)
    (limit : number) (trace : list Event) (tmp : string) :
  makeTmpDir env = Some tmp ->
  exists b,
    Benchmarker.new_Benchmarker env modelNames ds limit trace
    = (Ok b, trace ++ [EvMkdir tmp]) /\
    NoDup (map fst (datasets b)) /\ NoDup (map fst (models b)) /\
    (forall name,
       map_get name (datasets b)
       = last_such (fun d => String.eqb name (def_name (definition d))) ds) /\
    (forall name,
       map_get name (models b)
       = if bool_decide (name ∈ modelNames)
         then Some (path_resolve (path_resolve ROOT_DIR "models") name) else None).
Proof.
  intros Htmp. unfold Benchmarker.new_Benchmarker. rewrite Htmp.
  eexists. split; [reflexivity|]. cbn [datasets models].
  destruct (fold_map_set (fun d => def_name (definition d)) (fun d => d) ds [])
    as [Hnd Hget]; [constructor|].
  destruct (fold_map_set (fun name : string => name)
              (fun name => path_resolve (path_resolve ROOT_DIR "models") name)
              modelNames []) as [Hnd' Hget']; [constructor|].
  split; [exact Hnd|]. split; [exact Hnd'|]. split.
  - intros name. rewrite Hget. unfold last_such. now destruct (fold_left _ ds None).
  - intros name. rewrite Hget'. cbn [map_get].
    pose proof (last_such_spec (fun x => String.eqb name x) modelNames) as Hspec.
    unfold last_such in Hspec.
    destruct (fold_left _ modelNames None) as [x|].
    + destruct Hspec as [Hin Heq]. apply String.eqb_eq in Heq. subst x.
      now rewrite bool_decide_eq_true_2.
    + rewrite bool_decide_eq_false_2; [reflexivity|].
      intros Hin. apply Hspec in Hin. now rewrite String.eqb_refl in Hin.
Qed.

Lemma new_Benchmarker_maps_witness :
  let d1 := {| definition := {| def_name := "set5"; def_path := Some "/old" |}; db := ∅ |} in
  let d2 := {| definition := {| def_name := "div2k"; def_path := Some "/div2k" |}; db := ∅ |} in
  let d3 := {| definition := {| def_name := "set5"; def_path := Some "/data" |}; db := ∅ |} in
  makeTmpDir Sample.env = Some "/tmp/run" /\
  exists b,
    Benchmarker.new_Benchmarker Sample.env ["a"; "b"; "a"] [d1; d2; d3] infinity []
    = (Ok b, [EvMkdir "/tmp/run"]) /\
    map fst (datasets b) = ["set5"; "div2k"] /\
    map_get "set5" (datasets b) = Some d3 /\
    map fst (models b) = ["a"; "b"].
Proof.
  intros d1 d2 d3. split; [reflexivity|].
  destruct (new_Benchmarker_maps Sample.env ["a"; "b"; "a"] [d1; d2; d3] infinity []
              "/tmp/run" eq_refl) as (b & Hb & _ & _ & Hget & _).
  exists b. split; [exact Hb|].
  injection Hb as <-. rewrite Hget. repeat split.
Defined.

(** ** What a run reports *)

Section Reports.
Context (env : Env) (run : string -> string * string * string).

Lemma appends_weaken (ok1 ok2 : Event -> bool) st st' :
  (forall e, ok1 e = true -> ok2 e = true) -> appends ok1 st st' -> appends ok2 st st'.
Proof.
  intros Himp (new & Hev & Hok). exists new. split; [exact Hev|].
  apply forallb_forall. intros e He. apply Himp.
  rewrite forallb_forall in Hok. now apply Hok.
Qed.

Lemma initialize_reports_nothing definition scale crop st r st' :
  Dataset.initialize env definition scale crop st = (r, st') ->
  appends not_report st st'.
Proof.
  unfold Dataset.initialize.
  destruct (def_path definition) as [definitionPath|];
    [|intros [= _ <-]; apply appends_refl].
  destruct (string_truthy definitionPath); [|intros [= _ <-]; apply appends_refl].
  unfold getFiles, mbind, M_bind. rewrite emit_run.
  destruct (walk _) as [names|e].
  { unfold mret, M_ret. rewrite emit_run.
    set (files := map _ names). set (total := of_nat (length files)).
    unfold Dataset.prepare.
    destruct (for_await_pool _ _ 0 tt files _) as [r1 st1] eqn:Hpool.
    apply (pool_invariant env definition (appends not_report)) in Hpool.
    - assert (H0 : appends not_report st st1).
      { eapply appends_trans; [|exact Hpool].
        exists [EvReaddir definitionPath; EvProgress 0 total].
        split; [cbn [events]; now rewrite <- app_assoc | reflexivity]. }
      destruct r1 as [[]|e]; [|intros [= _ <-]; exact H0].
      unfold Dataset.saveDatabase, get_database, put_database, mbind, M_bind, emit.
      cbn [database events]. intros [= _ <-].
      eapply appends_trans; [exact H0|]. eexists. split; reflexivity.
    - intros s. apply appends_refl.
    - intros s1 s2 s3. apply appends_trans.
    - intros item s r' s' Htask. apply processFile_trace in Htask.
      eapply appends_weaken; [|exact Htask]. now intros [].
    - intros s i. now apply (appends_with_events not_report s [EvProgress i total]). }
  intros [= _ <-]. now apply (appends_with_events not_report st [EvReaddir definitionPath]).
Qed.

Ltac solve_report_appends :=
  eexists; split; [cbn [events]; rewrite <- ?app_assoc; reflexivity | reflexivity].

Lemma processFile_reports_nothing tmp model scores item st r st' :
  Benchmarker.processFile env run tmp model scores item st = (r, st') ->
  appends not_report st st'.
Proof.
  destruct scores as [ssim0 psnr0]. intros H.
  unfold Benchmarker.processFile, Benchmarker.upscale, Dataset.getSize,
    Benchmarker.calculatePerformance, lift_result,
    mbind, M_bind, mret, M_ret, emit, throw in H.
  cbn [database events] in H.
  destruct (upscale_ok env model _); [|injection H as _ <-; solve_report_appends].
  cbn [database events] in H.
  destruct (sizeOf env _) as [|[w|] [h|]];
    try (injection H as _ <-; solve_report_appends).
  destruct (truthy w && truthy h); [|injection H as _ <-; solve_report_appends].
  cbn [fst snd] in H.
  destruct (strict_ne _ w || strict_ne _ h); [injection H as _ <-; solve_report_appends|].
  cbn [database events] in H.
  destruct (metric_of_output _); [|injection H as _ <-; solve_report_appends].
  cbn [database events] in H.
  destruct (metric_of_output _); injection H as _ <-; solve_report_appends.
Qed.

Lemma benchmark_pool_reports_nothing tmp model total files : forall i scores st r st',
  for_await_pool (Benchmarker.processFile env run tmp model)
    (fun j => emit (EvProgress j total)) i scores files st = (r, st') ->
  appends not_report st st'.
Proof.
  induction files as [|item files IH]; intros i scores st r st' H.
  - injection H as _ <-. apply appends_refl.
  - cbn [for_await_pool] in H. unfold mbind, M_bind in H.
    destruct (Benchmarker.processFile env run tmp model scores item st)
      as [r1 st1] eqn:Htask.
    apply processFile_reports_nothing in Htask.
    destruct r1 as [scores1|e]; [|injection H as _ <-; exact Htask].
    rewrite emit_run in H. apply IH in H.
    eapply appends_trans; [exact Htask|]. eapply appends_trans; [|exact H].
    now apply (appends_with_events not_report st1 [EvProgress (S i) total]).
Qed.

Lemma benchmark_pair_reports_nothing tmp limit crop dataset model st r st' :
  Benchmarker.benchmark_pair env run tmp limit crop dataset model st = (r, st') ->
  appends not_report st st'.
Proof.
  unfold Benchmarker.benchmark_pair.
  destruct (import_model env model) as [md|]; [|intros [= _ <-]; apply appends_refl].
  unfold mbind, M_bind.
  destruct (Dataset.initialize env dataset (md_scale md) crop st) as [r1 st1] eqn:Hinit.
  apply initialize_reports_nothing in Hinit.
  destruct r1 as [[]|e]; [|intros [= _ <-]; exact Hinit].
  unfold get_database, lift_result.
  destruct (Dataset.getFiles (database st1) (md_scale md) crop) as [files|e];
    [|intros [= _ <-]; exact Hinit].
  unfold Benchmarker.benchmark_files, mbind, M_bind. rewrite emit_run.
  destruct (for_await_pool _ _ 0 ([], []) files _) as [r2 st2] eqn:Hpool.
  apply benchmark_pool_reports_nothing in Hpool.
  assert (H2 : appends not_report st st2).
  { eapply appends_trans; [exact Hinit|]. eapply appends_trans; [|exact Hpool].
    now apply (appends_with_events not_report st1 [EvProgress 0 _]). }
  destruct r2 as [[ssim1 psnr1]|e]; intros [= _ <-]; exact H2.
Qed.

Lemma benchmark_models_run b crop ms : forall dataset results trace r dataset' trace',
  Benchmarker.benchmark_models env run b crop dataset ms results trace
  = (r, dataset', trace') ->
  definition dataset' = definition dataset /\
  (exists new, trace' = trace ++ new /\ forallb not_report new = true) /\
  forall results', r = Ok results' ->
    exists added, results' = results ++ added /\
      map entry_dataset added = repeat (def_name (definition dataset)) (length ms).
Proof.
  induction ms as [|[mname model] ms IH]; intros dataset results trace r dataset' trace' H.
  - injection H as <- <- <-. split; [reflexivity|]. split.
    + exists []. now rewrite app_nil_r.
    + intros results' [= <-]. exists []. now rewrite app_nil_r.
  - cbn [Benchmarker.benchmark_models] in H. unfold Benchmarker.on_dataset in H.
    destruct (Benchmarker.benchmark_pair env run (tmpDir b) (n b) crop (definition dataset)
                model {| database := db dataset; events := trace |}) as [r1 st1] eqn:Hpair.
    apply benchmark_pair_reports_nothing in Hpair as (new1 & Hev1 & Hnew1).
    cbn [events] in Hev1.
    destruct r1 as [[md result]|e].
    + apply IH in H as (Hdef & (new2 & Hev2 & Hnew2) & Hresults).
      cbn [definition] in Hdef, Hresults. split; [exact Hdef|]. split.
      * exists (new1 ++ new2). split; [rewrite Hev2, Hev1; now rewrite app_assoc|].
        now rewrite forallb_app, Hnew1, Hnew2.
      * intros results' Hr. destruct (Hresults results' Hr) as (added & -> & Hadded).
        eexists. split; [now rewrite <- app_assoc|].
        cbn [app map entry_dataset length repeat]. now rewrite Hadded.
    + injection H as <- <- <-. split; [reflexivity|]. split; [eauto | discriminate].
Qed.

Lemma benchmark_datasets_run b crop ds : forall results trace r trace',
  Benchmarker.benchmark_datasets env run b crop ds results trace = (r, trace') ->
  (exists new, trace' = trace ++ new /\ forallb not_report new = true) /\
  forall results', r = Ok results' ->
    exists added, results' = results ++ added /\
      map entry_dataset added = pair_order b ds.
Proof.
  induction ds as [|[dname dataset] ds IH]; intros results trace r trace' H.
  - injection H as <- <-. split.
    + exists []. now rewrite app_nil_r.
    + intros results' [= <-]. exists []. now rewrite app_nil_r.
  - cbn [Benchmarker.benchmark_datasets] in H.
    destruct (Benchmarker.benchmark_models env run b crop dataset (models b) results trace)
      as [[r1 dataset'] trace1] eqn:Hmodels.
    apply benchmark_models_run in Hmodels as (_ & (new1 & -> & Hnew1) & Hresults1).
    destruct r1 as [results1|e].
    + apply IH in H as ((new2 & -> & Hnew2) & Hresults2). split.
      * exists (new1 ++ new2). split; [now rewrite app_assoc|].
        now rewrite forallb_app, Hnew1, Hnew2.
      * intros results' Hr.
        destruct (Hresults1 results1 eq_refl) as (added1 & -> & Hadded1).
        destruct (Hresults2 results' Hr) as (added2 & -> & Hadded2).
        exists (added1 ++ added2). split; [now rewrite <- app_assoc|].
        unfold pair_order. cbn [flat_map snd]. now rewrite map_app, Hadded1, Hadded2.
    + injection H as <- <-. split; [eauto | discriminate].
Qed.

(** X20: results are reported at the very end and only then.  A run that
    ends well has made its calls and then printed one result per (dataset,
    model) pair, dataset by dataset in the order of the map, each dataset
    with every model; a run that fails has printed no result at all, not
    even for the pairs it had completed. *)
Theorem benchmark_reports (b : BenchmarkerObject) (crop : option number)
    (trace : list Event) (r : Result unit) (trace' : list Event) :
  Benchmarker.benchmark env run b crop trace = (r, trace') ->
  exists new results,
    forallb not_report new = true /\
    match r with
    | Ok _ =>
        trace' = trace ++ new ++ map report results /\
        map entry_dataset results = pair_order b (datasets b)
    | Throw _ => trace' = trace ++ new
    end.
Proof.
  unfold Benchmarker.benchmark.
  destruct (Benchmarker.benchmark_datasets env run b crop (datasets b) [] trace)
    as [r1 trace1] eqn:Hrun.
  apply benchmark_datasets_run in Hrun as ((new & -> & Hnew) & Hresults).
  destruct r1 as [results|e]; intros [= <- <-].
  - destruct (Hresults results eq_refl) as (added & Heq & Horder). cbn [app] in Heq.
    subst added. exists new, results. split; [exact Hnew|].
    split; [now rewrite <- app_assoc | exact Horder].
  - exists new, []. auto.
Qed.

End Reports.

Lemma benchmark_reports_witness :
  let dataset := new_Dataset Worlds.env_even
                   {| def_name := "set5"; def_path := Some "/data" |} in
  let b := {| n := infinity;
              models := [("esrgan-slim", "/upscalerjs/models/esrgan-slim")];
              datasets := [("set5", dataset)];
              tmpDir := "/tmp/run" |} in
  exists new results,
    Benchmarker.benchmark Worlds.env_even Sample.stub_run b None []
    = (Ok tt, new ++ map report results) /\
    forallb not_report new = true /\
    map entry_dataset results = ["set5"].
Proof.
  intros dataset b.
  let r := eval vm_compute in
    (Benchmarker.benchmark Worlds.env_even Sample.stub_run b None []) in
  lazymatch r with (Ok tt, ?t) => pose (trace' := t) end.
  assert (H : Benchmarker.benchmark Worlds.env_even Sample.stub_run b None []
              = (Ok tt, trace')) by (vm_compute; reflexivity).
  destruct (benchmark_reports Worlds.env_even Sample.stub_run b None [] (Ok tt) trace' H)
    as (new & results & Hnew & Htrace & Horder).
  exists new, results. rewrite H, Htrace. auto.
Defined.

(** ** The reported means *)

Section ReportedMean.
Context (env : Env) (run : string -> string * string * string).

Lemma avg_nil : avg [] = nan.
Proof. reflexivity. Qed.

Lemma benchmark_pair_mean tmp limit crop dataset model st md result st' :
  Benchmarker.benchmark_pair env run tmp limit crop dataset model st
  = (Ok (md, result), st') ->
  reported_mean env run tmp crop (dataset, model)
    {| entry_model := md; entry_dataset := def_name dataset; entry_result := result |}.
Proof.
  unfold Benchmarker.benchmark_pair, reported_mean. cbn [fst snd entry_model entry_dataset
    entry_result].
  destruct (import_model env model) as [md'|] eqn:Hmodel; [|discriminate].
  intros H.
  apply bind_inv_ok in H as ([] & st1 & Hinit & H).
  apply bind_inv_ok in H as (db1 & st2 & Hdb & H).
  injection Hdb as <- <-.
  apply bind_inv_ok in H as (files & st3 & Hfiles & H).
  unfold lift_result in Hfiles.
  destruct (Dataset.getFiles (database st1) (md_scale md') crop) as [files'|e] eqn:Hget;
    [|discriminate].
  injection Hfiles as <- <-.
  apply bind_inv_ok in H as (result' & st4 & Hloop & H).
  injection H as <- <- <-.
  destruct (benchmark_files_mean env run tmp model limit files') as (Hmean & _ & _).
  destruct (Hmean _ _ _ Hloop) as (ssims & psnrs & Hs & Hp & Hssim & Hpsnr).
  split; [reflexivity|]. split; [reflexivity|].
  exists st, st1, files', ssims, psnrs.
  split; [exact Hinit|]. split; [exact Hget|]. split; [exact Hs|]. split; [exact Hp|].
  assert (Hresult : result' = {| ssim := avg ssims; psnr := avg psnrs |}).
  { destruct result'. cbn in Hssim, Hpsnr. now subst. }
  split; [exact Hresult|].
  intros ->. inversion Hs; subst. inversion Hp; subst. reflexivity.
Qed.

Lemma benchmark_models_mean b crop ms : forall dataset results trace results' dataset' trace',
  Benchmarker.benchmark_models env run b crop dataset ms results trace
  = (Ok results', dataset', trace') ->
  exists added,
    results' = results ++ added /\
    Forall2 (reported_mean env run (tmpDir b) crop)
            (map (fun m => (definition dataset, snd m)) ms) added.
Proof.
  induction ms as [|[mname model] ms IH]; intros dataset results trace results' dataset' trace' H.
  - injection H as <- _ _. exists []. split; [now rewrite app_nil_r | constructor].
  - cbn [Benchmarker.benchmark_models] in H. unfold Benchmarker.on_dataset in H.
    destruct (Benchmarker.benchmark_pair env run (tmpDir b) (n b) crop (definition dataset)
                model {| database := db dataset; events := trace |})
      as [[[md result]|e] st1] eqn:Hpair; [|discriminate].
    apply benchmark_pair_mean in Hpair.
    apply IH in H as (added & -> & Hadded). cbn [definition] in *.
    eexists. split; [now rewrite <- app_assoc|].
    cbn [map snd app]. constructor; assumption.
Qed.

Lemma benchmark_datasets_mean b crop ds : forall results trace results' trace',
  Benchmarker.benchmark_datasets env run b crop ds results trace = (Ok results', trace') ->
  exists added,
    results' = results ++ added /\
    Forall2 (reported_mean env run (tmpDir b) crop)
            (flat_map (fun d => map (fun m => (definition (snd d), snd m)) (models b)) ds)
            added.
Proof.
  induction ds as [|[dname dataset] ds IH]; intros results trace results' trace' H.
  - injection H as <- _. exists []. split; [now rewrite app_nil_r | constructor].
  - cbn [Benchmarker.benchmark_datasets] in H.
    destruct (Benchmarker.benchmark_models env run b crop dataset (models b) results trace)
      as [[[results1|e] dataset'] trace1] eqn:Hmodels; [|discriminate].
    apply benchmark_models_mean in Hmodels as (added1 & -> & Hadded1).
    apply IH in H as (added2 & -> & Hadded2).
    exists (added1 ++ added2). split; [now rewrite <- app_assoc|].
    cbn [flat_map snd]. now apply Forall2_app.
Qed.

End ReportedMean.

Lemma score_runScript (env : Env) (tmp metric : string) (item : PreparedFile) :
  score (runScript env) tmp metric item = Throw NoMetricError.
Proof. unfold score. apply metric_without_output, runScript_collects_no_stderr. Qed.

(** C6: what [benchmark] reports when it ends well: after all the calls of
    the run, one result per (dataset, model) pair in the order the pairs
    were run, naming the dataset, holding the imported model, and with
    [ssim] and [psnr] the sum of the scores of the files of the pair
    divided by their count, one score per file [getFiles] returned after
    the [initialize] of the pair; with no file both are NaN.  The loop of
    a pair completes when every file is ready.  This holds for any process
    runner; with the runner of the script no score is ever found, so every
    result it reports is that of a pair without files. *)
Theorem reported_result_is_mean
    (env : Env) (run : string -> string * string * string)
    (b : BenchmarkerObject) (crop : option number) :
  (forall trace trace',
     Benchmarker.benchmark env run b crop trace = (Ok tt, trace') ->
     exists new results,
       trace' = trace ++ new ++ map report results /\
       forallb not_report new = true /\
       Forall2 (reported_mean env run (tmpDir b) crop) (pairs b) results) /\
  (forall model files,
     Forall (file_ready env run (tmpDir b) model) files ->
     forall st, exists ssims psnrs st',
       Forall2 (fun item s => score run (tmpDir b) "ssim" item = Ok s) files ssims /\
       Forall2 (fun item q => score run (tmpDir b) "psnr" item = Ok q) files psnrs /\
       Benchmarker.benchmark_files env run (tmpDir b) (n b) model files st
       = (Ok {| ssim := avg ssims; psnr := avg psnrs |}, st')) /\
  (run = runScript env ->
   forall p e,
     reported_mean env run (tmpDir b) crop p e ->
     entry_result e = {| ssim := nan; psnr := nan |}).
Proof.
  split; [|split].
  - intros trace trace' H. unfold Benchmarker.benchmark in H.
    destruct (Benchmarker.benchmark_datasets env run b crop (datasets b) [] trace)
      as [[results|e] trace1] eqn:Hrun; [|discriminate].
    injection H as <-.
    pose proof (benchmark_datasets_mean env run b crop _ _ _ _ _ Hrun)
      as (added & Heq & Hmean).
    cbn [app] in Heq. subst added.
    apply benchmark_datasets_run in Hrun as ((new & -> & Hnew) & _).
    exists new, results. split; [now rewrite <- app_assoc|]. split; [exact Hnew|].
    exact Hmean.
  - intros model files Hready st.
    destruct (benchmark_files_mean env run (tmpDir b) model (n b) files)
      as (Hmean & Htotal & _).
    destruct (Htotal Hready st) as ([s q] & st' & Hrun).
    destruct (Hmean _ _ _ Hrun) as (ssims & psnrs & Hs & Hp & Hssim & Hpsnr).
    cbn in Hssim, Hpsnr. subst. eauto 10.
  - intros -> p e (_ & _ & st & st1 & files & ssims & psnrs & _ & _ & Hs & _ & _ & Hnil).
    apply Hnil. destruct Hs as [|item s files ssims Hitem _]; [reflexivity|].
    rewrite score_runScript in Hitem. discriminate.
Qed.

Lemma reported_result_is_mean_witness :
  let definition := {| def_name := "set5"; def_path := Some "/data" |} in
  let model := "/upscalerjs/models/esrgan-slim" in
  let md := {| md_scale := 2%float; md_package := Some "esrgan-slim" |} in
  let make := fun env => {| n := infinity;
                            models := [("esrgan-slim", model)];
                            datasets := [("set5", new_Dataset env definition)];
                            tmpDir := "/tmp/run" |} in
  (exists trace' new results,
     Benchmarker.benchmark Worlds.env_empty (runScript Worlds.env_empty)
       (make Worlds.env_empty) None [] = (Ok tt, trace') /\
     trace' = new ++ map report results /\
     Forall2 (reported_mean Worlds.env_empty (runScript Worlds.env_empty) "/tmp/run" None)
             [(definition, model)] results /\
     filter is_report trace' = [EvReport md "set5" {| ssim := nan; psnr := nan |}]) /\
  (exists trace' new results,
     Benchmarker.benchmark Worlds.env_even Sample.stub_run (make Worlds.env_even) None []
     = (Ok tt, trace') /\
     trace' = new ++ map report results /\
     Forall2 (reported_mean Worlds.env_even Sample.stub_run "/tmp/run" None)
             [(definition, model)] results /\
     filter is_report trace'
     = [EvReport md "set5" {| ssim := avg [0.9; 0.8]%float; psnr := 29%float |}]).
Proof.
  intros definition model md make. split.
  - let r := eval vm_compute in
      (Benchmarker.benchmark Worlds.env_empty (runScript Worlds.env_empty)
         (make Worlds.env_empty) None []) in
    lazymatch r with (_, ?t) => pose (trace' := t) end.
    assert (H : Benchmarker.benchmark Worlds.env_empty (runScript Worlds.env_empty)
                  (make Worlds.env_empty) None [] = (Ok tt, trace'))
      by (vm_compute; reflexivity).
    destruct (reported_result_is_mean Worlds.env_empty (runScript Worlds.env_empty)
                (make Worlds.env_empty) None) as (Hreport & _ & _).
    destruct (Hreport [] trace' H) as (new & results & Htrace & _ & Hmean).
    exists trace', new, results. split; [exact H|]. split; [exact Htrace|].
    split; [exact Hmean|]. vm_compute. reflexivity.
  - let r := eval vm_compute in
      (Benchmarker.benchmark Worlds.env_even Sample.stub_run (make Worlds.env_even) None []) in
    lazymatch r with (_, ?t) => pose (trace' := t) end.
    assert (H : Benchmarker.benchmark Worlds.env_even Sample.stub_run (make Worlds.env_even)
                  None [] = (Ok tt, trace')) by (vm_compute; reflexivity).
    destruct (reported_result_is_mean Worlds.env_even Sample.stub_run
                (make Worlds.env_even) None) as (Hreport & _ & _).
    destruct (Hreport [] trace' H) as (new & results & Htrace & _ & Hmean).
    exists trace', new, results. split; [exact H|]. split; [exact Htrace|].
    split; [exact Hmean|]. vm_compute. reflexivity.
Defined.

(** ** The limit [n] *)

Section Limit.
Context (env : Env) (run : string -> string * string * string).

Lemma processFile_frame tmp model scores item :
  exists r new, forall st,
    Benchmarker.processFile env run tmp model scores item st = (r, with_events st new).
Proof.
  destruct scores as [ssim0 psnr0].
  unfold Benchmarker.processFile, Benchmarker.upscale, Dataset.getSize,
    Benchmarker.calculatePerformance, lift_result, with_events,
    mbind, M_bind, mret, M_ret, emit, throw.
  cbn [database events].
  destruct (upscale_ok env model _); [|eexists; eexists; intros st; reflexivity].
  cbn [database events].
  destruct (sizeOf env _) as [|[w|] [h|]];
    try (eexists; eexists; intros st; rewrite <- ?app_assoc; reflexivity).
  destruct (truthy w && truthy h);
    [|eexists; eexists; intros st; rewrite <- ?app_assoc; reflexivity].
  cbn [fst snd].
  destruct (strict_ne _ w || strict_ne _ h);
    [eexists; eexists; intros st; rewrite <- ?app_assoc; reflexivity|].
  cbn [database events].
  destruct (metric_of_output _);
    [|eexists; eexists; intros st; rewrite <- ?app_assoc; reflexivity].
  cbn [database events].
  destruct (metric_of_output _);
    eexists; eexists; intros st; rewrite <- ?app_assoc; reflexivity.
Qed.

Lemma pool_limit tmp model total1 total2 files : forall i scores st1 st2,
  database st1 = database st2 ->
  map erase_total (events st1) = map erase_total (events st2) ->
  let run1 := for_await_pool (Benchmarker.processFile env run tmp model)
                (fun j => emit (EvProgress j total1)) i scores files st1 in
  let run2 := for_await_pool (Benchmarker.processFile env run tmp model)
                (fun j => emit (EvProgress j total2)) i scores files st2 in
  fst run1 = fst run2 /\
  database (snd run1) = database (snd run2) /\
  map erase_total (events (snd run1)) = map erase_total (events (snd run2)).
Proof.
  induction files as [|item files IH]; intros i scores st1 st2 Hdb Hev.
  - cbn. auto.
  - cbn [for_await_pool]. unfold mbind, M_bind.
    destruct (processFile_frame tmp model scores item) as (r & new & Hitem).
    rewrite !Hitem. destruct r as [scores'|e].
    + rewrite !emit_run. apply IH.
      * exact Hdb.
      * cbn [events with_events]. rewrite !map_app, Hev. reflexivity.
    + cbn [fst snd with_events database events]. rewrite !map_app, Hev. auto.
Qed.

(** X21: the limit [n] limits nothing.  Whatever its value, the loop over
    the files of a pair upscales and compares every file, ends the same
    way with the same result, and makes the same calls in the same order;
    the one thing [n] changes is the total the progress bar is rendered
    against. *)
Theorem benchmark_files_limit (tmp : string) (limit limit' : number) (model : string)
    (files : list PreparedFile) (st : State) :
  let run1 := Benchmarker.benchmark_files env run tmp limit model files st in
  let run2 := Benchmarker.benchmark_files env run tmp limit' model files st in
  fst run1 = fst run2 /\
  database (snd run1) = database (snd run2) /\
  map erase_total (events (snd run1)) = map erase_total (events (snd run2)).
Proof.
  unfold Benchmarker.benchmark_files, mbind, M_bind. rewrite !emit_run.
  set (total1 := Math_min limit _). set (total2 := Math_min limit' _).
  destruct (pool_limit tmp model total1 total2 files 0 ([], [])
              (with_events st [EvProgress 0 total1])
              (with_events st [EvProgress 0 total2]) eq_refl) as (Hr & Hdb & Hev).
  { cbn [events with_events]. now rewrite !map_app. }
  unfold with_events in Hr, Hdb, Hev. cbv zeta in Hr, Hdb, Hev.
  destruct (for_await_pool _ (fun j => emit (EvProgress j total1)) 0 _ files _) as [r1 s1].
  destruct (for_await_pool _ (fun j => emit (EvProgress j total2)) 0 _ files _) as [r2 s2].
  cbn [fst snd] in Hr, Hdb, Hev. subst r2.
  destruct r1 as [[ssim1 psnr1]|e]; cbn [fst snd mret M_ret]; auto.
Qed.

End Limit.

(** ** The script as a program *)

(** X1: the probe [convert -version] is the first thing the program
    does.  When it fails, whatever the failure, the program ends with the
    installation error and has done nothing else: no argument is read, no
    working directory made.  When it succeeds the program goes on to
    [benchmarkPerformance], and everything else it does comes after the
    probe. *)
Theorem main_probes_first
    (env : Env) (ask : string -> JSValue -> string) (argv : Argv) (trace0 : list Event) :
  match exit_error (exec env "convert -version") with
  | Some _ =>
      main env ask argv trace0
      = inl (ImagemagickError imagemagick_message, trace0 ++ [EvExec "convert -version"])
  | None =>
      exists run rest,
        main env ask argv trace0 = inr run /\
        trace run = trace0 ++ EvExec "convert -version" :: rest
  end.
Proof.
  unfold main, checkImagemagickInstallation, callExec.
  destruct (exit_error (exec env "convert -version")); [reflexivity|].
  cbn [fst]. unfold benchmarkPerformance, executor, Benchmarker.new_Benchmarker.
  destruct (makeTmpDir env) as [tmp|];
    [|eexists; exists []; split; reflexivity].
  assert (Hbenchmark : forall b crop trace1 r trace',
            Benchmarker.benchmark env (runScript env) b crop trace1 = (r, trace') ->
            exists new, trace' = trace1 ++ new).
  { intros b crop trace1 r trace' H. unfold Benchmarker.benchmark in H.
    destruct (Benchmarker.benchmark_datasets env (runScript env) b crop (datasets b) []
                trace1) as [r1 trace2] eqn:Hrun.
    apply benchmark_datasets_run in Hrun as ((new & -> & _) & _).
    destruct r1 as [results|e]; injection H as _ <-; [|eauto].
    eexists. now rewrite <- app_assoc. }
  unfold Benchmarker.cleanup.
  destruct (rmSync_ok env); cbv beta iota zeta;
    match goal with
    | |- context [Benchmarker.benchmark ?e ?r ?b ?c ?t] =>
        destruct (Benchmarker.benchmark e r b c t) as [bg trace3] eqn:Hb
    end;
    apply Hbenchmark in Hb as [new ->];
    eexists; eexists; (split; [reflexivity|]); cbn [trace];
    rewrite <- !app_assoc; reflexivity.
Qed.

(** X2: a dataset named on the command line without a usable path (none,
    the empty string, 0, NaN or false) gets the empty path, not an absent
    one, and [initialize] on it throws the missing-path error with the
    state untouched. *)
Theorem getDataset_without_path
    (env : Env) (ask : string -> JSValue -> string) (name : string) (p : JSValue)
    (scale : number) (crop : option number) (st : State) :
  string_truthy name = true ->
  value_truthy p = false ->
  getDataset env ask (JString name) p = {| def_name := name; def_path := Some EmptyString |} /\
  Dataset.initialize env (getDataset env ask (JString name) p) scale crop st
  = (Throw (MissingPathError (missing_path_message name)), st).
Proof.
  intros Hname Hp.
  assert (H : getDataset env ask (JString name) p
              = {| def_name := name; def_path := Some EmptyString |}).
  { unfold getDataset. now rewrite Hname, Hp. }
  split; [exact H|]. rewrite H. reflexivity.
Qed.

Lemma getDataset_without_path_witness :
  string_truthy "set5" = true /\ value_truthy (JNumber 0%float) = false /\
  Dataset.initialize Sample.env
    (getDataset Sample.env (fun _ _ => "asked") (JString "set5") (JNumber 0%float))
    2%float None {| database := ∅; events := [] |}
  = (Throw (MissingPathError (missing_path_message "set5")),
     {| database := ∅; events := [] |}).
Proof.
  split; [reflexivity|]. split; [reflexivity|].
  apply (getDataset_without_path Sample.env (fun _ _ => "asked") "set5" (JNumber 0%float));
    reflexivity.
Defined.

(** X3: the program run with a dataset name and no path, ImageMagick
    being installed and the model loading: the working directory is made
    and removed, the background benchmark then rejects with the
    missing-path error before any directory is read or image touched, the
    executor has returned, and the promise is pending. *)
Theorem main_with_name_only
    (env : Env) (ask : string -> JSValue -> string) (name tmp : string)
    (output limit cropSize : JSValue) (md : ModelDefinition) (trace0 : list Event) :
  string_truthy name = true ->
  exit_error (exec env "convert -version") = None ->
  makeTmpDir env = Some tmp ->
  import_model env (path_resolve (path_resolve ROOT_DIR "models")
                                 "esrgan-slim/dist/cjs/index.js") = Some md ->
  exists run,
    main env ask {| positional := [JString name]; argv_outputFile := output;
                    argv_n := limit; argv_cropped := cropSize |} trace0 = inr run /\
    background run = Some (Throw (MissingPathError (missing_path_message name))) /\
    trace run = trace0 ++ [EvExec "convert -version"; EvMkdir tmp; EvRemove tmp] /\
    promise run = Pending.
Proof.
  intros Hname Hprobe Htmp Hmodel.
  unfold main, checkImagemagickInstallation, callExec. rewrite Hprobe. cbn [fst].
  eexists. split; [reflexivity|].
  unfold getArgs. cbn [positional nth args_dataset args_outputFile args_n args_cropped].
  unfold getDataset. rewrite Hname. cbn [value_truthy template].
  unfold benchmarkPerformance, executor, Benchmarker.new_Benchmarker. rewrite Htmp.
  cbn [map fold_left map_set new_Dataset definition def_name].
  unfold Benchmarker.cleanup, Benchmarker.benchmark. cbn [datasets models tmpDir n].
  assert (Hrun : forall trace b crop,
    models b = [("esrgan-slim/dist/cjs/index.js",
                 path_resolve (path_resolve ROOT_DIR "models") "esrgan-slim/dist/cjs/index.js")] ->
    Benchmarker.benchmark_datasets env (runScript env) b crop
      [(name, new_Dataset env {| def_name := name; def_path := Some EmptyString |})] [] trace
    = (Throw (MissingPathError (missing_path_message name)), trace)).
  { intros trace b crop Hm. cbn [Benchmarker.benchmark_datasets].
    rewrite Hm. cbn [Benchmarker.benchmark_models]. unfold Benchmarker.on_dataset,
      Benchmarker.benchmark_pair. rewrite Hmodel.
    cbn [definition new_Dataset]. unfold mbind, M_bind.
    cbn [Dataset.initialize def_path def_name string_truthy throw events].
    reflexivity. }
  destruct (rmSync_ok env).
  - rewrite Hrun by reflexivity.
    cbn [background trace calls].
    split; [reflexivity|]. split; [now rewrite <- !app_assoc | reflexivity].
  - rewrite Hrun by reflexivity.
    cbn [background trace calls].
    split; [reflexivity|]. split; [now rewrite <- !app_assoc | reflexivity].
Qed.

Lemma main_with_name_only_witness :
  exists run,
    main Sample.env (fun _ _ => EmptyString)
      {| positional := [JString "set5"]; argv_outputFile := JUndefined;
         argv_n := JNumber 10%float; argv_cropped := JUndefined |} [] = inr run /\
    background run = Some (Throw (MissingPathError (missing_path_message "set5"))) /\
    trace run = [EvExec "convert -version"; EvMkdir "/tmp/run"; EvRemove "/tmp/run"].
Proof.
  destruct (main_with_name_only Sample.env (fun _ _ => EmptyString) "set5" "/tmp/run"
              JUndefined (JNumber 10%float) JUndefined
              {| md_scale := 2%float; md_package := Some "esrgan-slim" |} [])
    as (run & Hmain & Hbg & Htrace & _); try reflexivity.
  exists run. auto.
Defined.
